(** * PDFExtractor: outline inference of [simple_pdf_extractor.py]

    A shallow embedding of [MultilingualPDFHeadingExtractor] and the
    properties of its line merger, font thresholds, heading classifiers,
    text cleaner and single-document pipeline.

    Conventions of the embedding.
    - A Python [str] is the list of its code points ([N]).  Whitespace
      ([str.isspace], [\s]) and decimal digits ([\d]) are the tables of
      the Unicode database shipped with CPython 3.11 (Unicode 14).
    - Python floats (coordinates, font sizes, thresholds) are rationals
      ([Q]); arithmetic on them is exact.
    - A line dictionary is a record whose fields are optional: a missing
      key raises [KeyError], as [line["key"]] does.
    - [try ... except] is explicit: a computation returns [Ok v] or
      [Raise e], and a handler is a match on the result. *)

From Stdlib Require Import List String Ascii Bool Arith ZArith NArith QArith Qround Qabs Lia Lqa.
From Stdlib Require Import Permutation Sorted.
Import ListNotations.

Set Implicit Arguments.
Unset Strict Implicit.

(** ** Python strings *)

Module PyStr.

Definition char := N.
Definition str := list char.

(** The code points of an ASCII literal. *)
Definition lit (s : string) : str :=
  List.map N_of_ascii (list_ascii_of_string s).

Definition in_range (lo hi c : N) : bool := ((lo <=? c) && (c <=? hi))%N.

(** [str.isspace] on one character, which is also the class [\s]. *)
Definition isspace (c : char) : bool :=
  in_range 9 13 c || in_range 28 32 c || (c =? 133)%N || (c =? 160)%N
  || (c =? 5760)%N || in_range 8192 8202 c || in_range 8232 8233 c
  || (c =? 8239)%N || (c =? 8287)%N || (c =? 12288)%N.

(** First code point of every block of ten decimal digits (category Nd). *)
Definition decimal_zeros : list N :=
  [48; 1632; 1776; 1984; 2406; 2534; 2662; 2790; 2918; 3046; 3174; 3302;
   3430; 3558; 3664; 3792; 3872; 4160; 4240; 6112; 6160; 6470; 6608; 6784;
   6800; 6992; 7088; 7232; 7248; 42528; 43216; 43264; 43472; 43504; 43600;
   44016; 65296; 66720; 68912; 69734; 69872; 69942; 70096; 70384; 70736;
   70864; 71248; 71360; 71472; 71904; 72016; 72784; 73040; 73120; 92768;
   92864; 93008; 120782; 120792; 120802; 120812; 120822; 123200; 123632;
   125264; 130032]%N.

(** The class [\d] of a [str] pattern. *)
Definition is_decimal (c : char) : bool :=
  existsb (fun z => in_range z (z + 9) c) decimal_zeros.

Definition is_ascii (c : char) : bool := (c <? 128)%N.
Definition is_AZ (c : char) : bool := in_range 65 90 c.
Definition is_az (c : char) : bool := in_range 97 122 c.

Definition len (s : str) : Z := Z.of_nat (List.length s).

Definition str_eqb (a b : str) : bool :=
  if list_eq_dec N.eq_dec a b then true else false.

Fixpoint lstrip (s : str) : str :=
  match s with
  | c :: s' => if isspace c then lstrip s' else s
  | [] => []
  end.

Definition rstrip (s : str) : str := rev (lstrip (rev s)).

(** [s.strip()] *)
Definition strip (s : str) : str := rstrip (lstrip s).

Fixpoint startswith (s p : str) : bool :=
  match p, s with
  | [], _ => true
  | _ :: _, [] => false
  | a :: p', b :: s' => (a =? b)%N && startswith s' p'
  end.

Definition endswith (s p : str) : bool := startswith (rev s) (rev p).

(** [p in s] *)
Fixpoint contains (s p : str) : bool :=
  startswith s p || match s with [] => false | _ :: s' => contains s' p end.

(** [sep.join(parts)] *)
Fixpoint join (sep : str) (parts : list str) : str :=
  match parts with
  | [] => []
  | [p] => p
  | p :: rest => p ++ sep ++ join sep rest
  end.

(** [s.replace(c, r)] for a one-character [c]. *)
Definition replace_char (c : char) (r : str) (s : str) : str :=
  flat_map (fun x => if (x =? c)%N then r else [x]) s.

(** [s.rstrip(':')] *)
Fixpoint lstrip_char (k : char) (s : str) : str :=
  match s with
  | c :: s' => if (c =? k)%N then lstrip_char k s' else s
  | [] => []
  end.

Definition rstrip_char (k : char) (s : str) : str := rev (lstrip_char k (rev s)).

Fixpoint drop_while (p : char -> bool) (s : str) : str :=
  match s with
  | c :: s' => if p c then drop_while p s' else s
  | [] => []
  end.

(** *** The three substitutions of the cleaner

    The patterns are fixed, so each [re.sub] is written as the function
    it computes. *)

Definition is_dot (c : char) : bool := (c =? 46)%N.
Definition is_nl (c : char) : bool := (c =? 10)%N.

(** What is left of [s] when [.*$] matches at its start: [.] is any
    character but a newline, and [$] is the end of the string or the
    position before a newline that ends the string. *)
Fixpoint dotstar_end (s : str) : option str :=
  match s with
  | [] => Some []
  | c :: s' =>
      if is_nl c then match s' with [] => Some [c] | _ :: _ => None end
      else dotstar_end s'
  end.

(** [re.sub(r'\.{2,}.*$', '', s)]: the leftmost pair of dots from which
    the rest of the string can be consumed starts the only match. *)
Fixpoint sub_leaders (s : str) : str :=
  match s with
  | c1 :: s1 =>
      match s1 with
      | c2 :: s2 =>
          if is_dot c1 && is_dot c2 then
            match dotstar_end s2 with
            | Some rest => rest
            | None => c1 :: sub_leaders s1
            end
          else c1 :: sub_leaders s1
      | [] => s
      end
  | [] => []
  end.

(** [s] is in [\s+\d+\s*]: the match then runs to the end of the string. *)
Definition ws_number_tail (s : str) : bool :=
  match s with
  | c :: s' =>
      isspace c &&
      match lstrip s' with
      | d :: r => is_decimal d && forallb isspace (drop_while is_decimal r)
      | [] => false
      end
  | [] => false
  end.

(** [re.sub(r'\s+\d+\s*$', '', s)] *)
Fixpoint sub_trailing_number (s : str) : str :=
  match s with
  | [] => []
  | c :: s' => if ws_number_tail s then [] else c :: sub_trailing_number s'
  end.

Fixpoint collapse_from (in_run : bool) (s : str) : str :=
  match s with
  | [] => []
  | c :: s' =>
      if isspace c then
        if in_run then collapse_from true s' else 32%N :: collapse_from true s'
      else c :: collapse_from false s'
  end.

(** [re.sub(r'\s+', ' ', s)] *)
Definition sub_whitespace (s : str) : str := collapse_from false s.

End PyStr.
Import PyStr.

(** ** Text Cleaner *)

(** [unicode_fixes], in the insertion order of the dictionary. *)
Definition unicode_fixes : list (char * str) :=
  [ (8217%N, lit "'"); (8216%N, lit "'");
    (8220%N, [34%N]); (8221%N, [34%N]);
    (8211%N, [8211%N]); (8212%N, [8212%N]);
    (8230%N, lit "..."); (160%N, lit " ") ].

(** [for unicode_char, replacement in unicode_fixes.items():
      cleaned = cleaned.replace(unicode_char, replacement)] *)
Definition apply_fixes (cleaned : str) : str :=
  fold_left (fun acc kr => replace_char (fst kr) (snd kr) acc) unicode_fixes cleaned.

(** [_clean_heading_text].  The comparison [len(cleaned) < len(original) * 0.4]
    is the integer comparison [5 * len(cleaned) < 2 * len(original)]: the
    product of a length and the double nearest to 0.4 is below an integer
    exactly when the exact product is.  On a [str] no step of the body
    raises, so the handler is not written. *)
Definition _clean_heading_text (text : str) : str :=
  let original := strip text in
  let cleaned := strip (sub_leaders text) in
  let cleaned := strip (sub_trailing_number cleaned) in
  let cleaned := strip (sub_whitespace cleaned) in
  let cleaned := apply_fixes cleaned in
  let cleaned := if (5 * len cleaned <? 2 * len original)%Z then original else cleaned in
  if negb (endswith cleaned (lit " ")) then cleaned ++ lit " " else cleaned.

(** ** Regular expressions

    The patterns of the classifiers, written with backtracking matchers in
    continuation style: a matcher receives what must match after it and the
    rest of the subject, and returns what is left after the whole match.
    Alternatives are tried in the order of Python's engine (greedy: longest
    first; lazy: shortest first). *)

Module Re.

Definition cont := str -> option str.
Definition re := cont -> cont.

Definition accept : cont := fun s => Some s.

(** One character of a class. *)
Definition cls (p : char -> bool) : re := fun k s =>
  match s with
  | c :: s' => if p c then k s' else None
  | [] => None
  end.

Definition chr (x : char) : re := cls (fun c => (c =? x)%N).

(** A literal. *)
Fixpoint chars (w : str) : re := fun k =>
  match w with
  | [] => k
  | x :: w' => chr x (chars w' k)
  end.

(** [p*], greedy. *)
Fixpoint star (p : char -> bool) (k : cont) (s : str) : option str :=
  match s with
  | c :: s' =>
      if p c then
        match star p k s' with
        | Some r => Some r
        | None => k s
        end
      else k s
  | [] => k s
  end.

(** [p+], greedy. *)
Definition plus (p : char -> bool) : re := fun k => cls p (star p k).

(** [p*?], lazy. *)
Fixpoint lazy_star (p : char -> bool) (k : cont) (s : str) : option str :=
  match k s with
  | Some r => Some r
  | None =>
      match s with
      | c :: s' => if p c then lazy_star p k s' else None
      | [] => None
      end
  end.

(** [p{n}] *)
Fixpoint times (n : nat) (p : char -> bool) : re := fun k =>
  match n with
  | O => k
  | S n' => cls p (times n' p k)
  end.

Definition alt (r1 r2 : re) : re := fun k s =>
  match r1 k s with
  | Some r => Some r
  | None => r2 k s
  end.

(** [$] without MULTILINE. *)
Definition dollar : re := fun k s =>
  match s with
  | [] => k s
  | [c] => if is_nl c then k s else None
  | _ => None
  end.

(** [.] without DOTALL. *)
Definition any (c : char) : bool := negb (is_nl c).

(** [re.match(r, s)], and [re.search] of a pattern that starts with [^]. *)
Definition re_match (r : re) (s : str) : bool :=
  match r accept s with Some _ => true | None => false end.

(** [re.search(r, s)] *)
Fixpoint re_search (r : re) (s : str) : bool :=
  re_match r s || match s with [] => false | _ :: s' => re_search r s' end.

(** [re.sub(r, repl, s)] for a pattern that matches no empty string. *)
Fixpoint sub_from (fuel : nat) (r : re) (repl s : str) : str :=
  match fuel with
  | O => s
  | S f =>
      match s with
      | [] => []
      | c :: s' =>
          match r accept s with
          | Some rest =>
              if (List.length rest <? List.length s)%nat
              then repl ++ sub_from f r repl rest
              else c :: sub_from f r repl s'
          | None => c :: sub_from f r repl s'
          end
      end
  end.

Definition re_sub (r : re) (repl s : str) : str :=
  sub_from (S (List.length s)) r repl s.

(** A letter of a pattern compiled with IGNORECASE. *)
Definition chr_ci (x : char) : re := cls (fun c =>
  (c =? x)%N || (is_az x && (c =? x - 32)%N)
  || ((x =? 115) && (c =? 383))%N || ((x =? 107) && (c =? 8490))%N).

Fixpoint chars_ci (w : str) : re := fun k =>
  match w with
  | [] => k
  | x :: w' => chr_ci x (chars_ci w' k)
  end.

End Re.
Import Re.

(** ** Case tables

    [str.lower], [str.isupper] and [str.isalpha] are fixed here on ASCII;
    beyond ASCII they are the tables of the interpreter's Unicode
    database, which the development takes as given. *)

Class UnicodeTables := {
  u_lower : str -> str;
  u_isupper : char -> bool;
  u_islower : char -> bool;
  u_isalpha : char -> bool
}.

Section Case.
Context {U : UnicodeTables}.

Definition ascii_lower (c : char) : char := if is_AZ c then (c + 32)%N else c.

(** [s.lower()] *)
Definition lower (s : str) : str :=
  if forallb is_ascii s then List.map ascii_lower s else u_lower s.

(** Uppercase, lowercase-or-titlecase and alphabetic characters. *)
Definition c_isupper (c : char) : bool := if is_ascii c then is_AZ c else u_isupper c.
Definition c_islower (c : char) : bool := if is_ascii c then is_az c else u_islower c.
Definition c_isalpha (c : char) : bool :=
  if is_ascii c then is_AZ c || is_az c else u_isalpha c.

(** [s.isupper()] *)
Definition isupper (s : str) : bool := negb (existsb c_islower s) && existsb c_isupper s.

End Case.

(** The tables of an interpreter that knows no letters beyond ASCII. *)
Definition ascii_tables : UnicodeTables :=
  {| u_lower := fun s => List.map ascii_lower s;
     u_isupper := fun _ => false;
     u_islower := fun _ => false;
     u_isalpha := fun _ => false |}.

(** ** Exceptions *)

Inductive exn :=
| KeyError (key : string)
| IndexError
| SourceError (msg : str).

Inductive result (A : Type) :=
| Ok (a : A)
| Raise (e : exn).
Arguments Raise {A} e.

Definition bind {A B} (m : result A) (f : A -> result B) : result B :=
  match m with
  | Ok a => f a
  | Raise e => Raise e
  end.

Notation "x <- m ;; f" := (bind m (fun x => f))
  (at level 61, m at next level, right associativity).
Notation "' p <- m ;; f" := (bind m (fun x => match x with p => f end))
  (at level 61, p pattern, m at next level, right associativity).

(** [for x in l: acc = f(acc, x)] where the body may raise. *)
Fixpoint foldM {A B} (f : A -> B -> result A) (l : list B) (acc : A) : result A :=
  match l with
  | [] => Ok acc
  | x :: l' => acc' <- f acc x ;; foldM f l' acc'
  end.

(** [[f(x) for x in l]] *)
Fixpoint mapM {A B} (f : A -> result B) (l : list A) : result (list B) :=
  match l with
  | [] => Ok []
  | x :: l' => y <- f x ;; ys <- mapM f l' ;; Ok (y :: ys)
  end.

(** [[x for x in l if p(x)]] *)
Fixpoint filterM {A} (p : A -> result bool) (l : list A) : result (list A) :=
  match l with
  | [] => Ok []
  | x :: l' => b <- p x ;; r <- filterM p l' ;; Ok (if b then x :: r else r)
  end.

(** [d[key]] *)
Definition getitem {A} (key : string) (v : option A) : result A :=
  match v with
  | Some a => Ok a
  | None => Raise (KeyError key)
  end.

(** [str(e)] *)
Definition exn_str (e : exn) : str :=
  match e with
  | KeyError key => lit "'" ++ lit key ++ lit "'"
  | IndexError => lit "list index out of range"
  | SourceError msg => msg
  end.

(** ** Stable sorting

    [list.sort] and [sorted] are stable: [x] is moved in front of the
    elements it is strictly less than, and of no other. *)

Section StableSort.
Variable A : Type.
Variable lt : A -> A -> bool.

Fixpoint insert_sorted (a : A) (l : list A) : list A :=
  match l with
  | [] => [a]
  | b :: l' => if lt b a then b :: insert_sorted a l' else a :: b :: l'
  end.

Fixpoint stable_sort (l : list A) : list A :=
  match l with
  | [] => []
  | a :: l' => insert_sorted a (stable_sort l')
  end.

End StableSort.

(** ** Counter *)

Section Counters.
Variable K : Type.
Variable eqb : K -> K -> bool.

Fixpoint counter_add (k : K) (c : list (K * Z)) : list (K * Z) :=
  match c with
  | [] => [(k, 1%Z)]
  | (k', n) :: c' =>
      if eqb k' k then (k', (n + 1)%Z) :: c' else (k', n) :: counter_add k c'
  end.

(** [Counter(l)]: the keys in the order of their first occurrence. *)
Definition Counter (l : list K) : list (K * Z) :=
  fold_left (fun c k => counter_add k c) l [].

(** [c.most_common()] *)
Definition most_common (c : list (K * Z)) : list (K * Z) :=
  stable_sort (fun b a => (snd a <? snd b)%Z) c.

(** [l.count(k)] *)
Definition count_of (k : K) (l : list K) : Z :=
  Z.of_nat (List.length (filter (eqb k) l)).

(** [max(l, key=f)]: the first element of greatest key. *)
Definition max_by {X} (f : X -> Z) (x0 : X) (l : list X) : X :=
  fold_left (fun m x => if (f m <? f x)%Z then x else m) l x0.

End Counters.

(** ** Data model *)

Definition Qlt_bool (a b : Q) : bool := negb (Qle_bool b a).

(** A run of text as the layout extractor gives it. *)
Module RawSpan.
Record t := mk {
  text : str;
  size : Q;
  font : str;
  flags : Z;
  bbox : Q * Q * Q * Q
}.
End RawSpan.

(** A block without the key ["lines"] is [None]; a block with it holds
    its lines, each one the list of its spans. *)
Definition Block := option (list (list RawSpan.t)).

Module Page.
Record t := mk {
  height : Q;
  width : Q;
  blocks : list Block
}.
End Page.

Definition Document := list Page.t.

(** [fitz.open]: the document behind a path, or the failure to open it. *)
Definition PageTextSource := str -> result Document.

(** Fragment: the entries of [page_spans].  The keys that nothing reads
    ([flags], [width], [height], [bbox], [word_count], [script_type]) are
    left out. *)
Module Span.
Record t := mk {
  text : str;
  size : Q;
  font : str;
  bold : bool;
  italic : bool;
  page : Z;
  x : Q;
  y : Q;
  page_height : Q;
  page_width : Q;
  relative_y : Q;
  relative_x : Q;
  char_count : Z
}.
End Span.

(** Line: a dictionary with the keys of [_merge_line_spans].  A key may be
    missing in a dictionary handed to the public methods. *)
Module Line.
Record t := mk {
  text : option str;
  size : option Q;
  font : option str;
  bold : option bool;
  italic : option bool;
  page : option Z;
  y : option Q;
  x : option Q;
  relative_y : option Q;
  relative_x : option Q;
  span_count : option Z;
  char_count : option Z
}.
End Line.

Inductive Level := H1 | H2 | H3 | H4.

Definition level_eqb (a b : Level) : bool :=
  match a, b with
  | H1, H1 | H2, H2 | H3, H3 | H4, H4 => true
  | _, _ => false
  end.

Module Heading.
Record t := mk {
  level : Level;
  text : str;
  page : Z
}.
End Heading.

(** The dictionary returned by [extract_outline_robust]; the keys
    ["error"] and ["file"] are present on failure only. *)
Module Outline.
Record t := mk {
  title : str;
  outline : list Heading.t;
  error : option str;
  file : option str
}.
End Outline.

(** ** Span Normalizer *)

(** Nearest integer, ties to even. *)
Definition round_half_even (q : Q) : Z :=
  let f := Qfloor q in
  match Qcompare (q - inject_Z f) (1 # 2) with
  | Lt => f
  | Gt => (f + 1)%Z
  | Eq => if Z.even f then f else (f + 1)%Z
  end.

(** [round(q, 1)] *)
Definition round1 (q : Q) : Q := Qmake (round_half_even (q * 10)) 10.

(** The dictionary appended to [page_spans] for one span, if its stripped
    text has more than one character. *)
Definition normalize_span (page_num : Z) (pg : Page.t) (span : RawSpan.t) : list Span.t :=
  let text := strip (RawSpan.text span) in
  if (1 <? len text)%Z then
    let '(x0, y0, _, _) := RawSpan.bbox span in
    [ {| Span.text := text;
         Span.size := round1 (RawSpan.size span);
         Span.font := RawSpan.font span;
         Span.bold := Z.testbit (RawSpan.flags span) 4;
         Span.italic := Z.testbit (RawSpan.flags span) 1;
         Span.page := (page_num + 1)%Z;
         Span.x := x0;
         Span.y := y0;
         Span.page_height := Page.height pg;
         Span.page_width := Page.width pg;
         Span.relative_y := if Qlt_bool 0 (Page.height pg) then y0 / Page.height pg else 0;
         Span.relative_x := if Qlt_bool 0 (Page.width pg) then x0 / Page.width pg else 0;
         Span.char_count := len text |} ]
  else [].

Definition block_spans (page_num : Z) (pg : Page.t) (b : Block) : list Span.t :=
  match b with
  | None => []
  | Some lines => flat_map (fun line => flat_map (normalize_span page_num pg) line) lines
  end.

(** [page_spans] before it is sorted. *)
Definition collect_spans (page_num : Z) (pg : Page.t) : list Span.t :=
  flat_map (block_spans page_num pg) (Page.blocks pg).

(** ** Line Merger *)

(** [(a.y, a.x) < (b.y, b.x)] on tuples. *)
Definition span_key_lt (a b : Span.t) : bool :=
  if Qeq_bool (Span.y a) (Span.y b) then
    if Qeq_bool (Span.x a) (Span.x b) then false
    else Qlt_bool (Span.x a) (Span.x b)
  else Qlt_bool (Span.y a) (Span.y b).

(** [page_spans.sort(key=lambda s: (s["y"], s["x"]))] *)
Definition sort_spans (page_spans : list Span.t) : list Span.t :=
  stable_sort span_key_lt page_spans.

(** The test that appends [span] to the open line, whose last span is [last]. *)
Definition extends_line (y_threshold : Q) (span last : Span.t) : bool :=
  let y_diff := Qabs (Span.y span - Span.y last) in
  Qle_bool y_diff y_threshold
  || (Qle_bool y_diff 15 && Qeq_bool (Span.size span) (Span.size last)).

Definition nonempty {A} (l : list A) : bool :=
  match l with [] => false | _ :: _ => true end.

Section Walk.
(** The walk over the sorted spans of a page, for any way [merge] of
    turning a closed group into an entry of [lines]. *)
Context {A : Type}.
Variable merge : list Span.t -> A.
Variable y_threshold : Q.

(** One iteration of [for span in page_spans[1:]] on [(lines, current_line)]. *)
Definition walk_step (st : list A * list Span.t) (span : Span.t) : list A * list Span.t :=
  let '(lines, current_line) := st in
  if extends_line y_threshold span (last current_line span) then
    (lines, current_line ++ [span])
  else
    ((if nonempty current_line then lines ++ [merge current_line] else lines), [span]).

(** The lines of one page, from its sorted spans. *)
Definition walk (page_spans : list Span.t) : list A :=
  match page_spans with
  | [] => []
  | first :: rest =>
      let '(lines, current_line) := fold_left walk_step rest ([], [first]) in
      if nonempty current_line then lines ++ [merge current_line] else lines
  end.

End Walk.

(** [max(sizes)]: the first greatest element. *)
Definition max_size (s0 : Q) (rest : list Q) : Q :=
  fold_left (fun m s => if Qlt_bool m s then s else m) rest s0.

(** [_merge_line_spans] *)
Definition _merge_line_spans (spans : list Span.t) : result Line.t :=
  let merged_text := strip (join (lit " ") (List.map Span.text spans)) in
  let sizes := List.map Span.size spans in
  let fonts := List.map Span.font spans in
  let bold_count := Z.of_nat (List.length (filter Span.bold spans)) in
  let italic_count := Z.of_nat (List.length (filter Span.italic spans)) in
  let n := Z.of_nat (List.length spans) in
  match spans with
  | [] => Raise IndexError
  | s0 :: _ =>
      Ok {| Line.text := Some merged_text;
            Line.size := Some (match sizes with [] => 12 | z :: zs => max_size z zs end);
            Line.font := Some (match fonts with
                               | [] => lit "unknown"
                               | f :: fs => max_by (fun k => count_of str_eqb k fonts) f fs
                               end);
            Line.bold := Some (n <? 2 * bold_count)%Z;
            Line.italic := Some (n <? 2 * italic_count)%Z;
            Line.page := Some (Span.page s0);
            Line.y := Some (Span.y s0);
            Line.x := Some (Span.x s0);
            Line.relative_y := Some (Span.relative_y s0);
            Line.relative_x := Some (Span.relative_x s0);
            Line.span_count := Some n;
            Line.char_count := Some (len merged_text) |}
  end.

(** The groups of spans that become the lines of a page. *)
Definition line_groups (y_threshold : Q) (page_spans : list Span.t) : list (list Span.t) :=
  walk (fun g => g) y_threshold (sort_spans page_spans).

(** The body of [for page_num in range(len(doc))] for one page. *)
Definition page_lines (y_threshold : Q) (page_num : Z) (pg : Page.t) : result (list Line.t) :=
  mapM (fun r => r)
    (walk _merge_line_spans y_threshold (sort_spans (collect_spans page_num pg))).

Fixpoint pages_lines (y_threshold : Q) (page_num : Z) (pages : list Page.t)
  : result (list Line.t) :=
  match pages with
  | [] => Ok []
  | pg :: rest =>
      lines <- page_lines y_threshold page_num pg ;;
      more <- pages_lines y_threshold (page_num + 1) rest ;;
      Ok (lines ++ more)
  end.

(** [extract_text_with_metadata]; [doc_info] is the page count. *)
Definition extract_text_with_metadata (fitz_open : PageTextSource) (pdf_path : str)
  (y_threshold : Q) : result (list Line.t * Z) :=
  doc <- fitz_open pdf_path ;;
  all_content <- pages_lines y_threshold 0 doc ;;
  Ok (all_content, Z.of_nat (List.length doc)).

(** ** Document Analyzer *)

Module SizeStats.
Record t := mk {
  mean : Q;
  median : Q;
  mode : Q;
  unique_sizes : Z;
  percentile_75 : Q;
  percentile_90 : Q
}.
End SizeStats.

(** The dictionary of [analyze_document_structure].  The keys
    ["structural_patterns"] and ["script_types"], which nothing reads, are
    left out. *)
Module Analysis.
Record t := mk {
  total_lines : option Z;
  pages : option Z;
  sizes : option (list (Q * Z));
  fonts : option (list (str * Z));
  bold_lines : option Z;
  avg_line_length : option Q;
  avg_char_count : option Q;
  document_type : option str;
  size_stats : option SizeStats.t
}.
(** [{}] *)
Definition empty : t := mk None None None None None None None None None.
End Analysis.

Definition qsum (l : list Q) : Q := fold_left Qplus l 0.
Definition zsum (l : list Z) : Z := fold_left Z.add l 0%Z.

(** [sorted(sizes)] *)
Definition sorted_q (l : list Q) : list Q := stable_sort Qlt_bool l.

(** [statistics.median] *)
Definition median_q (l : list Q) : Q :=
  let s := sorted_q l in
  let n := List.length s in
  if Nat.even n
  then (nth (n / 2 - 1) s 0 + nth (n / 2) s 0) / 2
  else nth (n / 2) s 0.

(** [len(set(l))] *)
Fixpoint distinct {A} (eqb : A -> A -> bool) (l : list A) : list A :=
  match l with
  | [] => []
  | a :: l' => if existsb (eqb a) l' then distinct eqb l' else a :: distinct eqb l'
  end.

Section Extractor.
Context {U : UnicodeTables}.

Definition any_in (keywords : list str) (text : str) : bool :=
  existsb (fun keyword => contains text keyword) keywords.

(** [_detect_document_type] *)
Definition _detect_document_type (lines : list Line.t) : result str :=
  texts <- mapM (fun item => t <- getitem "text" (Line.text item) ;; Ok (lower t)) lines ;;
  let text_combined := join (lit " ") texts in
  if contains text_combined (lit "request for proposal")
     || contains text_combined (lit "ontario digital library")
     || contains text_combined (lit "rfp:")
  then Ok (lit "rfp_file3")
  else if any_in [lit "application form"; lit "signature"; lit "date of birth";
                  lit "designation"; lit "name of the government"] text_combined
  then Ok (lit "form")
  else if any_in [lit "you're invited"; lit "party"; lit "hope to see you";
                  lit "trampoline park"] text_combined
  then Ok (lit "invitation")
  else if any_in [lit "foundation level"; lit "syllabus"; lit "qualifications";
                  lit "learning objectives"] text_combined
  then Ok (lit "academic")
  else if any_in [lit "business plan"; lit "appendix"] text_combined
  then Ok (lit "rfp")
  else if any_in [lit "pathway"; lit "stem"; lit "regular pathway";
                  lit "distinction pathway"] text_combined
  then Ok (lit "pathway")
  else Ok (lit "general").

(** The body of the [try] of [analyze_document_structure]. *)
Definition analyze_body (lines : list Line.t) : result Analysis.t :=
  if negb (nonempty lines) then Ok Analysis.empty
  else
    let n := Z.of_nat (List.length lines) in
    pages <- mapM (fun line => getitem "page" (Line.page line)) lines ;;
    sizes <- mapM (fun line => getitem "size" (Line.size line)) lines ;;
    fonts <- mapM (fun line => getitem "font" (Line.font line)) lines ;;
    bolds <- mapM (fun line => getitem "bold" (Line.bold line)) lines ;;
    texts <- mapM (fun line => getitem "text" (Line.text line)) lines ;;
    let char_counts :=
      List.map (fun line => match Line.char_count line with Some c => c | None => 0%Z end)
        lines in
    document_type <- _detect_document_type lines ;;
    let counts := Counter Qeq_bool sizes in
    let sorted_sizes := sorted_q sizes in
    let stats :=
      match counts with
      | [] => None
      | c0 :: cs =>
          Some {| SizeStats.mean := qsum sizes / inject_Z n;
                  SizeStats.median := median_q sizes;
                  SizeStats.mode := fst (max_by snd c0 cs);
                  SizeStats.unique_sizes := Z.of_nat (List.length (distinct Qeq_bool sizes));
                  SizeStats.percentile_75 := nth (Z.to_nat (3 * n / 4)) sorted_sizes 0;
                  SizeStats.percentile_90 := nth (Z.to_nat (9 * n / 10)) sorted_sizes 0 |}
      end in
    Ok {| Analysis.total_lines := Some n;
          Analysis.pages := Some (Z.of_nat (List.length (distinct Z.eqb pages)));
          Analysis.sizes := Some counts;
          Analysis.fonts := Some (Counter str_eqb fonts);
          Analysis.bold_lines := Some (Z.of_nat (List.length (filter (fun b => b) bolds)));
          Analysis.avg_line_length := Some (inject_Z (zsum (List.map len texts)) / inject_Z n);
          Analysis.avg_char_count := Some (inject_Z (zsum char_counts) / inject_Z n);
          Analysis.document_type := Some document_type;
          Analysis.size_stats := stats |}.

(** [analyze_document_structure]: any exception gives [{}]. *)
Definition analyze_document_structure (lines : list Line.t) : Analysis.t :=
  match analyze_body lines with
  | Ok analysis => analysis
  | Raise _ => Analysis.empty
  end.

(** [_get_size_percentile].  On numbers no step of the body raises, so
    the handler is not written. *)
Definition _get_size_percentile (size : Q) (analysis : Analysis.t) : Q :=
  match Analysis.sizes analysis with
  | None => 0
  | Some sizes =>
      let all_sizes :=
        sorted_q (flat_map (fun sc => repeat (fst sc) (Z.to_nat (snd sc))) sizes) in
      if negb (nonempty all_sizes) then 0
      else
        let position := List.length (filter (fun s => Qlt_bool s size) all_sizes) in
        (inject_Z (Z.of_nat position) / inject_Z (Z.of_nat (List.length all_sizes))) * 100
  end.

(** ** Font Threshold Calculator *)

(** The dictionary from ["H1"] ... ["H4"] to a size. *)
Definition FontThresholds := list (Level * Q).

(** [font_analysis.get(level, default)] *)
Fixpoint th_get (fa : FontThresholds) (level : Level) (default : Q) : Q :=
  match fa with
  | [] => default
  | (l, v) :: fa' => if level_eqb l level then v else th_get fa' level default
  end.

(** [significant_fonts] *)
Definition significant_fonts (font_sizes : list Q) : list Q :=
  List.map fst
    (filter (fun sc => (3 <=? snd sc)%Z) (most_common (Counter Qeq_bool font_sizes))).

(** [_calculate_font_thresholds] from the list [font_sizes]. *)
Definition thresholds_of_sizes (font_sizes : list Q) : FontThresholds :=
  if negb (nonempty font_sizes) then []
  else
    let significant := significant_fonts font_sizes in
    if (3 <=? List.length significant)%nat then
      [ (H1, nth 0 significant 0);
        (H2, nth 1 significant 0);
        (H3, nth 2 significant 0);
        (H4, if (3 <? List.length significant)%nat
             then nth 3 significant 0 else nth 2 significant 0) ]
    else
      let avg_size := qsum font_sizes / inject_Z (Z.of_nat (List.length font_sizes)) in
      [ (H1, avg_size * (13 # 10));
        (H2, avg_size * (115 # 100));
        (H3, avg_size * (105 # 100));
        (H4, avg_size) ].

(** [_calculate_font_thresholds] *)
Definition _calculate_font_thresholds (lines : list Line.t) : result FontThresholds :=
  sizes <- mapM (fun line => getitem "size" (Line.size line)) lines ;;
  Ok (thresholds_of_sizes (filter (fun s => Qlt_bool 0 s) sizes)).

End Extractor.

(** ** Patterns *)

Definition seq (r1 r2 : re) : re := fun k => r1 (r2 k).
Notation "a >> b" := (seq a b) (at level 40, left associativity).

(** [^\d+\.\s+[A-Z]] *)
Definition pat_numbered : re :=
  plus is_decimal >> chr 46%N >> plus isspace >> cls is_AZ.

(** [^\d+\.\d+\s+[A-Z]] *)
Definition pat_subnumbered : re :=
  plus is_decimal >> chr 46%N >> plus is_decimal >> plus isspace >> cls is_AZ.

(** [^\d+[\.\)\:]] *)
Definition pat_leading_number : re :=
  plus is_decimal >> cls (fun c => (c =? 46)%N || (c =? 41)%N || (c =? 58)%N).

(** [metadata_patterns] *)
Definition metadata_patterns : list re :=
  [ chars (lit "version") >> star isspace >> plus (fun c => is_decimal c || is_dot c);
    chars (lit "draft");
    chars (lit "confidential");
    chars (lit "copyright");
    chr 169%N;
    times 4 is_decimal;
    chars (lit "page") >> plus isspace >> plus is_decimal;
    chars (lit "date") >> star isspace >> chr 58%N;
    chars (lit "author") >> star isspace >> chr 58%N ].

(** [^(revision\s+history|table\s+of\s+contents|acknowledgements)$] *)
Definition pat_academic_fixed : re :=
  alt (chars (lit "revision") >> plus isspace >> chars (lit "history"))
    (alt (chars (lit "table") >> plus isspace >> chars (lit "of") >> plus isspace
            >> chars (lit "contents"))
         (chars (lit "acknowledgements")))
  >> dollar.

(** [^(summary|background|timeline|milestones)$] *)
Definition pat_rfp_fixed : re :=
  alt (chars (lit "summary"))
    (alt (chars (lit "background"))
       (alt (chars (lit "timeline")) (chars (lit "milestones"))))
  >> dollar.

(** [^appendix\s+[a-z]] *)
Definition pat_appendix : re :=
  chars (lit "appendix") >> plus isspace >> cls is_az.

(** [RFP:\s*R\s*RFP:\s*R.*?quest\s+f.*?r\s+Pr.*?oposal], IGNORECASE *)
Definition pat_file3_corruption : re :=
  chars_ci (lit "rfp:") >> star isspace >> chars_ci (lit "r") >> star isspace
  >> chars_ci (lit "rfp:") >> star isspace >> chars_ci (lit "r") >> lazy_star any
  >> chars_ci (lit "quest") >> plus isspace >> chars_ci (lit "f") >> lazy_star any
  >> chars_ci (lit "r") >> plus isspace >> chars_ci (lit "pr") >> lazy_star any
  >> chars_ci (lit "oposal").

Section Classifiers.
Context {U : UnicodeTables}.

(** [_is_numbered_pattern] *)
Definition _is_numbered_pattern (text : str) : bool := re_match pat_leading_number text.

(** [_is_universal_metadata] *)
Definition _is_universal_metadata (text : str) : bool :=
  let text_lower := strip (lower text) in
  existsb (fun pattern => re_search pattern text_lower) metadata_patterns.

(** [_is_all_uppercase] *)
Definition _is_all_uppercase (text : str) : bool :=
  let alpha_chars := filter c_isalpha text in
  if negb (nonempty alpha_chars) then false else forallb c_isupper alpha_chars.

(** ** Title Extractor *)

(** An entry [(text, score, i)] of [candidates]. *)
Definition Candidate := (str * Z * Z)%type.

(** [candidates.sort(key=lambda x: (-x[1], x[2]))] *)
Definition candidate_lt (a b : Candidate) : bool :=
  let '(_, sa, ia) := a in
  let '(_, sb, ib) := b in
  if (sa =? sb)%Z then (ia <? ib)%Z else (sb <? sa)%Z.

(** [enumerate(l)] *)
Fixpoint enumerate_from {A} (i : Z) (l : list A) : list (Z * A) :=
  match l with
  | [] => []
  | a :: l' => (i, a) :: enumerate_from (i + 1) l'
  end.

(** [[line for line in lines[:k] if line["page"] == 1]] *)
Definition first_page_lines (k : nat) (lines : list Line.t) : result (list Line.t) :=
  filterM (fun line => p <- getitem "page" (Line.page line) ;; Ok (p =? 1)%Z) (firstn k lines).

(** [line.get("char_count", len(text))] *)
Definition get_char_count (line : Line.t) (text : str) : Z :=
  match Line.char_count line with
  | Some c => c
  | None => len text
  end.

(** ["size_stats" in analysis and analysis["size_stats"]] *)
Definition has_size_stats (analysis : Analysis.t) : bool :=
  match Analysis.size_stats analysis with
  | Some _ => true
  | None => false
  end.

(** One iteration of the loop over [first_page_lines] of the generic path. *)
Definition title_step (analysis : Analysis.t) (candidates : list Candidate)
  (il : Z * Line.t) : result (list Candidate) :=
  let '(i, line) := il in
  t <- getitem "text" (Line.text line) ;;
  let text := strip t in
  let char_count := get_char_count line text in
  if (5 <=? char_count)%Z && (char_count <=? 200)%Z
     && negb (_is_numbered_pattern text) && negb (_is_universal_metadata text)
  then
    s1 <- (if has_size_stats analysis then
             size <- getitem "size" (Line.size line) ;;
             let size_percentile := _get_size_percentile size analysis in
             Ok (if Qle_bool 95 size_percentile then 5%Z
                 else if Qle_bool 85 size_percentile then 3%Z else 0%Z)
           else Ok 0%Z) ;;
    bold <- getitem "bold" (Line.bold line) ;;
    let s2 := if bold : bool then 3%Z else 0%Z in
    ry <- getitem "relative_y" (Line.relative_y line) ;;
    let s3 := if Qlt_bool ry (15 # 100) then 4%Z
              else if Qlt_bool ry (3 # 10) then 2%Z else 0%Z in
    let s4 := if _is_all_uppercase text && (char_count <=? 150)%Z then 3%Z else 0%Z in
    Ok (candidates ++ [(text, (s1 + s2 + s3 + s4)%Z, i)])
  else Ok candidates.

(** [candidates] of the generic path. *)
Definition title_candidates (lines : list Line.t) (analysis : Analysis.t)
  : result (list Candidate) :=
  fpl <- first_page_lines 50 lines ;;
  foldM (title_step analysis) (enumerate_from 0 fpl) [].

(** The text of [candidates[0]] after the sort, cleaned. *)
Definition best_title (candidates : list Candidate) : option str :=
  match stable_sort candidate_lt candidates with
  | (text, _, _) :: _ => Some (_clean_heading_text text)
  | [] => None
  end.

Definition academic_title_keywords : list str :=
  [lit "overview"; lit "foundation"; lit "level"; lit "extensions"; lit "syllabus";
   lit "qualifications"; lit "examination"; lit "training"; lit "course"].

(** One iteration of the loop of [_extract_academic_title]. *)
Definition academic_title_step (analysis : Analysis.t) (candidates : list Candidate)
  (il : Z * Line.t) : result (list Candidate) :=
  let '(i, line) := il in
  t <- getitem "text" (Line.text line) ;;
  let text := strip t in
  let text_lower := lower text in
  let char_count := get_char_count line text in
  if (char_count <? 5)%Z || (200 <? char_count)%Z
     || _is_numbered_pattern text || _is_universal_metadata text
  then Ok candidates
  else
    let keyword_matches :=
      Z.of_nat (List.length (filter (fun keyword => contains text_lower keyword)
                               academic_title_keywords)) in
    let s0 := if (2 <=? keyword_matches)%Z then 10%Z
              else if (1 <=? keyword_matches)%Z then 5%Z else 0%Z in
    s1 <- (if has_size_stats analysis then
             size <- getitem "size" (Line.size line) ;;
             let size_percentile := _get_size_percentile size analysis in
             Ok (if Qle_bool 90 size_percentile then 8%Z
                 else if Qle_bool 75 size_percentile then 5%Z else 0%Z)
           else Ok 0%Z) ;;
    bold <- getitem "bold" (Line.bold line) ;;
    let s2 := if bold : bool then 4%Z else 0%Z in
    ry <- getitem "relative_y" (Line.relative_y line) ;;
    let s3 := if Qlt_bool ry (2 # 10) then 6%Z
              else if Qlt_bool ry (4 # 10) then 3%Z else 0%Z in
    let s4 := if (15 <=? char_count)%Z && (char_count <=? 100)%Z then 3%Z else 0%Z in
    let s5 := if any_in [lit "overview"; lit "foundation level"; lit "syllabus"] text_lower
              then 5%Z else 0%Z in
    Ok (candidates ++ [(text, (s0 + s1 + s2 + s3 + s4 + s5)%Z, i)]).

(** [candidates] of [_extract_academic_title], from [first_page_lines]. *)
Definition academic_title_candidates (analysis : Analysis.t) (fpl : list Line.t)
  : result (list Candidate) :=
  foldM (academic_title_step analysis) (enumerate_from 0 fpl) [].

(** The fallback loop of [_extract_academic_title]: the text of the first
    line with "overview" or "foundation" and more than ten characters. *)
Fixpoint academic_fallback (fpl : list Line.t) : result (option str) :=
  match fpl with
  | [] => Ok None
  | line :: rest =>
      t <- getitem "text" (Line.text line) ;;
      let text := strip t in
      if (contains (lower text) (lit "overview") || contains (lower text) (lit "foundation"))
         && (10 <? len text)%Z
      then Ok (Some text)
      else academic_fallback rest
  end.

(** [_extract_academic_title] *)
Definition _extract_academic_title (lines : list Line.t) (analysis : Analysis.t)
  : result str :=
  fpl <- first_page_lines 30 lines ;;
  candidates <- academic_title_candidates analysis fpl ;;
  match best_title candidates with
  | Some title => Ok title
  | None =>
      found <- academic_fallback fpl ;;
      match found with
      | Some text => Ok (_clean_heading_text text)
      | None => Ok (lit "Academic Document")
      end
  end.

(** One iteration of the loop of [_extract_file3_title]. *)
Definition file3_title_step (title_parts : list str) (line : Line.t) : result (list str) :=
  t <- getitem "text" (Line.text line) ;;
  let text := strip t in
  if contains (lower text) (lit "rfp:") || contains (lower text) (lit "request for proposal")
  then Ok (title_parts ++ [text])
  else if contains (lower text) (lit "to present a proposal")
  then Ok (title_parts ++ [text])
  else if contains (lower text) (lit "developing the business plan")
  then Ok (title_parts ++ [text])
  else if contains (lower text) (lit "ontario digital library")
  then Ok (title_parts ++ [text])
  else Ok title_parts.

(** [title_parts] of [_extract_file3_title]. *)
Definition file3_title_parts (lines : list Line.t) : result (list str) :=
  foldM file3_title_step (firstn 30 lines) [].

(** [_clean_title_file3] *)
Definition _clean_title_file3 (text : str) : str :=
  let text := sub_whitespace (strip text) in
  let text := re_sub pat_file3_corruption (lit "RFP:Request for Proposal") text in
  let text := if negb (startswith text (lit "RFP:"))
              then lit "RFP:Request for Proposal " ++ text else text in
  if negb (endswith text (lit "  ")) then rstrip text ++ lit "  " else text.

(** [_extract_file3_title] *)
Definition _extract_file3_title (lines : list Line.t) : result str :=
  title_parts <- file3_title_parts lines ;;
  if nonempty title_parts
  then Ok (_clean_title_file3 (join (lit " ") title_parts))
  else Ok (lit "RFP:Request for Proposal To Present a Proposal for Developing the Business Plan for the Ontario Digital Library  ").

(** The body of the [try] of [_extract_multilingual_title]. *)
Definition title_body (lines : list Line.t) (analysis : Analysis.t) (doc_type : str)
  : result str :=
  if negb (nonempty lines) then Ok (lit "Untitled Document")
  else if str_eqb doc_type (lit "rfp_file3") then _extract_file3_title lines
  else if str_eqb doc_type (lit "academic") then _extract_academic_title lines analysis
  else
    candidates <- title_candidates lines analysis ;;
    match best_title candidates with
    | Some title => Ok title
    | None => Ok (lit "Untitled Document")
    end.

(** [_extract_multilingual_title]: any exception gives the fallback title. *)
Definition _extract_multilingual_title (lines : list Line.t) (analysis : Analysis.t)
  (doc_type : str) : str :=
  match title_body lines analysis doc_type with
  | Ok title => title
  | Raise _ => lit "Untitled Document"
  end.

End Classifiers.

(** ** Heading Classifier *)

Section Headings.
Context {U : UnicodeTables}.

(** [_classify_general_main_heading] *)
Definition _classify_general_main_heading (text : str) (line : Line.t)
  (font_analysis : FontThresholds) : result (option Level) :=
  if re_match pat_numbered text then Ok (Some H1)
  else if re_match pat_subnumbered text then Ok (Some H2)
  else
    bold <- getitem "bold" (Line.bold line) ;;
    if bold : bool then
      size <- getitem "size" (Line.size line) ;;
      if Qle_bool (th_get font_analysis H2 0) size && (len text <=? 80)%Z
      then Ok (Some H2) else Ok None
    else Ok None.

(** [_classify_academic_main_heading] *)
Definition _classify_academic_main_heading (text : str) (line : Line.t)
  (font_analysis : FontThresholds) : result (option Level) :=
  if re_match pat_academic_fixed (lower text) then Ok (Some H1)
  else if re_match pat_numbered text then Ok (Some H1)
  else if re_match pat_subnumbered text then Ok (Some H2)
  else
    size <- getitem "size" (Line.size line) ;;
    c1 <- (if Qle_bool (th_get font_analysis H1 0) size then
             bold <- getitem "bold" (Line.bold line) ;;
             Ok (bold && (len text <=? 80)%Z)
           else Ok false) ;;
    if c1 : bool then Ok (Some H1)
    else
      c2 <- (if Qle_bool (th_get font_analysis H2 0) size then
               bold <- getitem "bold" (Line.bold line) ;;
               Ok (bold && (len text <=? 60)%Z)
             else Ok false) ;;
      if c2 : bool then Ok (Some H2) else Ok None.

(** [_classify_rfp_main_heading] *)
Definition _classify_rfp_main_heading (text : str) (line : Line.t)
  (font_analysis : FontThresholds) : result (option Level) :=
  if re_match pat_rfp_fixed (rstrip_char 58%N (lower text)) then Ok (Some H2)
  else if re_match pat_appendix (lower text) then Ok (Some H2)
  else if re_match pat_numbered text then Ok (Some H3)
  else
    c1 <- (if endswith text (lit ":") && (8 <=? len text)%Z && (len text <=? 50)%Z
           then getitem "bold" (Line.bold line) else Ok false) ;;
    if c1 : bool then Ok (Some H3)
    else
      size <- getitem "size" (Line.size line) ;;
      if Qle_bool (th_get font_analysis H1 0) size && (len text <=? 100)%Z
      then Ok (Some H1)
      else if Qle_bool (th_get font_analysis H2 0) size then
        bold <- getitem "bold" (Line.bold line) ;;
        if bold : bool then Ok (Some H2) else Ok None
      else Ok None.

(** ["ontario’s digital library"] and the like. *)
Definition with_apostrophe (a b : string) : str := lit a ++ [8217%N] ++ lit b.

Definition h1_patterns : list str :=
  [ lit "ontario's digital library";
    with_apostrophe "ontario" "s digital library";
    lit "a critical component for implementing ontario's road map to prosperity strategy";
    with_apostrophe "a critical component for implementing ontario"
      "s road map to prosperity strategy" ].

Definition h2_patterns : list str :=
  [ lit "summary";
    lit "background";
    lit "the business plan to be developed";
    lit "approach and specific proposal requirements";
    lit "evaluation and awarding of contract";
    lit "appendix a: odl envisioned phases & funding";
    lit "appendix a: odl envisioned phases &amp; funding";
    lit "appendix b: odl steering committee terms of reference";
    lit "appendix c: odl's envisioned electronic resources";
    with_apostrophe "appendix c: odl" "s envisioned electronic resources" ].

Definition h3_patterns : list str :=
  [ lit "timeline:";
    lit "equitable access for all ontarians:";
    lit "shared decision-making and accountability:";
    lit "shared governance structure:";
    lit "shared funding:";
    lit "local points of entry:";
    lit "access:";
    lit "guidance and advice:";
    lit "training:";
    lit "provincial purchasing & licensing:";
    lit "provincial purchasing &amp; licensing:";
    lit "technological support:";
    lit "what could the odl really mean?";
    lit "milestones";
    lit "phase i: business planning";
    lit "phase ii: implementing and transitioning";
    lit "phase iii: operating and growing the odl";
    lit "1. preamble";
    lit "2. terms of reference";
    lit "3. membership";
    lit "4. appointment criteria and process";
    lit "5. term";
    lit "6. chair";
    lit "7. meetings";
    lit "8. lines of accountability and communication";
    lit "9. financial and administrative policies" ].

Definition h4_patterns : list str :=
  [ lit "for each ontario citizen it could mean:";
    lit "for each ontario student it could mean:";
    lit "for each ontario library it could mean:";
    lit "for each ontario government it could mean:" ].

(** [_classify_file3_heading] *)
Definition _classify_file3_heading (text : str) (line : Line.t)
  (font_analysis : FontThresholds) : result (option Level) :=
  let text_lower := strip (lower text) in
  if any_in h1_patterns text_lower then Ok (Some H1)
  else if any_in h2_patterns text_lower then Ok (Some H2)
  else if any_in h3_patterns text_lower then Ok (Some H3)
  else if any_in h4_patterns text_lower then Ok (Some H4)
  else
    c1 <- (if endswith text (lit ":") && (5 <=? len text)%Z && (len text <=? 60)%Z then
             bold <- getitem "bold" (Line.bold line) ;;
             if bold : bool then Ok true
             else
               size <- getitem "size" (Line.size line) ;;
               Ok (Qle_bool (th_get font_analysis H3 12) size)
           else Ok false) ;;
    if c1 : bool then Ok (Some H3)
    else if re_match pat_numbered text then
      page <- getitem "page" (Line.page line) ;;
      if (10 <=? page)%Z then Ok (Some H3) else Ok None
    else Ok None.

(** [text in seen] *)
Definition in_seen (text : str) (seen : list str) : bool := existsb (str_eqb text) seen.

(** The state of a heading loop: [headings] and [seen]. *)
Definition LoopState := (list Heading.t * list str)%type.

(** [seen.add(text); headings.append({...})] *)
Definition add_heading (st : LoopState) (level : Level) (text : str) (line : Line.t)
  : result LoopState :=
  let '(headings, seen) := st in
  page <- getitem "page" (Line.page line) ;;
  Ok (headings ++ [ {| Heading.level := level;
                       Heading.text := _clean_heading_text text;
                       Heading.page := (page - 1)%Z |} ],
      text :: seen).

(** One iteration of the loop that the academic, rfp, rfp-variant-3 and
    general extractors share, up to the least length and the classifier. *)
Definition main_heading_step (min_len : Z)
  (classify : str -> Line.t -> result (option Level))
  (st : LoopState) (line : Line.t) : result LoopState :=
  t <- getitem "text" (Line.text line) ;;
  let text := strip t in
  if in_seen text (snd st) || (len text <? min_len)%Z then Ok st
  else
    level <- classify text line ;;
    match level with
    | Some lv => add_heading st lv text line
    | None => Ok st
    end.

(** [headings.sort(key=lambda x: x["page"])] *)
Definition sort_by_page (headings : list Heading.t) : list Heading.t :=
  stable_sort (fun a b => (Heading.page a <? Heading.page b)%Z) headings.

(** The loop and the sort, for the thresholds [font_analysis]. *)
Definition main_headings_with (font_analysis : FontThresholds) (min_len : Z)
  (classify : str -> Line.t -> FontThresholds -> result (option Level))
  (lines : list Line.t) : result (list Heading.t) :=
  st <- foldM (main_heading_step min_len (fun text line => classify text line font_analysis))
          lines ([], []) ;;
  Ok (sort_by_page (fst st)).

Definition main_headings (min_len : Z)
  (classify : str -> Line.t -> FontThresholds -> result (option Level))
  (lines : list Line.t) : result (list Heading.t) :=
  font_analysis <- _calculate_font_thresholds lines ;;
  main_headings_with font_analysis min_len classify lines.

(** [_extract_file3_specific_headings] *)
Definition _extract_file3_specific_headings (lines : list Line.t) (doc_analysis : Analysis.t)
  : result (list Heading.t) :=
  main_headings 3 _classify_file3_heading lines.

(** [_extract_academic_main_headings] *)
Definition _extract_academic_main_headings (lines : list Line.t) (doc_analysis : Analysis.t)
  : result (list Heading.t) :=
  headings <- main_headings 5 _classify_academic_main_heading lines ;;
  Ok (firstn 18 headings).

(** [_extract_rfp_main_headings] *)
Definition _extract_rfp_main_headings (lines : list Line.t) (doc_analysis : Analysis.t)
  : result (list Heading.t) :=
  headings <- main_headings 5 _classify_rfp_main_heading lines ;;
  Ok (firstn 35 headings).

(** [_extract_general_main_headings] *)
Definition _extract_general_main_headings (lines : list Line.t) (doc_analysis : Analysis.t)
  : result (list Heading.t) :=
  headings <- main_headings 5 _classify_general_main_heading lines ;;
  Ok (firstn 25 headings).

(** One iteration of the loop of the invitation and pathway extractors,
    which test the line with [is_heading]. *)
Definition phrase_heading_step (is_heading : str -> bool) (st : LoopState) (line : Line.t)
  : result LoopState :=
  t <- getitem "text" (Line.text line) ;;
  let text := strip t in
  if is_heading text then
    if negb (in_seen text (snd st)) then add_heading st H1 text line else Ok st
  else Ok st.

Definition invitation_test (text : str) : bool :=
  let text_lower := lower text in
  str_eqb text_lower (lit "pathway options") || str_eqb text_lower (lit "hope to see you there")
  || (isupper text && (10 <=? len text)%Z && (len text <=? 50)%Z).

(** [_extract_invitation_headings] *)
Definition _extract_invitation_headings (lines : list Line.t) : result (list Heading.t) :=
  st <- foldM (phrase_heading_step invitation_test) lines ([], []) ;;
  Ok (firstn 2 (fst st)).

Definition pathway_test (text : str) : bool :=
  any_in [lit "pathway options"; lit "regular pathway"; lit "distinction pathway"]
    (lower text).

(** [_extract_pathway_headings] *)
Definition _extract_pathway_headings (lines : list Line.t) : result (list Heading.t) :=
  st <- foldM (phrase_heading_step pathway_test) lines ([], []) ;;
  Ok (fst st).

(** The heading list that [extract_main_headings_only] computes for a
    document type. *)
Definition headings_for (doc_type : str) (lines : list Line.t) (doc_analysis : Analysis.t)
  : result (list Heading.t) :=
  if str_eqb doc_type (lit "form") then Ok []
  else if str_eqb doc_type (lit "invitation") then _extract_invitation_headings lines
  else if str_eqb doc_type (lit "academic") then
    _extract_academic_main_headings lines doc_analysis
  else if str_eqb doc_type (lit "rfp_file3") then
    _extract_file3_specific_headings lines doc_analysis
  else if str_eqb doc_type (lit "rfp") then _extract_rfp_main_headings lines doc_analysis
  else if str_eqb doc_type (lit "pathway") then _extract_pathway_headings lines
  else _extract_general_main_headings lines doc_analysis.

(** [doc_analysis.get("document_type", "general")] *)
Definition doc_type_of (doc_analysis : Analysis.t) : str :=
  match Analysis.document_type doc_analysis with
  | Some t => t
  | None => lit "general"
  end.

(** The body of the [try] of [extract_main_headings_only]. *)
Definition headings_body (lines : list Line.t) (doc_analysis : Analysis.t)
  : result (str * list Heading.t) :=
  let doc_type := doc_type_of doc_analysis in
  let title := _extract_multilingual_title lines doc_analysis doc_type in
  headings <- headings_for doc_type lines doc_analysis ;;
  Ok (title, headings).

(** [extract_main_headings_only] *)
Definition extract_main_headings_only (lines : list Line.t) (doc_analysis : Analysis.t)
  : str * list Heading.t :=
  match headings_body lines doc_analysis with
  | Ok r => r
  | Raise _ => (lit "Error Processing Document", [])
  end.

(** ** The pipeline of one document *)

(** The body of the [try] of [extract_outline_robust]. *)
Definition outline_body (fitz_open : PageTextSource) (pdf_path : str) : result Outline.t :=
  ' (lines, doc_info) <- extract_text_with_metadata fitz_open pdf_path 5 ;;
  if negb (nonempty lines) then
    Ok {| Outline.title := lit "Empty Document"; Outline.outline := [];
          Outline.error := None; Outline.file := None |}
  else
    let analysis := analyze_document_structure lines in
    let '(title, outline) := extract_main_headings_only lines analysis in
    Ok {| Outline.title := title; Outline.outline := outline;
          Outline.error := None; Outline.file := None |}.

(** [extract_outline_robust] *)
Definition extract_outline_robust (fitz_open : PageTextSource) (pdf_path : str) : Outline.t :=
  match outline_body fitz_open pdf_path with
  | Ok r => r
  | Raise e =>
      {| Outline.title := lit "Error Processing Document"; Outline.outline := [];
         Outline.error := Some (exn_str e); Outline.file := Some pdf_path |}
  end.

End Headings.

(** ** Vocabulary of the properties *)

(** The groups of a walk, by recursion on the spans: the rest of the open
    group after [prev], and the groups that follow it. *)
Fixpoint chunk (y_threshold : Q) (prev : Span.t) (l : list Span.t)
  : list Span.t * list (list Span.t) :=
  match l with
  | [] => ([], [])
  | s :: l' =>
      let '(g, gs) := chunk y_threshold s l' in
      if extends_line y_threshold s prev then (s :: g, gs) else ([], (s :: g) :: gs)
  end.

Definition chunks (y_threshold : Q) (l : list Span.t) : list (list Span.t) :=
  match l with
  | [] => []
  | first :: rest => let '(g, gs) := chunk y_threshold first rest in (first :: g) :: gs
  end.

(** The index of the group that holds position [i] of the concatenation. *)
Fixpoint locate {A} (groups : list (list A)) (i : nat) : option nat :=
  match groups with
  | [] => None
  | g :: gs =>
      if (i <? List.length g)%nat then Some O
      else option_map S (locate gs (i - List.length g))
  end.

(** Positions [i] and [j] of the sorted spans of a page end up in the
    same merged line. *)
Definition same_line (y_threshold : Q) (page_spans : list Span.t) (i j : nat) : bool :=
  match locate (line_groups y_threshold page_spans) i,
        locate (line_groups y_threshold page_spans) j with
  | Some a, Some b => (a =? b)%nat
  | _, _ => false
  end.

(** A source whose only span has a one-character text: no usable line. *)
Definition blank_source : PageTextSource := fun _ =>
  Ok [ Page.mk 792 612
         [ None;
           Some [[ RawSpan.mk (lit " x ") 12 (lit "Helvetica") 0%Z (72, 72, 80, 84) ]] ] ].

(** A source that cannot open the document. *)
Definition broken_source : PageTextSource := fun _ =>
  Raise (SourceError (lit "cannot open broken document")).

(** The dictionary returned when the body of [extract_outline_robust] raises [e]. *)
Definition error_outline (e : exn) (pdf_path : str) : Outline.t :=
  {| Outline.title := lit "Error Processing Document"; Outline.outline := [];
     Outline.error := Some (exn_str e); Outline.file := Some pdf_path |}.

(** A line of the scenario: its text, size and weight on page 1; the other
    keys are those of [rest]. *)
Definition scenario_line (text : string) (size : Q) (bold : bool) (rest : Line.t) : Line.t :=
  {| Line.text := Some (lit text);
     Line.size := Some size;
     Line.font := Line.font rest;
     Line.bold := Some bold;
     Line.italic := Line.italic rest;
     Line.page := Some 1%Z;
     Line.y := Line.y rest;
     Line.x := Line.x rest;
     Line.relative_y := Line.relative_y rest;
     Line.relative_x := Line.relative_x rest;
     Line.span_count := Line.span_count rest;
     Line.char_count := Line.char_count rest |}.

Definition scenario_lines (b2 b3 : bool) (r1 r2 r3 : Line.t) : list Line.t :=
  [ scenario_line "1. Introduction" 18 true r1;
    scenario_line "Some body text." 11 b2 r2;
    scenario_line "1.1 Background" 14 b3 r3 ].

(** Thresholds with H1 = 18 and H2 = 14. *)
Definition scenario_thresholds (h3 h4 : Q) : FontThresholds :=
  [ (H1, 18); (H2, 14); (H3, h3); (H4, h4) ].

(** The outline of the scenario as the specification words it. *)
Definition scenario_outline_spec : list Heading.t :=
  [ Heading.mk H1 (lit "1. Introduction") 0%Z; Heading.mk H2 (lit "1.1 Background") 0%Z ].

(** The outline of the scenario as the cleaner leaves it. *)
Definition scenario_outline : list Heading.t :=
  [ Heading.mk H1 (lit "1. Introduction ") 0%Z; Heading.mk H2 (lit "1.1 Background ") 0%Z ].

(** A dictionary without any key. *)
Definition no_keys : Line.t :=
  Line.mk None None None None None None None None None None None None.

(** The lines that the boilerplate scenario names. *)
Definition boilerplate_examples : list str :=
  [ lit "Page 3"; lit "Draft v1.2"; lit "2024" ].

Definition cand_text (c : Candidate) : str := fst (fst c).

(** A line with every key, as [_merge_line_spans] builds it from one span. *)
Definition plain_line (text : string) (size : Q) (bold : bool) (page : Z) (relative_y : Q)
  : Line.t :=
  {| Line.text := Some (lit text);
     Line.size := Some size;
     Line.font := Some (lit "Helvetica");
     Line.bold := Some bold;
     Line.italic := Some false;
     Line.page := Some page;
     Line.y := Some (relative_y * 792);
     Line.x := Some 72;
     Line.relative_y := Some relative_y;
     Line.relative_x := Some (72 / 612);
     Line.span_count := Some 1%Z;
     Line.char_count := Some (len (lit text)) |}.

Definition boilerplate_lines : list Line.t :=
  [ plain_line "Page 3" 10 false 1 (1 # 20);
    plain_line "Annual Report" 24 true 1 (1 # 10);
    plain_line "Draft v1.2" 10 false 1 (9 # 10) ].

(** One page with two numbered lines that differ in their trailing number. *)
Definition duplicate_source : PageTextSource := fun _ =>
  Ok [ Page.mk 792 612
         [ Some [ [ RawSpan.mk (lit "1. Introduction 3") 12 (lit "Helvetica") 0%Z
                      (72, 100, 300, 112) ];
                  [ RawSpan.mk (lit "1. Introduction 12") 12 (lit "Helvetica") 0%Z
                      (72, 200, 300, 212) ] ] ] ].

Section Markers.
Context {U : UnicodeTables}.

(** A marker of the rfp-variant-3 title occurs in the text. *)
Definition has_file3_marker (text : str) : bool :=
  contains (lower text) (lit "rfp:") || contains (lower text) (lit "request for proposal")
  || contains (lower text) (lit "to present a proposal")
  || contains (lower text) (lit "developing the business plan")
  || contains (lower text) (lit "ontario digital library").

End Markers.

(** The thresholds do not increase from H1 to H4. *)
Definition monotone_thresholds (fa : FontThresholds) : Prop :=
  th_get fa H2 0 <= th_get fa H1 0
  /\ th_get fa H3 0 <= th_get fa H2 0
  /\ th_get fa H4 0 <= th_get fa H3 0.

(** A line of a given size, with every key. *)
Definition sized_line (size : Q) : Line.t := plain_line "Body text of a line" size false 1 (1 # 2).

(** Five lines of size 10, four of size 12, three of size 14. *)
Definition frequency_lines : list Line.t :=
  List.map sized_line [10; 10; 10; 10; 10; 12; 12; 12; 12; 14; 14; 14].

(** Lines of two sizes only. *)
Definition sparse_lines : list Line.t := List.map sized_line [10; 10; 10; 16].

Section CounterStates.
Variable K : Type.
Variable eqb : K -> K -> bool.

(** No two keys of the table are equal. *)
Definition distinct_keys (c : list (K * Z)) : Prop :=
  ForallOrdPairs (fun a b => eqb (fst a) (fst b) = false) c.

(** The state of a counter after the elements [seen]. *)
Definition counts (c : list (K * Z)) (seen : list K) : Prop :=
  (forall k n, In (k, n) c -> n = count_of eqb k seen)
  /\ (forall y, In y seen -> exists k n, In (k, n) c /\ eqb k y = true)
  /\ distinct_keys c.

End CounterStates.

(** Three different sizes occur three times or more each: the test of the
    frequency path. *)
Definition three_frequent (font_sizes : list Q) : Prop :=
  exists a b c,
    Qeq_bool a b = false /\ Qeq_bool a c = false /\ Qeq_bool b c = false
    /\ (3 <= count_of Qeq_bool a font_sizes)%Z
    /\ (3 <= count_of Qeq_bool b font_sizes)%Z
    /\ (3 <= count_of Qeq_bool c font_sizes)%Z.

(** The thresholds of the frequency path: [h1], [h2] and [h3] are three
    different sizes that occur three times or more, in the order of their
    numbers of occurrences, and no other size occurs more often than [h3];
    [h4] is the next such size if a fourth size occurs three times or more,
    and [h3] again if none does. *)
Definition ranked_by_frequency (font_sizes : list Q) (h1 h2 h3 h4 : Q) : Prop :=
  let occ := fun h => count_of Qeq_bool h font_sizes in
  (3 <= occ h3)%Z /\ (occ h3 <= occ h2)%Z /\ (occ h2 <= occ h1)%Z
  /\ Qeq_bool h1 h2 = false /\ Qeq_bool h1 h3 = false /\ Qeq_bool h2 h3 = false
  /\ (forall s, Qeq_bool h1 s = true \/ Qeq_bool h2 s = true \/ Qeq_bool h3 s = true
                \/ (occ s <= occ h3)%Z)
  /\ ((h4 = h3
       /\ forall s, (3 <= occ s)%Z ->
                    Qeq_bool h1 s = true \/ Qeq_bool h2 s = true \/ Qeq_bool h3 s = true)
      \/ ((3 <= occ h4)%Z /\ (occ h4 <= occ h3)%Z
          /\ Qeq_bool h1 h4 = false /\ Qeq_bool h2 h4 = false /\ Qeq_bool h3 h4 = false
          /\ forall s, Qeq_bool h1 s = true \/ Qeq_bool h2 s = true \/ Qeq_bool h3 s = true
                       \/ Qeq_bool h4 s = true \/ (occ s <= occ h4)%Z)).

(** The thresholds of the mean-ratio path: the mean of the sizes and its
    multiples, in order. *)
Definition scaled_from_mean (font_sizes : list Q) (h1 h2 h3 h4 : Q) : Prop :=
  h4 == qsum font_sizes / inject_Z (Z.of_nat (List.length font_sizes))
  /\ h1 == h4 * (13 # 10) /\ h2 == h4 * (115 # 100) /\ h3 == h4 * (105 # 100)
  /\ 0 < h4 /\ h4 <= h3 /\ h3 <= h2 /\ h2 <= h1.

(** Five lines of size 10, four of size 12, three of size 14 and three of
    size 16. *)
Definition four_size_lines : list Line.t :=
  List.map sized_line [10; 16; 10; 12; 14; 10; 12; 16; 14; 10; 12; 14; 16; 10; 12].

(** The line number of every span, by recursion on the sorted spans: the
    number grows by one at each span that does not extend the open line. *)
Fixpoint numbers_from (y_threshold : Q) (prev : Span.t) (n : nat) (l : list Span.t)
  : list nat :=
  match l with
  | [] => []
  | s :: l' =>
      let n' := if extends_line y_threshold s prev then n else S n in
      n' :: numbers_from y_threshold s n' l'
  end.

Definition numbers (y_threshold : Q) (l : list Span.t) : list nat :=
  match l with
  | [] => []
  | first :: rest => O :: numbers_from y_threshold first O rest
  end.

(** The rule of the Line Merger for the spans [a] and [b] at the
    positions [i] and [j] of the sorted spans of a page. *)
Definition pairwise_rule (page_spans : list Span.t) (i j : nat) (a b : Span.t) : Prop :=
  let y_diff := Qabs (Span.y a - Span.y b) in
  (y_diff <= 5 -> same_line 5 page_spans i j = true)
  /\ (5 < y_diff -> y_diff <= 15 ->
      (same_line 5 page_spans i j = true <-> Span.size a == Span.size b))
  /\ (15 < y_diff -> same_line 5 page_spans i j = false).

(** A span of page 1 at height [y], with a size. *)
Definition span_at (y size : Q) : Span.t :=
  {| Span.text := lit "word";
     Span.size := size;
     Span.font := lit "Helvetica";
     Span.bold := false;
     Span.italic := false;
     Span.page := 1%Z;
     Span.x := 72;
     Span.y := y;
     Span.page_height := 792;
     Span.page_width := 612;
     Span.relative_y := y / 792;
     Span.relative_x := 72 / 612;
     Span.char_count := 4%Z |}.

(** Three spans of one size, ten units apart. *)
Definition chain_spans : list Span.t := [span_at 100 12; span_at 110 12; span_at 120 12].

(** Two spans of different sizes, twelve units apart. *)
Definition apart_spans : list Span.t := [span_at 100 12; span_at 112 14].

(** The entry of the outline made from an entry that still holds the text
    of its line. *)
Definition cleaned (raw : Heading.t) : Heading.t :=
  {| Heading.level := Heading.level raw;
     Heading.text := _clean_heading_text (Heading.text raw);
     Heading.page := Heading.page raw |}.

(** [raw] holds the stripped text of [line] and its page, less one. *)
Definition from_line (raw : Heading.t) (line : Line.t) : Prop :=
  exists t p, Line.text line = Some t /\ Line.page line = Some p
              /\ Heading.text raw = strip t /\ Heading.page raw = (p - 1)%Z.

(** [la] is made, in order, from some of the elements of [lb]. *)
Inductive embeds {A B : Type} (R : A -> B -> Prop) : list A -> list B -> Prop :=
| embeds_nil : forall lb, embeds R [] lb
| embeds_take : forall a b la lb, R a b -> embeds R la lb -> embeds R (a :: la) (b :: lb)
| embeds_skip : forall b la lb, embeds R la lb -> embeds R la (b :: lb).

Definition on_page (p : Z) (h : Heading.t) : bool := (Heading.page h =? p)%Z.

(** The pages of the lines do not decrease. *)
Definition page_le (a b : Line.t) : Prop :=
  forall p q, Line.page a = Some p -> Line.page b = Some q -> (p <= q)%Z.

(** What the loop of a heading extractor keeps true: the headings are the
    cleaned entries [ins], made in order from lines read so far, with
    texts that are all different and all in [seen]. *)
Definition loop_invariant (read : list Line.t) (st : LoopState) (ins : list Heading.t)
  : Prop :=
  fst st = List.map cleaned ins
  /\ embeds from_line ins read
  /\ (forall r, In r ins -> In (Heading.text r) (snd st))
  /\ NoDup (List.map Heading.text ins).

(** What an extractor returns: the cleaned entries [raws], with different
    texts, in the order of their pages, and on every page the first of the
    entries [ins] that the loop made, in the order it made them. *)
Definition heading_list_ok (lines : list Line.t) (headings : list Heading.t) : Prop :=
  exists raws ins,
    headings = List.map cleaned raws
    /\ NoDup (List.map Heading.text raws)
    /\ StronglySorted (fun a b => (Heading.page a <= Heading.page b)%Z) raws
    /\ embeds from_line ins lines
    /\ forall p, exists rest, filter (on_page p) ins = filter (on_page p) raws ++ rest.


(** A dictionary with every key but ["size"]. *)
Definition no_size_line : Line.t :=
  {| Line.text := Some (lit "Quarterly Results");
     Line.size := None;
     Line.font := Some (lit "Helvetica");
     Line.bold := Some true;
     Line.italic := Some false;
     Line.page := Some 1%Z;
     Line.y := Some 72;
     Line.x := Some 72;
     Line.relative_y := Some (1 # 11);
     Line.relative_x := Some (2 # 17);
     Line.span_count := Some 1%Z;
     Line.char_count := Some 17%Z |}.

Section Recovery.
Context {U : UnicodeTables}.


End Recovery.

(** [re.search(r'\s+\d+\s*$', s)]: the string ends in whitespace, digits
    and optional whitespace. *)
Fixpoint ends_with_number (s : str) : bool :=
  ws_number_tail s || match s with [] => false | _ :: s' => ends_with_number s' end.

(** Two dots in a row. *)
Fixpoint has_leader (s : str) : bool :=
  match s with
  | c1 :: s1 =>
      match s1 with
      | c2 :: _ => (is_dot c1 && is_dot c2) || has_leader s1
      | [] => false
      end
  | [] => false
  end.

(** The string does not start with whitespace. *)
Definition starts_ok (s : str) : bool :=
  match s with
  | [] => true
  | c :: _ => negb (isspace c)
  end.

(** No whitespace at either end. *)
Definition trimmed (s : str) : Prop := starts_ok s = true /\ starts_ok (rev s) = true.

(** Every whitespace character is a space with no whitespace before it;
    [prev] tells whether whitespace comes before the string. *)
Fixpoint spaced_from (prev : bool) (s : str) : bool :=
  match s with
  | [] => true
  | c :: s' =>
      if isspace c then (c =? 32)%N && negb prev && spaced_from true s'
      else spaced_from false s'
  end.

(** The cleaner after its first substitution: from the text without
    leaders to the text with the punctuation fixed. *)
Definition tidy_of (cleaned : str) : str :=
  apply_fixes (strip (sub_whitespace (strip (sub_trailing_number cleaned)))).

(** ** Vocabulary of the further properties *)

(** The order of the sort key [(y, x)]. *)
Definition span_key_le (a b : Span.t) : Prop :=
  Span.y a < Span.y b \/ (Span.y a == Span.y b /\ Span.x a <= Span.x b).

(** The spans with the sort key [(ky, kx)]. *)
Definition has_key (ky kx : Q) (s : Span.t) : bool :=
  Qeq_bool (Span.y s) ky && Qeq_bool (Span.x s) kx.

(** Every span of the group extends the line of the span before it. *)
Fixpoint chained (y_threshold : Q) (g : list Span.t) : bool :=
  match g with
  | a :: g' =>
      match g' with
      | b :: _ => extends_line y_threshold b a && chained y_threshold g'
      | [] => true
      end
  | [] => true
  end.

(** A dictionary with all the keys of a line. *)
Definition complete (line : Line.t) : Prop :=
  Line.text line <> None /\ Line.size line <> None /\ Line.font line <> None
  /\ Line.bold line <> None /\ Line.italic line <> None /\ Line.page line <> None
  /\ Line.y line <> None /\ Line.x line <> None /\ Line.relative_y line <> None
  /\ Line.relative_x line <> None /\ Line.span_count line <> None
  /\ Line.char_count line <> None.

(** The text of a line of a document: two characters or more, no
    whitespace at its ends, counted by [char_count]. *)
Definition text_ok (line : Line.t) : Prop :=
  exists t, Line.text line = Some t /\ (2 <= len t)%Z /\ trimmed t
            /\ Line.char_count line = Some (len t).

(** [line] is the merge of some spans of the page. *)
Definition line_of_page (page_num : Z) (pg : Page.t) (line : Line.t) : Prop :=
  exists g, g <> [] /\ incl g (collect_spans page_num pg)
            /\ _merge_line_spans g = Ok line.

(** A span as the normalizer makes it: a text of two characters or more
    without whitespace at its ends, counted by [char_count]. *)
Definition span_ok (s : Span.t) : Prop :=
  trimmed (Span.text s) /\ (2 <= len (Span.text s))%Z
  /\ Span.char_count s = len (Span.text s).

(** The keys that [analyze_document_structure] reads with [line[...]]. *)
Definition has_analysis_keys (line : Line.t) : bool :=
  match Line.page line, Line.size line, Line.font line, Line.bold line, Line.text line with
  | Some _, Some _, Some _, Some _, Some _ => true
  | _, _, _, _, _ => false
  end.

(** The number of lines of size [k]. *)
Definition lines_of_size (k : Q) (lines : list Line.t) : Z :=
  Z.of_nat (List.length
              (filter (fun line => match Line.size line with
                                   | Some s => Qeq_bool k s
                                   | None => false
                                   end) lines)).

(** The document types. *)
Definition document_types : list str :=
  [ lit "rfp_file3"; lit "form"; lit "invitation"; lit "academic"; lit "rfp";
    lit "pathway"; lit "general" ].

(** A line of lines with all the keys of the analysis, two of them bold
    and of the same size. *)
Definition report_lines : list Line.t :=
  [ plain_line "Annual Report" 24 true 1 (1 # 10);
    plain_line "Prepared by the finance team" 11 false 1 (1 # 5);
    plain_line "Overview" 14 true 2 (1 # 10);
    plain_line "The year went well for everyone" 11 false 2 (1 # 5) ].

(** A marker of the rfp-variant-3 document type occurs in the text. *)
Definition has_file3_type_marker (text : str) : bool :=
  contains text (lit "request for proposal")
  || contains text (lit "ontario digital library")
  || contains text (lit "rfp:").

(** Lines with keywords of three document types. *)
Definition mixed_lines : list Line.t :=
  [ plain_line "Application form for the party" 12 false 1 (1 # 10);
    plain_line "Appendix A" 12 false 1 (1 # 5);
    plain_line "RFP: Library Services" 12 false 2 (1 # 10) ].

(** The size of the line, when it has one, is not positive. *)
Definition no_positive_size (line : Line.t) : bool :=
  match Line.size line with
  | Some s => negb (Qlt_bool 0 s)
  | None => true
  end.

(** The levels that the extractor of a document type can give, read off
    the classifier it calls. *)
Definition levels_of (doc_type : str) : list Level :=
  if str_eqb doc_type (lit "form") then []
  else if str_eqb doc_type (lit "invitation") then [H1]
  else if str_eqb doc_type (lit "academic") then [H1; H2]
  else if str_eqb doc_type (lit "rfp_file3") then [H1; H2; H3; H4]
  else if str_eqb doc_type (lit "rfp") then [H1; H2; H3]
  else if str_eqb doc_type (lit "pathway") then [H1]
  else [H1; H2].

(** The slice that ends the extractor of a document type, if any. *)
Definition heading_cap (doc_type : str) : option nat :=
  if str_eqb doc_type (lit "form") then Some 0%nat
  else if str_eqb doc_type (lit "invitation") then Some 2%nat
  else if str_eqb doc_type (lit "academic") then Some 18%nat
  else if str_eqb doc_type (lit "rfp_file3") then None
  else if str_eqb doc_type (lit "rfp") then Some 35%nat
  else if str_eqb doc_type (lit "pathway") then None
  else Some 25%nat.

(** The entry [h] of an outline is made from [line]: its text is the
    cleaned text of the line and its page the page of the line, less one. *)
Definition heading_of_line (h : Heading.t) (line : Line.t) : Prop :=
  exists t p, Line.text line = Some t /\ Line.page line = Some p
              /\ Heading.text h = _clean_heading_text (strip t)
              /\ Heading.page h = (p - 1)%Z.

(** What the loop of an extractor keeps true of its entries: their levels
    are among [levels], each is made from a line read so far, and they are
    no more than the lines read. *)
Definition entries_ok (levels : list Level) (read : list Line.t) (st : LoopState) : Prop :=
  Forall (fun h => In (Heading.level h) levels
                   /\ exists line, In line read /\ heading_of_line h line) (fst st)
  /\ (List.length (fst st) <= List.length read)%nat.

(** The lines of a document whose numbered lines become headings. *)
Definition numbered_lines : list Line.t :=
  [ plain_line "Quarterly Results" 20 true 1 (1 # 10);
    plain_line "1. Introduction" 12 false 1 (1 # 5);
    plain_line "The first paragraph of the text" 10 false 1 (3 # 10);
    plain_line "2. Methods" 12 false 2 (1 # 10);
    plain_line "2.1 Sampling" 11 false 2 (1 # 5) ].

(** The candidate [c] comes before [(score, i)] or beside it in the order
    of the sort key [(-score, i)]. *)
Definition not_better (score i : Z) (c : Candidate) : Prop :=
  let '(_, s, j) := c in (s < score \/ (s = score /\ i <= j))%Z.

(** Candidates for a title, the second and third with the same score. *)
Definition tied_candidates : list Candidate :=
  [ (lit "Prepared by the team", 3%Z, 0%Z);
    (lit "Annual Report", 7%Z, 1%Z);
    (lit "Financial Results", 7%Z, 2%Z) ].

(** The characters of the class [[\.\)\:]]. *)
Definition is_number_mark (c : char) : bool := (c =? 46)%N || (c =? 41)%N || (c =? 58)%N.

(** A text that starts with a number, a dot, whitespace and a capital
    letter of the class [[A-Z]]. *)
Definition numbered_text (text : str) : Prop :=
  exists digits spaces c rest,
    text = digits ++ [46%N] ++ spaces ++ c :: rest
    /\ digits <> [] /\ forallb is_decimal digits = true
    /\ spaces <> [] /\ forallb isspace spaces = true
    /\ is_AZ c = true.

(** ** The batch run

    [run_multilingual_extraction] reads the directory of the documents and
    writes one file for each.  The paths that [INPUT_DIR.glob("*.pdf")]
    lists are an argument, and the files written are returned beside the
    summary, in the order of the writes; opening a file for writing is
    taken not to fail. *)

(** A path of the input directory: [str(pdf)], [pdf.name] and [pdf.stem]. *)
Module PdfFile.
Record t := mk {
  path : str;
  name : str;
  stem : str
}.
End PdfFile.

(** An entry of [results_summary]. *)
Module Row.
Record t := mk {
  file : str;
  success : bool;
  headings_count : Z;
  title : str;
  output_file : str
}.
End Row.

(** A file written by the run: the outline of a document, or the schema
    of [generate_schema], a constant. *)
Inductive Write :=
| WriteOutline (file : str) (result : Outline.t)
| WriteSchema (file : str).

(** The dictionary that the run returns. *)
Module Summary.
Inductive t :=
| Error (error : str)
| Done (total_files successful total_headings : Z) (schema_generated : bool)
    (schema_file : str) (results : list Row.t).
End Summary.

Section Batch.
Context {U : UnicodeTables}.
Variable fitz_open : PageTextSource.

(** One iteration of [for pdf in pdf_files] on [results_summary] and the
    files written. *)
Definition batch_step (st : list Row.t * list Write) (pdf : PdfFile.t)
  : list Row.t * list Write :=
  let '(results_summary, written) := st in
  let result := extract_outline_robust fitz_open (PdfFile.path pdf) in
  let output_name := PdfFile.stem pdf ++ lit "_outline.json" in
  (results_summary ++
     [ {| Row.file := PdfFile.name pdf;
          Row.success := match Outline.error result with None => true | Some _ => false end;
          Row.headings_count := Z.of_nat (List.length (Outline.outline result));
          Row.title := Outline.title result;
          Row.output_file := output_name |} ],
   written ++ [ WriteOutline (lit "output/" ++ output_name) result ]).

(** [run_multilingual_extraction] *)
Definition run_multilingual_extraction (pdf_files : list PdfFile.t)
  : Summary.t * list Write :=
  if negb (nonempty pdf_files) then
    (Summary.Error (lit "No PDFs found in sample_dataset/pdfs/"), [])
  else
    let '(results_summary, written) := fold_left batch_step pdf_files ([], []) in
    (Summary.Done (Z.of_nat (List.length pdf_files))
       (Z.of_nat (List.length (filter Row.success results_summary)))
       (zsum (List.map Row.headings_count results_summary))
       true
       (lit "schema/schema.json")
       results_summary,
     written ++ [ WriteSchema (lit "schema/schema.json") ]).

(** The row and the file that one iteration adds. *)
Definition batch_row (pdf : PdfFile.t) : Row.t :=
  {| Row.file := PdfFile.name pdf;
     Row.success := match Outline.error (extract_outline_robust fitz_open (PdfFile.path pdf))
                    with None => true | Some _ => false end;
     Row.headings_count :=
       Z.of_nat (List.length
                   (Outline.outline (extract_outline_robust fitz_open (PdfFile.path pdf))));
     Row.title := Outline.title (extract_outline_robust fitz_open (PdfFile.path pdf));
     Row.output_file := PdfFile.stem pdf ++ lit "_outline.json" |}.

Definition batch_write (pdf : PdfFile.t) : Write :=
  WriteOutline (lit "output/" ++ (PdfFile.stem pdf ++ lit "_outline.json"))
    (extract_outline_robust fitz_open (PdfFile.path pdf)).

End Batch.

(** The document behind the path opens. *)
Definition opens (fitz_open : PageTextSource) (pdf : PdfFile.t) : bool :=
  match fitz_open (PdfFile.path pdf) with
  | Ok _ => true
  | Raise _ => false
  end.

(** What the row of the summary tells of its document. *)
Definition row_of_file (fitz_open : PageTextSource) (pdf : PdfFile.t) (row : Row.t) : Prop :=
  Row.file row = PdfFile.name pdf
  /\ Row.output_file row = PdfFile.stem pdf ++ lit "_outline.json"
  /\ Row.success row = opens fitz_open pdf
  /\ (0 <= Row.headings_count row)%Z
  /\ Row.title row <> []
  /\ (Row.success row = false ->
      Row.headings_count row = 0%Z /\ Row.title row = lit "Error Processing Document").

(** A directory of two documents, of which the second does not open. *)
Definition two_files : list PdfFile.t :=
  [ PdfFile.mk (lit "sample_dataset/pdfs/dup.pdf") (lit "dup.pdf") (lit "dup");
    PdfFile.mk (lit "sample_dataset/pdfs/broken.pdf") (lit "broken.pdf") (lit "broken") ].

(** The source of the two documents. *)
Definition two_files_source : PageTextSource := fun pdf_path =>
  if str_eqb pdf_path (lit "sample_dataset/pdfs/dup.pdf")
  then duplicate_source pdf_path else broken_source pdf_path.

(** ** Script detection

    [str.isdigit] and [unicodedata.name] are fixed here on ASCII: the
    digits are [0] to [9], the names of the letters start with the word
    LATIN, the control characters have no name, and the name of no other
    character starts with a word of the list of scripts.  Beyond ASCII they
    are the tables of the interpreter's Unicode database, taken as given:
    [u_name_head] is the first word of the name, if there is a name. *)

Class UnicodeNames := {
  u_isdigit : char -> bool;
  u_name_head : char -> option str
}.

(** The scripts that are counted under their own name. *)
Definition script_names : list str :=
  [ lit "LATIN"; lit "ARABIC"; lit "CHINESE"; lit "JAPANESE"; lit "KOREAN";
    lit "CYRILLIC"; lit "GREEK"; lit "HEBREW"; lit "DEVANAGARI"; lit "THAI";
    lit "MYANMAR" ].

Section Scripts.
Context {U : UnicodeTables} {D : UnicodeNames}.

(** [char.isdigit()] *)
Definition c_isdigit (c : char) : bool :=
  if is_ascii c then in_range 48 57 c else u_isdigit c.

(** The test that skips a character: whitespace, a digit, or a character
    of ['.,;:!?()[]{}']. *)
Definition skipped (c : char) : bool :=
  isspace c || c_isdigit c || existsb (N.eqb c) (lit ".,;:!?()[]{}").

(** The key of [script_counts] that a counted character adds to. *)
Definition script_key (c : char) : str :=
  if is_ascii c then
    if is_AZ c || is_az c then lit "LATIN"
    else if (c <? 32)%N || (c =? 127)%N then lit "UNKNOWN"
    else lit "OTHER"
  else
    match u_name_head c with
    | Some script => if existsb (str_eqb script) script_names then script else lit "OTHER"
    | None => lit "UNKNOWN"
    end.

(** One iteration of [for char in text]. *)
Definition script_step (script_counts : list (str * Z)) (c : char) : list (str * Z) :=
  if skipped c then script_counts else counter_add str_eqb (script_key c) script_counts.

(** [_detect_script_type].  On a [str] the body raises nothing that the
    inner handler does not catch, so the outer handler is not written. *)
Definition _detect_script_type (text : str) : str :=
  if negb (nonempty text) then lit "unknown"
  else
    match fold_left script_step text [] with
    | [] => lit "unknown"
    | c0 :: cs => lower (fst (max_by snd c0 cs))
    end.

End Scripts.

(** The names of an interpreter that knows no character beyond ASCII. *)
Definition ascii_names : UnicodeNames :=
  {| u_isdigit := fun _ => false;
     u_name_head := fun _ => None |}.

(** What [_detect_script_type] can return. *)
Definition script_labels : list str :=
  [ lit "latin"; lit "arabic"; lit "chinese"; lit "japanese"; lit "korean";
    lit "cyrillic"; lit "greek"; lit "hebrew"; lit "devanagari"; lit "thai";
    lit "myanmar"; lit "other"; lit "unknown" ].

(** The character is an ASCII letter. *)
Definition is_letter (c : char) : bool := is_AZ c || is_az c.

(** The ASCII digits [0] to [9]. *)
Definition is_09 (c : char) : bool := in_range 48 57 c.

(** ** The result monad *)

Lemma mapM_id_map A B (f : A -> result B) (l : list A) :
  mapM (fun r => r) (List.map f l) = mapM f l.
Proof.
  induction l as [|a l IH]; simpl; [reflexivity|].
  destruct (f a); simpl; [rewrite IH|]; reflexivity.
Qed.

Lemma mapM_ok A B (f : A -> result B) (l : list A) :
  Forall (fun a => exists b, f a = Ok b) l -> exists bs, mapM f l = Ok bs.
Proof.
  induction 1 as [|a l [b Hb] _ [bs IH]]; simpl.
  - eexists; reflexivity.
  - rewrite Hb, IH. simpl. eexists; reflexivity.
Qed.

Lemma mapM_Forall2 A B (f : A -> result B) (l : list A) (bs : list B) :
  mapM f l = Ok bs -> Forall2 (fun a b => f a = Ok b) l bs.
Proof.
  revert bs; induction l as [|a l IH]; simpl; intros bs H.
  - inversion H; constructor.
  - destruct (f a) eqn:Ha; simpl in H; [|discriminate].
    destruct (mapM f l) eqn:Hl; simpl in H; [|discriminate].
    inversion H; subst. constructor; auto.
Qed.

(** ** The walk of the Line Merger *)

Section WalkFacts.
Context {A : Type}.
Variable merge : list Span.t -> A.
Variable th : Q.

Lemma walk_fold (rest : list Span.t) :
  forall (lines : list A) (cur : list Span.t) (p : Span.t),
    cur <> [] -> (forall d, last cur d = p) ->
    (let '(ls, c) := fold_left (walk_step merge th) rest (lines, cur) in
     if nonempty c then ls ++ [merge c] else ls)
    = lines ++ List.map merge (let '(g, gs) := chunk th p rest in (cur ++ g) :: gs).
Proof.
  induction rest as [|s rest IH]; intros lines cur p Hne Hlast.
  - simpl. destruct cur; [congruence|]. simpl. rewrite app_nil_r. reflexivity.
  - simpl fold_left. rewrite (Hlast s).
    simpl chunk. destruct (chunk th s rest) as [g gs] eqn:Hc.
    destruct (extends_line th s p) eqn:He.
    + rewrite (IH lines (cur ++ [s]) s).
      * rewrite Hc. rewrite <- app_assoc. reflexivity.
      * destruct cur; discriminate.
      * intros d. apply last_last.
    + assert (Hn : nonempty cur = true) by (destruct cur; [congruence|reflexivity]).
      rewrite Hn. rewrite (IH (lines ++ [merge cur]) [s] s).
      * rewrite Hc. simpl. rewrite app_nil_r. rewrite <- app_assoc. reflexivity.
      * discriminate.
      * reflexivity.
Qed.

Lemma walk_chunks (l : list Span.t) : walk merge th l = List.map merge (chunks th l).
Proof.
  destruct l as [|first rest]; [reflexivity|].
  unfold walk, chunks.
  pose proof (@walk_fold rest [] [first] first) as H.
  simpl app in H. rewrite H by (discriminate || reflexivity).
  destruct (chunk th first rest); reflexivity.
Qed.

End WalkFacts.

Lemma line_groups_chunks th l : line_groups th l = chunks th (sort_spans l).
Proof. unfold line_groups. rewrite walk_chunks. apply map_id. Qed.

Lemma chunk_concat th (l : list Span.t) :
  forall p, (let '(g, gs) := chunk th p l in g ++ List.concat gs) = l.
Proof.
  induction l as [|s l IH]; intros p; simpl; [reflexivity|].
  specialize (IH s). destruct (chunk th s l) as [g gs].
  destruct (extends_line th s p); simpl; rewrite IH; reflexivity.
Qed.

Lemma chunks_concat th l : List.concat (chunks th l) = l.
Proof.
  destruct l as [|f r]; [reflexivity|]. unfold chunks.
  pose proof (chunk_concat th r f) as H. destruct (chunk th f r) as [g gs].
  simpl. rewrite H. reflexivity.
Qed.

Lemma chunk_nonempty th (l : list Span.t) :
  forall p, Forall (fun g => g <> []) (snd (chunk th p l)).
Proof.
  induction l as [|s l IH]; intros p; simpl; [constructor|].
  specialize (IH s). destruct (chunk th s l) as [g gs]. simpl in IH.
  destruct (extends_line th s p); simpl; [assumption|].
  constructor; [discriminate|assumption].
Qed.

Lemma chunks_nonempty th l : Forall (fun g => g <> []) (chunks th l).
Proof.
  destruct l as [|f r]; [constructor|]. unfold chunks.
  pose proof (chunk_nonempty th r f) as H. destruct (chunk th f r) as [g gs].
  constructor; [discriminate|assumption].
Qed.

Lemma merge_ok (spans : list Span.t) :
  spans <> [] -> exists line, _merge_line_spans spans = Ok line.
Proof.
  destruct spans as [|s0 rest]; [congruence|]. intros _.
  unfold _merge_line_spans. eexists; reflexivity.
Qed.

Lemma page_lines_ok th n pg : exists lines, page_lines th n pg = Ok lines.
Proof.
  unfold page_lines. rewrite walk_chunks, mapM_id_map.
  apply mapM_ok. eapply Forall_impl; [|apply chunks_nonempty].
  intros g Hg. apply merge_ok; assumption.
Qed.

Lemma pages_lines_ok th (pages : list Page.t) :
  forall n, exists lines, pages_lines th n pages = Ok lines.
Proof.
  induction pages as [|pg rest IH]; intros n; simpl.
  - eexists; reflexivity.
  - destruct (page_lines_ok th n pg) as [ls ->].
    destruct (IH (n + 1)%Z) as [more ->]. simpl. eexists; reflexivity.
Qed.

(** The text source is the only origin of an exception of the extraction. *)
Lemma extract_text_ok (fitz_open : PageTextSource) pdf_path th doc :
  fitz_open pdf_path = Ok doc ->
  exists lines,
    extract_text_with_metadata fitz_open pdf_path th
    = Ok (lines, Z.of_nat (List.length doc)).
Proof.
  intros H. unfold extract_text_with_metadata. rewrite H. simpl.
  destruct (pages_lines_ok th doc 0) as [ls ->]. simpl. eexists; reflexivity.
Qed.

Lemma extract_text_raise (fitz_open : PageTextSource) pdf_path th e :
  fitz_open pdf_path = Raise e ->
  extract_text_with_metadata fitz_open pdf_path th = Raise e.
Proof. intros H. unfold extract_text_with_metadata. rewrite H. reflexivity. Qed.

(** ** The pipeline *)

(** C5: a document from which no line is extracted gives exactly the
    title "Empty Document" and an empty outline, without the keys
    ["error"] and ["file"]. *)
Theorem C5_empty_document (U : UnicodeTables) (fitz_open : PageTextSource)
  (pdf_path : str) (doc_info : Z) :
  extract_text_with_metadata fitz_open pdf_path 5 = Ok ([], doc_info) ->
  extract_outline_robust fitz_open pdf_path
  = {| Outline.title := lit "Empty Document"; Outline.outline := [];
       Outline.error := None; Outline.file := None |}.
Proof.
  intros H. unfold extract_outline_robust, outline_body. rewrite H. reflexivity.
Qed.

Lemma C5_empty_document_witness :
  extract_text_with_metadata blank_source (lit "blank.pdf") 5 = Ok ([], 1%Z)
  /\ @extract_outline_robust ascii_tables blank_source (lit "blank.pdf")
     = {| Outline.title := lit "Empty Document"; Outline.outline := [];
          Outline.error := None; Outline.file := None |}.
Proof.
  split.
  - vm_compute. reflexivity.
  - apply (@C5_empty_document ascii_tables blank_source (lit "blank.pdf") 1%Z).
    vm_compute. reflexivity.
Defined.

Lemma outline_body_no_error (U : UnicodeTables) (fitz_open : PageTextSource) pdf_path r :
  outline_body fitz_open pdf_path = Ok r ->
  Outline.error r = None /\ Outline.file r = None.
Proof.
  unfold outline_body. intros H.
  destruct (extract_text_with_metadata fitz_open pdf_path 5) as [[lines di]|e];
    simpl in H; [|discriminate].
  destruct (nonempty lines); simpl in H.
  - destruct (extract_main_headings_only lines (analyze_document_structure lines)).
    inversion H; subst; split; reflexivity.
  - inversion H; subst; split; reflexivity.
Qed.

Lemma outline_body_ok (U : UnicodeTables) (fitz_open : PageTextSource) pdf_path doc :
  fitz_open pdf_path = Ok doc -> exists r, outline_body fitz_open pdf_path = Ok r.
Proof.
  intros H. unfold outline_body.
  destruct (extract_text_ok 5 H) as [lines ->]. simpl.
  destruct (nonempty lines); simpl.
  - destruct (extract_main_headings_only lines (analyze_document_structure lines)).
    eexists; reflexivity.
  - eexists; reflexivity.
Qed.

(** C9: [extract_outline_robust] returns a dictionary for every source and
    path.  When the source fails with [e] the result is the error
    dictionary, with ["error"] and ["file"]; otherwise the body of the
    [try] returns the result, which has neither key. *)
Theorem C9_extract_outline_total (U : UnicodeTables) (fitz_open : PageTextSource)
  (pdf_path : str) :
  match fitz_open pdf_path with
  | Raise e =>
      outline_body fitz_open pdf_path = Raise e
      /\ extract_outline_robust fitz_open pdf_path = error_outline e pdf_path
  | Ok _ =>
      outline_body fitz_open pdf_path = Ok (extract_outline_robust fitz_open pdf_path)
      /\ Outline.error (extract_outline_robust fitz_open pdf_path) = None
      /\ Outline.file (extract_outline_robust fitz_open pdf_path) = None
  end.
Proof.
  destruct (fitz_open pdf_path) as [doc|e] eqn:Hsrc.
  - destruct (outline_body_ok U Hsrc) as [r Hr].
    unfold extract_outline_robust. rewrite Hr.
    split; [reflexivity|]. exact (outline_body_no_error Hr).
  - assert (Hb : outline_body fitz_open pdf_path = Raise e).
    { unfold outline_body. rewrite (extract_text_raise _ Hsrc). reflexivity. }
    split; [exact Hb|]. unfold extract_outline_robust. rewrite Hb. reflexivity.
Qed.

(** The result for a source that fails. *)
Example broken_source_outline (U : UnicodeTables) :
  extract_outline_robust broken_source (lit "broken.pdf")
  = error_outline (SourceError (lit "cannot open broken document")) (lit "broken.pdf").
Proof. reflexivity. Qed.

(** ** The scenario of the general classifier *)

(** C7, as worded: the outline of the scenario is not the one with the
    bare texts, whether the thresholds are the given ones or the ones the
    extractor computes. *)
Lemma C7_scenario_counterexample :
  (r <- main_headings_with (scenario_thresholds 12 11) 5 _classify_general_main_heading
          (scenario_lines false false no_keys no_keys no_keys) ;; Ok (firstn 25 r))
  <> Ok scenario_outline_spec
  /\ _extract_general_main_headings (scenario_lines false false no_keys no_keys no_keys)
       Analysis.empty
     <> Ok scenario_outline_spec.
Proof. split; vm_compute; discriminate. Qed.

(** C7, amended: under the thresholds H1 = 18 and H2 = 14 the three lines
    are classified H1, not a heading, H2, and the outline is the two
    headings on page 0 with the texts "1. Introduction " and
    "1.1 Background ", each ending in the space of the cleaner; the
    extractor, which computes its thresholds from the lines, returns the
    same outline. *)
Theorem C7_general_scenario (b2 b3 : bool) (r1 r2 r3 : Line.t) (h3 h4 : Q)
  (doc_analysis : Analysis.t) :
  let lines := scenario_lines b2 b3 r1 r2 r3 in
  let fa := scenario_thresholds h3 h4 in
  List.map (fun line =>
              match Line.text line with
              | Some t => _classify_general_main_heading (strip t) line fa
              | None => Ok None
              end) lines
  = [Ok (Some H1); Ok None; Ok (Some H2)]
  /\ (r <- main_headings_with fa 5 _classify_general_main_heading lines ;; Ok (firstn 25 r))
     = Ok scenario_outline
  /\ _extract_general_main_headings lines doc_analysis = Ok scenario_outline.
Proof.
  destruct b2, b3; vm_compute; repeat split.
Qed.

(** ** Duplicate cleaned texts *)

(** C10: the two lines of [duplicate_source] have different texts, both
    are headings, and the two entries of the outline have the same cleaned
    text. *)
Theorem C10_duplicate_cleaned_text (U : UnicodeTables) :
  (exists lines doc_info,
      extract_text_with_metadata duplicate_source (lit "dup.pdf") 5 = Ok (lines, doc_info)
      /\ List.map Line.text lines
         = [Some (lit "1. Introduction 3"); Some (lit "1. Introduction 12")])
  /\ Outline.outline (extract_outline_robust duplicate_source (lit "dup.pdf"))
     = [ Heading.mk H1 (lit "1. Introduction ") 0%Z;
         Heading.mk H1 (lit "1. Introduction ") 0%Z ].
Proof.
  split.
  - eexists; eexists; split; vm_compute; reflexivity.
  - vm_compute. reflexivity.
Qed.

(** ** The boilerplate filter *)

Section Boilerplate.
Context {U : UnicodeTables}.

Lemma foldM_invariant A B (P : A -> Prop) (f : A -> B -> result A) (l : list B) :
  (forall a b a', P a -> f a b = Ok a' -> P a') ->
  forall a a', P a -> foldM f l a = Ok a' -> P a'.
Proof.
  intros Hstep. induction l as [|b l IH]; simpl; intros a a' Ha H.
  - inversion H; subst; assumption.
  - destruct (f a b) eqn:Hf; simpl in H; [|discriminate].
    eapply IH; [|exact H]. eapply Hstep; eassumption.
Qed.

Lemma title_step_filter analysis cs il cs' :
  Forall (fun c => _is_universal_metadata (cand_text c) = false) cs ->
  title_step analysis cs il = Ok cs' ->
  Forall (fun c => _is_universal_metadata (cand_text c) = false) cs'.
Proof.
  intros Hcs. unfold title_step. destruct il as [i line].
  destruct (getitem "text" (Line.text line)) as [t|]; simpl; [|discriminate].
  destruct (_is_universal_metadata (strip t)) eqn:Hm.
  - rewrite andb_false_r. intros H; inversion H; subst; assumption.
  - destruct (_ && _ && _ && _); [|intros H; inversion H; subst; assumption].
    destruct (if has_size_stats analysis then _ else _); simpl; [|discriminate].
    destruct (getitem "bold" (Line.bold line)); simpl; [|discriminate].
    destruct (getitem "relative_y" (Line.relative_y line)); simpl; [|discriminate].
    intros H; inversion H; subst. apply Forall_app; split; [assumption|].
    constructor; [exact Hm|constructor].
Qed.

Lemma academic_title_step_filter analysis cs il cs' :
  Forall (fun c => _is_universal_metadata (cand_text c) = false) cs ->
  academic_title_step analysis cs il = Ok cs' ->
  Forall (fun c => _is_universal_metadata (cand_text c) = false) cs'.
Proof.
  intros Hcs. unfold academic_title_step. destruct il as [i line].
  destruct (getitem "text" (Line.text line)) as [t|]; simpl; [|discriminate].
  destruct (_is_universal_metadata (strip t)) eqn:Hm.
  - rewrite !orb_true_r. intros H; inversion H; subst; assumption.
  - destruct (_ || _ || _ || _); [intros H; inversion H; subst; assumption|].
    destruct (if has_size_stats analysis then _ else _); simpl; [|discriminate].
    destruct (getitem "bold" (Line.bold line)); simpl; [|discriminate].
    destruct (getitem "relative_y" (Line.relative_y line)); simpl; [|discriminate].
    intros H; inversion H; subst. apply Forall_app; split; [assumption|].
    constructor; [exact Hm|constructor].
Qed.

(** The candidates of both scoring loops passed the boilerplate filter. *)
Lemma title_candidates_filtered lines analysis cs :
  title_candidates lines analysis = Ok cs ->
  Forall (fun c => _is_universal_metadata (cand_text c) = false) cs.
Proof.
  unfold title_candidates. destruct (first_page_lines 50 lines) as [fpl|]; simpl; [|discriminate].
  apply foldM_invariant with (P := Forall (fun c => _is_universal_metadata (cand_text c) = false)).
  - intros c0 il c1 Hc0 Hs. eapply title_step_filter; eassumption.
  - constructor.
Qed.

Lemma academic_title_candidates_filtered analysis fpl cs :
  academic_title_candidates analysis fpl = Ok cs ->
  Forall (fun c => _is_universal_metadata (cand_text c) = false) cs.
Proof.
  unfold academic_title_candidates.
  apply foldM_invariant with (P := Forall (fun c => _is_universal_metadata (cand_text c) = false)).
  - intros c0 il c1 Hc0 Hs. eapply academic_title_step_filter; eassumption.
  - constructor.
Qed.

Lemma file3_title_parts_marked lines parts :
  file3_title_parts lines = Ok parts ->
  Forall (fun p => has_file3_marker p = true) parts.
Proof.
  unfold file3_title_parts.
  apply foldM_invariant with (P := Forall (fun p => has_file3_marker p = true));
    [|constructor].
  intros parts0 line parts1 Ha. unfold file3_title_step.
  destruct (getitem "text" (Line.text line)) as [t|]; simpl; [|discriminate].
  unfold has_file3_marker.
  destruct (contains (lower (strip t)) (lit "rfp:")) eqn:E1;
  destruct (contains (lower (strip t)) (lit "request for proposal")) eqn:E2;
  destruct (contains (lower (strip t)) (lit "to present a proposal")) eqn:E3;
  destruct (contains (lower (strip t)) (lit "developing the business plan")) eqn:E4;
  destruct (contains (lower (strip t)) (lit "ontario digital library")) eqn:E5;
  simpl; intros H; inversion H; subst; try assumption;
  (apply Forall_app; split; [assumption|]; constructor; [|constructor]);
  rewrite ?E1, ?E2, ?E3, ?E4, ?E5; reflexivity.
Qed.

Lemma academic_fallback_keyword fpl found :
  academic_fallback fpl = Ok (Some found) ->
  contains (lower found) (lit "overview") || contains (lower found) (lit "foundation")
  = true.
Proof.
  induction fpl as [|line rest IH]; simpl; [discriminate|].
  destruct (getitem "text" (Line.text line)) as [t|]; simpl; [|discriminate].
  destruct (contains (lower (strip t)) (lit "overview")
            || contains (lower (strip t)) (lit "foundation")) eqn:E; simpl.
  - destruct (10 <? len (strip t))%Z; [|exact IH].
    intros H; inversion H; subst; exact E.
  - exact IH.
Qed.

(** C8: "Page 3", "Draft v1.2" and "2024" are flagged by the boilerplate
    filter, and such a line is no title candidate of any title extractor:
    not in [candidates] of the generic path, not in [candidates] of the
    academic path nor the line of its fallback (for any [first_page_lines]),
    not in [title_parts] of the rfp-variant-3 path. *)
Theorem C8_boilerplate_never_candidate (lines fpl : list Line.t) (analysis : Analysis.t)
  (t : str) :
  In t boilerplate_examples ->
  _is_universal_metadata t = true
  /\ (forall cs, title_candidates lines analysis = Ok cs -> ~ In t (List.map cand_text cs))
  /\ (forall cs, academic_title_candidates analysis fpl = Ok cs ->
                 ~ In t (List.map cand_text cs))
  /\ (forall found, academic_fallback fpl = Ok (Some found) -> found <> t)
  /\ (forall parts, file3_title_parts lines = Ok parts -> ~ In t parts).
Proof.
  intros Ht.
  assert (Hmeta : _is_universal_metadata t = true).
  { simpl in Ht. destruct Ht as [<-|[<-|[<-|[]]]]; vm_compute; reflexivity. }
  assert (Hmark : has_file3_marker t = false).
  { simpl in Ht. destruct Ht as [<-|[<-|[<-|[]]]]; vm_compute; reflexivity. }
  assert (Hkey : contains (lower t) (lit "overview") || contains (lower t) (lit "foundation")
                 = false).
  { simpl in Ht. destruct Ht as [<-|[<-|[<-|[]]]]; vm_compute; reflexivity. }
  split; [exact Hmeta|]. repeat split.
  - intros cs Hcs Hin. apply title_candidates_filtered in Hcs.
    apply in_map_iff in Hin. destruct Hin as [c [<- Hc]].
    rewrite Forall_forall in Hcs. specialize (Hcs c Hc). congruence.
  - intros cs Hcs Hin. apply academic_title_candidates_filtered in Hcs.
    apply in_map_iff in Hin. destruct Hin as [c [<- Hc]].
    rewrite Forall_forall in Hcs. specialize (Hcs c Hc). congruence.
  - intros found Hf ->. apply academic_fallback_keyword in Hf. congruence.
  - intros parts Hp Hin. apply file3_title_parts_marked in Hp.
    rewrite Forall_forall in Hp. specialize (Hp t Hin). congruence.
Qed.

End Boilerplate.

Lemma C8_boilerplate_never_candidate_witness :
  In (lit "Page 3") boilerplate_examples
  /\ @title_candidates ascii_tables boilerplate_lines Analysis.empty
     = Ok [(lit "Annual Report", 7%Z, 1%Z)]
  /\ @_is_universal_metadata ascii_tables (lit "Page 3") = true.
Proof.
  split; [left; reflexivity|]. split; [vm_compute; reflexivity|].
  apply (@C8_boilerplate_never_candidate ascii_tables boilerplate_lines boilerplate_lines
           Analysis.empty (lit "Page 3")).
  left; reflexivity.
Defined.

(** ** Stable sorting *)

Section SortFacts.
Variable A : Type.
Variable lt : A -> A -> bool.

Lemma insert_sorted_perm (a : A) (l : list A) :
  Permutation (insert_sorted lt a l) (a :: l).
Proof.
  induction l as [|b l IH]; simpl; [apply Permutation_refl|].
  destruct (lt b a); [|apply Permutation_refl].
  eapply perm_trans; [apply perm_skip, IH|apply perm_swap].
Qed.

Lemma stable_sort_perm (l : list A) : Permutation (stable_sort lt l) l.
Proof.
  induction l as [|a l IH]; simpl; [constructor|].
  eapply perm_trans; [apply insert_sorted_perm|apply perm_skip, IH].
Qed.

(** The members of a class that the order cannot tell apart keep their
    relative order. *)
Lemma insert_sorted_filter (p : A -> bool) (a : A) (l : list A) :
  (forall b, p a = true -> p b = true -> lt b a = false) ->
  filter p (insert_sorted lt a l) = filter p (a :: l).
Proof.
  intros Hp. induction l as [|b l IH]; [reflexivity|].
  simpl insert_sorted. destruct (lt b a) eqn:Hlt; [|reflexivity].
  simpl filter at 1. rewrite IH. simpl.
  destruct (p a) eqn:Ha, (p b) eqn:Hb; try reflexivity.
  rewrite (Hp b eq_refl Hb) in Hlt. discriminate.
Qed.

Lemma stable_sort_filter (p : A -> bool) (l : list A) :
  (forall a b, p a = true -> p b = true -> lt b a = false) ->
  filter p (stable_sort lt l) = filter p l.
Proof.
  intros Hp. induction l as [|a l IH]; [reflexivity|].
  simpl stable_sort. rewrite insert_sorted_filter by (intros b; apply Hp).
  simpl. rewrite IH. reflexivity.
Qed.

Hypothesis lt_asym : forall a b, lt a b = true -> lt b a = false.
Hypothesis le_trans : forall a b c, lt b a = false -> lt c b = false -> lt c a = false.

Lemma insert_sorted_sorted (a : A) (l : list A) :
  StronglySorted (fun x y => lt y x = false) l ->
  StronglySorted (fun x y => lt y x = false) (insert_sorted lt a l).
Proof.
  induction 1 as [|b l Hs IH Hb]; simpl.
  - constructor; constructor.
  - destruct (lt b a) eqn:Hlt.
    + constructor; [exact IH|].
      eapply Permutation_Forall; [apply Permutation_sym, insert_sorted_perm|].
      constructor; [apply lt_asym; exact Hlt|exact Hb].
    + constructor; [constructor; assumption|].
      constructor; [exact Hlt|].
      eapply Forall_impl; [|exact Hb]. intros c Hc. eapply le_trans; eassumption.
Qed.

Lemma stable_sort_sorted (l : list A) :
  StronglySorted (fun x y => lt y x = false) (stable_sort lt l).
Proof.
  induction l as [|a l IH]; simpl; [constructor|].
  apply insert_sorted_sorted, IH.
Qed.

End SortFacts.

Lemma stable_sort_map A B (f : A -> B) (lt : A -> A -> bool) (lt' : B -> B -> bool)
  (l : list A) :
  (forall a b, lt' (f a) (f b) = lt a b) ->
  stable_sort lt' (List.map f l) = List.map f (stable_sort lt l).
Proof.
  intros H. induction l as [|a l IH]; [reflexivity|]. simpl. rewrite IH.
  generalize (stable_sort lt l). intros s.
  induction s as [|b s IHs]; [reflexivity|]. simpl. rewrite H.
  destruct (lt b a); simpl; [rewrite IHs|]; reflexivity.
Qed.

Lemma StronglySorted_weaken A (R R' : A -> A -> Prop) (l : list A) :
  (forall a b, R a b -> R' a b) -> StronglySorted R l -> StronglySorted R' l.
Proof.
  intros H. induction 1 as [|a l Hs IH Ha]; constructor; [exact IH|].
  eapply Forall_impl; [|exact Ha]. intros b. apply H.
Qed.

Lemma StronglySorted_nth A (R : A -> A -> Prop) (l : list A) (d : A) :
  StronglySorted R l ->
  forall i j, (i < j)%nat -> (j < List.length l)%nat -> R (nth i l d) (nth j l d).
Proof.
  induction 1 as [|a l Hs IH Ha]; intros i j Hij Hj; [simpl in Hj; lia|].
  destruct j as [|j]; [lia|]. simpl in Hj.
  destruct i as [|i]; simpl.
  - rewrite Forall_forall in Ha. apply Ha, nth_In. lia.
  - apply IH; lia.
Qed.

Lemma StronglySorted_filter A (R : A -> A -> Prop) (p : A -> bool) (l : list A) :
  StronglySorted R l -> StronglySorted R (filter p l).
Proof.
  induction 1 as [|a l Hs IH Ha]; simpl; [constructor|].
  destruct (p a); [|exact IH]. constructor; [exact IH|].
  rewrite Forall_forall in *. intros x Hx. apply Ha. apply filter_In in Hx. tauto.
Qed.

Lemma StronglySorted_firstn A (R : A -> A -> Prop) (n : nat) (l : list A) :
  StronglySorted R l -> StronglySorted R (firstn n l).
Proof.
  intros H. revert n. induction H as [|a l Hs IH Ha]; intros [|n]; simpl; try constructor.
  - apply IH.
  - rewrite Forall_forall in *. intros x Hx. apply Ha.
    rewrite <- (firstn_skipn n l). apply in_or_app. left. exact Hx.
Qed.

Lemma filter_none A (p : A -> bool) (l : list A) :
  (forall y, In y l -> p y = false) -> filter p l = [].
Proof.
  induction l as [|a l IH]; intros H; [reflexivity|]. simpl.
  rewrite (H a (or_introl eq_refl)). apply IH. intros y Hy. apply H. right; exact Hy.
Qed.

(** ** Counter *)

Section CounterFacts.
Variable K : Type.
Variable eqb : K -> K -> bool.
Hypothesis eqb_refl : forall a, eqb a a = true.
Hypothesis eqb_sym : forall a b, eqb a b = eqb b a.
Hypothesis eqb_trans : forall a b c, eqb a b = true -> eqb b c = true -> eqb a c = true.

Lemma count_of_snoc (k x : K) (l : list K) :
  count_of eqb k (l ++ [x]) = (count_of eqb k l + (if eqb k x then 1 else 0))%Z.
Proof.
  unfold count_of. rewrite filter_app, length_app. simpl.
  destruct (eqb k x); simpl; lia.
Qed.

Lemma counter_add_in (x : K) (c : list (K * Z)) (k : K) (n : Z) :
  distinct_keys eqb c ->
  In (k, n) (counter_add eqb x c) ->
  (In (k, n) c /\ eqb k x = false)
  \/ (exists m, In (k, m) c /\ eqb k x = true /\ n = (m + 1)%Z)
  \/ (k = x /\ n = 1%Z /\ forall e, In e c -> eqb (fst e) x = false).
Proof.
  induction c as [|[k' m] c IH]; intros Hd; simpl.
  - intros [H|[]]. inversion H; subst. right; right. repeat split. intros e [].
  - inversion Hd as [|? ? Hk' Hd']; subst.
    destruct (eqb k' x) eqn:E; simpl.
    + intros [H|H].
      * inversion H; subst. right; left. exists m. repeat split; auto.
      * left. split; [right; exact H|].
        rewrite Forall_forall in Hk'. specialize (Hk' _ H). simpl in Hk'.
        destruct (eqb k x) eqn:Ex; [|reflexivity].
        rewrite (eqb_trans E) in Hk'; [discriminate|].
        rewrite eqb_sym. exact Ex.
    + intros [H|H].
      * inversion H; subst. left. split; [left; reflexivity|exact E].
      * destruct (IH Hd' H) as [[Hin Hx]|[(m' & Hin & Hx & Hn)|(Hk & Hn & Hall)]]; subst.
        -- left; split; [right; exact Hin|exact Hx].
        -- right; left. exists m'. repeat split; auto.
        -- right; right. repeat split. intros e [<-|He]; [exact E|apply Hall, He].
Qed.

Lemma counter_add_key (x : K) (c : list (K * Z)) (e : K * Z) :
  In e (counter_add eqb x c) -> (exists m, In (fst e, m) c) \/ fst e = x.
Proof.
  induction c as [|[k' m] c IH]; simpl.
  - intros [<-|[]]. right; reflexivity.
  - destruct (eqb k' x); simpl.
    + intros [<-|H]; [left; exists m; left; reflexivity|].
      left; exists (snd e); right. destruct e; exact H.
    + intros [<-|H]; [left; exists m; left; reflexivity|].
      destruct (IH H) as [[m' Hm]|Hx]; [left; exists m'; right; exact Hm|right; exact Hx].
Qed.

Lemma counter_add_distinct (x : K) (c : list (K * Z)) :
  distinct_keys eqb c -> distinct_keys eqb (counter_add eqb x c).
Proof.
  induction 1 as [|[k' m] c Hk Hd IH]; simpl.
  - constructor; constructor.
  - destruct (eqb k' x) eqn:E.
    + constructor; [exact Hk|exact Hd].
    + constructor; [|exact IH].
      rewrite Forall_forall in *. intros e He. simpl.
      destruct (counter_add_key He) as [[m' Hm]| ->]; [|exact E].
      apply (Hk _ Hm).
Qed.

Lemma counter_add_persist (x : K) (c : list (K * Z)) (k : K) (n : Z) :
  In (k, n) c -> exists n', In (k, n') (counter_add eqb x c).
Proof.
  induction c as [|[k' m] c IH]; simpl; [intros []|].
  destruct (eqb k' x); simpl.
  - intros [H|H]; [inversion H; subst; eexists; left; reflexivity|].
    eexists; right; exact H.
  - intros [H|H]; [inversion H; subst; eexists; left; reflexivity|].
    destruct (IH H) as [n' Hn']. eexists; right; exact Hn'.
Qed.

Lemma counter_add_covers (x : K) (c : list (K * Z)) :
  exists k n, In (k, n) (counter_add eqb x c) /\ eqb k x = true.
Proof.
  induction c as [|[k' m] c (k & n & Hin & Hk)]; simpl.
  - exists x, 1%Z. split; [left; reflexivity|apply eqb_refl].
  - destruct (eqb k' x) eqn:E.
    + exists k', (m + 1)%Z. split; [left; reflexivity|exact E].
    + exists k, n. split; [right; exact Hin|exact Hk].
Qed.

Lemma counter_add_counts (x : K) (c : list (K * Z)) (seen : list K) :
  counts eqb c seen -> counts eqb (counter_add eqb x c) (seen ++ [x]).
Proof.
  intros (Hn & Hcov & Hd). repeat split.
  - intros k n Hin. rewrite count_of_snoc.
    destruct (counter_add_in Hd Hin) as [[Hc Hx]|[(m & Hc & Hx & Hm)|(Hk & Hm & Hall)]];
      subst.
    + rewrite Hx, (Hn _ _ Hc). lia.
    + rewrite Hx, (Hn _ _ Hc). reflexivity.
    + rewrite eqb_refl.
      assert (Hz : filter (eqb x) seen = []).
      { apply filter_none. intros y Hy.
        destruct (Hcov y Hy) as (k & n & Hk & Hky).
        specialize (Hall _ Hk). simpl in Hall.
        destruct (eqb x y) eqn:Exy; [|reflexivity].
        rewrite (eqb_trans Hky) in Hall; [discriminate|].
        rewrite eqb_sym; exact Exy. }
      unfold count_of. rewrite Hz. reflexivity.
  - intros y Hy. apply in_app_or in Hy. destruct Hy as [Hy|[<-|[]]].
    + destruct (Hcov y Hy) as (k & n & Hk & Hky).
      destruct (counter_add_persist x Hk) as [n' Hn'].
      exists k, n'. split; assumption.
    + apply counter_add_covers.
  - apply counter_add_distinct, Hd.
Qed.

Lemma Counter_counts (l : list K) : counts eqb (Counter eqb l) l.
Proof.
  unfold Counter. induction l as [|x l IH] using rev_ind.
  - repeat split; [intros k n []|intros y []|constructor].
  - rewrite fold_left_app. simpl. apply counter_add_counts, IH.
Qed.

(** An entry of [Counter(l)] holds the number of occurrences of its key. *)
Lemma Counter_count (l : list K) (k : K) (n : Z) :
  In (k, n) (Counter eqb l) -> n = count_of eqb k l.
Proof. apply (proj1 (Counter_counts l)). Qed.

End CounterFacts.

Lemma most_common_sorted K (c : list (K * Z)) :
  StronglySorted (fun a b => (snd b <= snd a)%Z) (most_common c).
Proof.
  unfold most_common.
  eapply StronglySorted_weaken;
    [|apply stable_sort_sorted with (lt := fun b a : K * Z => (snd a <? snd b)%Z)].
  - intros a b H. simpl in H. apply Z.ltb_ge in H. exact H.
  - intros a b H. apply Z.ltb_lt in H. apply Z.ltb_ge. lia.
  - intros a b x H1 H2. apply Z.ltb_ge in H1, H2. apply Z.ltb_ge. lia.
Qed.

(** ** Rationals *)

Lemma Qeq_bool_sym (a b : Q) : Qeq_bool a b = Qeq_bool b a.
Proof.
  destruct (Qeq_bool a b) eqn:E1, (Qeq_bool b a) eqn:E2; try reflexivity.
  - apply Qeq_bool_iff in E1. symmetry in E1. apply Qeq_bool_iff in E1. congruence.
  - apply Qeq_bool_iff in E2. symmetry in E2. apply Qeq_bool_iff in E2. congruence.
Qed.

Lemma Qeq_bool_trans (a b c : Q) :
  Qeq_bool a b = true -> Qeq_bool b c = true -> Qeq_bool a c = true.
Proof.
  intros H1 H2. apply Qeq_bool_iff in H1, H2. apply Qeq_bool_iff.
  rewrite H1. exact H2.
Qed.

Lemma Qlt_bool_iff (a b : Q) : Qlt_bool a b = true <-> a < b.
Proof.
  unfold Qlt_bool. rewrite negb_true_iff. split.
  - intros H. apply Qnot_le_lt. intros Hle. apply Qle_bool_iff in Hle. congruence.
  - intros H. destruct (Qle_bool b a) eqn:E; [|reflexivity].
    apply Qle_bool_iff in E. exfalso. exact (Qlt_not_le _ _ H E).
Qed.

Lemma fold_Qplus_pos (l : list Q) :
  Forall (fun s => 0 < s) l ->
  forall acc, 0 <= acc -> l <> [] -> 0 < fold_left Qplus l acc.
Proof.
  induction 1 as [|s l Hs Hl IH]; intros acc Hacc Hne; [congruence|].
  simpl. destruct l as [|s' l].
  - simpl. apply Qlt_le_trans with (y := 0 + s).
    + rewrite Qplus_0_l. exact Hs.
    + apply Qplus_le_l. exact Hacc.
  - apply IH; [|discriminate].
    apply Qle_trans with (y := 0 + 0); [rewrite Qplus_0_l; apply Qle_refl|].
    apply Qplus_le_compat; [exact Hacc|apply Qlt_le_weak, Hs].
Qed.

Lemma avg_pos (l : list Q) :
  Forall (fun s => 0 < s) l -> l <> [] ->
  0 < qsum l / inject_Z (Z.of_nat (List.length l)).
Proof.
  intros Hl Hne. apply Qlt_shift_div_l.
  - destruct l; [congruence|]. simpl List.length. unfold Qlt. simpl. lia.
  - rewrite Qmult_0_l. apply fold_Qplus_pos; [assumption|apply Qle_refl|assumption].
Qed.

(** ** Font thresholds *)

(** C2, as worded: with five lines of size 10, four of size 12 and three
    of size 14, every size is significant and the thresholds follow the
    frequencies: H1 = 10 is below H2 = 12. *)
Lemma C2_thresholds_counterexample :
  _calculate_font_thresholds frequency_lines
  = Ok [(H1, 10); (H2, 12); (H3, 14); (H4, 14)]
  /\ ~ monotone_thresholds [(H1, 10); (H2, 12); (H3, 14); (H4, 14)].
Proof.
  split; [vm_compute; reflexivity|].
  intros [H _]. vm_compute in H. apply H. reflexivity.
Qed.

Lemma significant_entry (font_sizes : list Q) (i : nat) :
  (i < List.length (significant_fonts font_sizes))%nat ->
  (3 <= count_of Qeq_bool (nth i (significant_fonts font_sizes) 0%Q) font_sizes)%Z
  /\ forall j, (i < j)%nat -> (j < List.length (significant_fonts font_sizes))%nat ->
       (count_of Qeq_bool (nth j (significant_fonts font_sizes) 0%Q) font_sizes
        <= count_of Qeq_bool (nth i (significant_fonts font_sizes) 0%Q) font_sizes)%Z.
Proof.
  unfold significant_fonts.
  set (sig := filter (fun sc : Q * Z => (3 <=? snd sc)%Z)
                (most_common (Counter Qeq_bool font_sizes))).
  rewrite length_map.
  assert (Hent : forall k, (k < List.length sig)%nat ->
            snd (nth k sig (0%Q, 0%Z)) = count_of Qeq_bool (fst (nth k sig (0%Q, 0%Z))) font_sizes
            /\ (3 <= snd (nth k sig (0%Q, 0%Z)))%Z).
  { intros k Hk. pose proof (nth_In sig (0%Q, 0%Z) Hk) as Hin.
    unfold sig in Hin at 2. apply filter_In in Hin. destruct Hin as [Hin H3].
    split; [|apply Z.leb_le; exact H3].
    apply (Permutation_in _ (stable_sort_perm _ _)) in Hin.
    destruct (nth k sig (0%Q, 0%Z)) as [s c] eqn:E. simpl.
    eapply Counter_count; [| | |exact Hin].
    - intros a. apply Qeq_bool_refl.
    - intros a b. apply Qeq_bool_sym.
    - intros a b c0. apply Qeq_bool_trans. }
  assert (Hsorted : StronglySorted (fun a b : Q * Z => (snd b <= snd a)%Z) sig).
  { apply StronglySorted_filter, most_common_sorted. }
  intros Hi.
  change 0%Q with (fst (0%Q, 0%Z)). rewrite !map_nth.
  destruct (Hent i Hi) as [Hci H3i]. split; [rewrite <- Hci; exact H3i|].
  intros j Hij Hj. rewrite map_nth.
  destruct (Hent j Hj) as [Hcj _]. rewrite <- Hci, <- Hcj.
  apply (StronglySorted_nth (0%Q, 0%Z) Hsorted Hij Hj).
Qed.

Lemma count_of_Qeq (k s : Q) (l : list Q) :
  Qeq_bool k s = true -> count_of Qeq_bool k l = count_of Qeq_bool s l.
Proof.
  intros H. unfold count_of. f_equal. f_equal.
  apply filter_ext. intros x.
  destruct (Qeq_bool s x) eqn:E.
  - apply (Qeq_bool_trans H E).
  - destruct (Qeq_bool k x) eqn:E'; [|reflexivity].
    rewrite Qeq_bool_sym in H. rewrite (Qeq_bool_trans H E') in E. discriminate.
Qed.

Lemma ForallOrdPairs_sorted A (R : A -> A -> Prop) (l : list A) :
  ForallOrdPairs R l -> StronglySorted R l.
Proof. induction 1; constructor; assumption. Qed.

Lemma StronglySorted_perm A (R : A -> A -> Prop) (l l' : list A) :
  (forall a b, R a b -> R b a) ->
  Permutation l l' -> StronglySorted R l -> StronglySorted R l'.
Proof.
  intros Hsym Hp. induction Hp as [|x l l' Hp IH|x y l|l l' l'' _ IH1 _ IH2]; intros Hs.
  - constructor.
  - inversion Hs as [|? ? Hl Hx]; subst. constructor; [apply IH, Hl|].
    apply (Permutation_Forall Hp Hx).
  - inversion Hs as [|? ? Hxl Hy]; subst.
    inversion Hxl as [|? ? Hl Hx]; subst.
    inversion Hy as [|? ? Hyx Hyl]; subst.
    constructor; [constructor; assumption|].
    constructor; [apply Hsym, Hyx|exact Hx].
  - apply IH2, IH1, Hs.
Qed.

(** The entries of the frequency table from which [significant_fonts]
    takes the sizes. *)
Lemma significant_entries (font_sizes : list Q) :
  exists entries,
    significant_fonts font_sizes = List.map fst entries
    /\ StronglySorted (fun a b : Q * Z => Qeq_bool (fst a) (fst b) = false) entries
    /\ forall s, (3 <= count_of Qeq_bool s font_sizes)%Z ->
                 exists e, In e entries /\ Qeq_bool (fst e) s = true.
Proof.
  exists (filter (fun sc : Q * Z => (3 <=? snd sc)%Z)
            (most_common (Counter Qeq_bool font_sizes))).
  split; [reflexivity|].
  destruct (Counter_counts Qeq_bool_refl Qeq_bool_sym Qeq_bool_trans font_sizes)
    as (Hcount & Hcover & Hdist).
  split.
  - apply StronglySorted_filter.
    apply (@StronglySorted_perm _ _ (Counter Qeq_bool font_sizes)).
    + intros a b H. rewrite Qeq_bool_sym. exact H.
    + apply Permutation_sym, stable_sort_perm.
    + apply ForallOrdPairs_sorted, Hdist.
  - intros s Hs.
    assert (Hex : exists y, In y font_sizes /\ Qeq_bool s y = true).
    { unfold count_of in Hs.
      destruct (filter (Qeq_bool s) font_sizes) as [|y ys] eqn:Ef; [simpl in Hs; lia|].
      exists y. apply filter_In. rewrite Ef. left; reflexivity. }
    destruct Hex as (y & Hy & Hsy).
    destruct (Hcover y Hy) as (k & n & Hkn & Hky).
    assert (Hks : Qeq_bool k s = true).
    { apply (Qeq_bool_trans Hky). rewrite Qeq_bool_sym. exact Hsy. }
    exists (k, n). split; [|exact Hks].
    apply filter_In. split.
    + apply (Permutation_in _ (Permutation_sym (stable_sort_perm _ _))). exact Hkn.
    + apply Z.leb_le. rewrite (Hcount k n Hkn), (count_of_Qeq font_sizes Hks). exact Hs.
Qed.

(** The sizes of [significant_fonts] are all different, and every size
    that occurs three times or more is among them. *)
Lemma significant_ranks (font_sizes : list Q) :
  (forall i j, (i < j)%nat -> (j < List.length (significant_fonts font_sizes))%nat ->
     Qeq_bool (nth i (significant_fonts font_sizes) 0) (nth j (significant_fonts font_sizes) 0)
     = false)
  /\ (forall s, (3 <= count_of Qeq_bool s font_sizes)%Z ->
        exists i, (i < List.length (significant_fonts font_sizes))%nat
                  /\ Qeq_bool (nth i (significant_fonts font_sizes) 0) s = true).
Proof.
  destruct (significant_entries font_sizes) as (entries & -> & Hd & Hc).
  rewrite length_map. split.
  - intros i j Hij Hj.
    change 0 with (fst (0, 0%Z)). rewrite !map_nth.
    apply (StronglySorted_nth (0, 0%Z) Hd Hij Hj).
  - intros s Hs. destruct (Hc s Hs) as (e & He & Hes).
    destruct (In_nth entries e (0, 0%Z) He) as (i & Hi & Hn).
    exists i. split; [exact Hi|].
    change 0 with (fst (0, 0%Z)). rewrite map_nth, Hn. exact Hes.
Qed.

Lemma three_frequent_iff (font_sizes : list Q) :
  three_frequent font_sizes <-> (3 <= List.length (significant_fonts font_sizes))%nat.
Proof.
  destruct (significant_ranks font_sizes) as [Hd Hc]. split.
  - intros (a & b & c & Hab & Hac & Hbc & Ha & Hb & Hc').
    destruct (Hc a Ha) as (i & Hi & Hia).
    destruct (Hc b Hb) as (j & Hj & Hjb).
    destruct (Hc c Hc') as (k & Hk & Hkc).
    assert (Hne : forall x y u v,
               Qeq_bool x y = false ->
               Qeq_bool (nth u (significant_fonts font_sizes) 0) x = true ->
               Qeq_bool (nth v (significant_fonts font_sizes) 0) y = true -> u <> v).
    { intros x y u v Hxy Hux Hvy ->.
      rewrite Qeq_bool_sym in Hux. rewrite (Qeq_bool_trans Hux Hvy) in Hxy. discriminate. }
    pose proof (Hne _ _ _ _ Hab Hia Hjb). pose proof (Hne _ _ _ _ Hac Hia Hkc).
    pose proof (Hne _ _ _ _ Hbc Hjb Hkc). lia.
  - intros Hn.
    exists (nth 0 (significant_fonts font_sizes) 0), (nth 1 (significant_fonts font_sizes) 0),
      (nth 2 (significant_fonts font_sizes) 0).
    destruct (@significant_entry font_sizes 0) as [H0 _]; [lia|].
    destruct (@significant_entry font_sizes 1) as [H1' _]; [lia|].
    destruct (@significant_entry font_sizes 2) as [H2' _]; [lia|].
    repeat split; try assumption; apply Hd; lia.
Qed.

(** C2, amended: when some line has a positive size the four thresholds
    are returned.  Without three different sizes that occur three times or
    more each, they are the mean of the sizes and its multiples by 1.05,
    1.15 and 1.3, so that H1 >= H2 >= H3 >= H4 > 0.  With three such
    sizes, H1, H2 and H3 are the three most frequent sizes, all different,
    in the order of their numbers of occurrences, and H4 is the fourth
    such size, or H3 again when no fourth size occurs three times; their
    sizes are in no order. *)
Theorem C2_threshold_order (lines : list Line.t) (sizes : list Q) :
  mapM (fun line => getitem "size" (Line.size line)) lines = Ok sizes ->
  filter (fun s => Qlt_bool 0 s) sizes <> [] ->
  let font_sizes := filter (fun s => Qlt_bool 0 s) sizes in
  exists h1 h2 h3 h4,
    _calculate_font_thresholds lines = Ok [(H1, h1); (H2, h2); (H3, h3); (H4, h4)]
    /\ ((three_frequent font_sizes /\ ranked_by_frequency font_sizes h1 h2 h3 h4)
        \/ (~ three_frequent font_sizes /\ scaled_from_mean font_sizes h1 h2 h3 h4)).
Proof.
  intros Hsizes Hne font_sizes.
  unfold _calculate_font_thresholds. rewrite Hsizes. simpl bind.
  fold font_sizes. unfold thresholds_of_sizes.
  assert (Hn : nonempty font_sizes = true).
  { unfold font_sizes. destruct (filter (fun s => Qlt_bool 0 s) sizes);
      [congruence|reflexivity]. }
  rewrite Hn. simpl negb. cbv iota.
  destruct (significant_ranks font_sizes) as [Hd Hc].
  set (sig := significant_fonts font_sizes) in *.
  assert (Hocc : forall i s, Qeq_bool (nth i sig 0) s = true ->
            count_of Qeq_bool s font_sizes = count_of Qeq_bool (nth i sig 0) font_sizes).
  { intros i s H. symmetry. apply count_of_Qeq, H. }
  destruct (3 <=? List.length sig)%nat eqn:Hsig.
  - apply Nat.leb_le in Hsig.
    do 4 eexists. split; [reflexivity|]. left.
    split; [apply three_frequent_iff; exact Hsig|].
    destruct (@significant_entry font_sizes 0) as [_ H0]; [fold sig; lia|].
    destruct (@significant_entry font_sizes 1) as [_ H1']; [fold sig; lia|].
    destruct (@significant_entry font_sizes 2) as [H23 H2']; [fold sig; lia|].
    fold sig in H0, H1', H23, H2'.
    pose proof (H0 1%nat ltac:(lia) ltac:(lia)) as H01.
    pose proof (H1' 2%nat ltac:(lia) ltac:(lia)) as H12.
    unfold ranked_by_frequency. cbv zeta beta.
    split; [exact H23|]. split; [exact H12|]. split; [exact H01|].
    split; [apply Hd; lia|]. split; [apply Hd; lia|]. split; [apply Hd; lia|].
    assert (Hrank : forall s, (3 <= count_of Qeq_bool s font_sizes)%Z ->
              exists i, (i < List.length sig)%nat /\ Qeq_bool (nth i sig 0) s = true)
      by exact Hc.
    split.
    + intros s. destruct (Z_lt_le_dec (count_of Qeq_bool s font_sizes) 3) as [Hlt|Hge].
      { right; right; right. lia. }
      destruct (Hrank s Hge) as (i & Hi & His).
      destruct i as [|[|[|i]]]; [tauto|tauto|tauto|].
      right; right; right. rewrite (Hocc _ _ His).
      apply (H2' (S (S (S i)))); lia.
    + destruct (3 <? List.length sig)%nat eqn:H4'.
      * apply Nat.ltb_lt in H4'. right.
        destruct (@significant_entry font_sizes 3) as [H33 H3']; [fold sig; lia|].
        fold sig in H33, H3'.
        split; [exact H33|]. split; [apply (H2' 3%nat); lia|].
        split; [apply Hd; lia|]. split; [apply Hd; lia|]. split; [apply Hd; lia|].
        intros s. destruct (Z_lt_le_dec (count_of Qeq_bool s font_sizes) 3) as [Hlt|Hge].
        { right; right; right; right. lia. }
        destruct (Hrank s Hge) as (i & Hi & His).
        destruct i as [|[|[|[|i]]]]; [tauto|tauto|tauto|tauto|].
        right; right; right; right. rewrite (Hocc _ _ His).
        apply (H3' (S (S (S (S i))))); lia.
      * apply Nat.ltb_ge in H4'. left. split; [reflexivity|].
        intros s Hge. destruct (Hrank s Hge) as (i & Hi & His).
        destruct i as [|[|[|i]]]; [tauto|tauto|tauto|lia].
  - apply Nat.leb_gt in Hsig.
    do 4 eexists. split; [reflexivity|]. right.
    split; [intros H; apply three_frequent_iff in H; fold sig in H; lia|].
    assert (Hpos : 0 < qsum font_sizes / inject_Z (Z.of_nat (List.length font_sizes))).
    { apply avg_pos; [|exact Hne].
      unfold font_sizes. apply Forall_forall. intros s Hs. apply filter_In in Hs.
      apply Qlt_bool_iff. tauto. }
    unfold scaled_from_mean.
    set (avg := qsum font_sizes / inject_Z (Z.of_nat (List.length font_sizes))) in *.
    repeat split; try apply Qeq_refl; try exact Hpos; lra.
Qed.

Lemma C2_threshold_order_witness :
  (mapM (fun line => getitem "size" (Line.size line)) sparse_lines = Ok [10; 10; 10; 16]
   /\ exists h1 h2 h3 h4,
        _calculate_font_thresholds sparse_lines = Ok [(H1, h1); (H2, h2); (H3, h3); (H4, h4)]
        /\ ((three_frequent [10; 10; 10; 16]
             /\ ranked_by_frequency [10; 10; 10; 16] h1 h2 h3 h4)
            \/ (~ three_frequent [10; 10; 10; 16]
                /\ scaled_from_mean [10; 10; 10; 16] h1 h2 h3 h4)))
  /\ (_calculate_font_thresholds four_size_lines
      = Ok [(H1, 10); (H2, 12); (H3, 16); (H4, 14)]
      /\ exists h1 h2 h3 h4,
           _calculate_font_thresholds four_size_lines
           = Ok [(H1, h1); (H2, h2); (H3, h3); (H4, h4)]
           /\ ((three_frequent [10; 16; 10; 12; 14; 10; 12; 16; 14; 10; 12; 14; 16; 10; 12]
                /\ ranked_by_frequency
                     [10; 16; 10; 12; 14; 10; 12; 16; 14; 10; 12; 14; 16; 10; 12] h1 h2 h3 h4)
               \/ (~ three_frequent
                       [10; 16; 10; 12; 14; 10; 12; 16; 14; 10; 12; 14; 16; 10; 12]
                   /\ scaled_from_mean
                        [10; 16; 10; 12; 14; 10; 12; 16; 14; 10; 12; 14; 16; 10; 12]
                        h1 h2 h3 h4))).
Proof.
  split.
  - split; [reflexivity|].
    apply (@C2_threshold_order sparse_lines [10; 10; 10; 16]).
    + reflexivity.
    + discriminate.
  - split; [vm_compute; reflexivity|].
    apply (@C2_threshold_order four_size_lines
             [10; 16; 10; 12; 14; 10; 12; 16; 14; 10; 12; 14; 16; 10; 12]).
    + reflexivity.
    + discriminate.
Defined.


(** ** Line Merger *)

Lemma span_key_lt_iff (a b : Span.t) :
  span_key_lt a b = true <->
  Span.y a < Span.y b \/ (Span.y a == Span.y b /\ Span.x a < Span.x b).
Proof.
  unfold span_key_lt.
  destruct (Qeq_bool (Span.y a) (Span.y b)) eqn:Ey.
  - apply Qeq_bool_iff in Ey.
    destruct (Qeq_bool (Span.x a) (Span.x b)) eqn:Ex.
    + apply Qeq_bool_iff in Ex. split; [discriminate|]. intros [H|[_ H]]; lra.
    + rewrite Qlt_bool_iff. split; [intros H; right; split; assumption|].
      intros [H|[_ H]]; [lra|exact H].
  - apply Qeq_bool_neq in Ey. rewrite Qlt_bool_iff. split; [intros H; left; exact H|].
    intros [H|[H _]]; [exact H|contradiction].
Qed.

Lemma span_key_lt_false (a b : Span.t) :
  span_key_lt b a = false ->
  Span.y a < Span.y b \/ (Span.y a == Span.y b /\ Span.x a <= Span.x b).
Proof.
  intros H.
  destruct (Qlt_le_dec (Span.y a) (Span.y b)) as [Hy|Hy]; [left; exact Hy|].
  right.
  assert (Hn : ~ (Span.y b < Span.y a \/ (Span.y b == Span.y a /\ Span.x b < Span.x a))).
  { intros Hc. apply span_key_lt_iff in Hc. congruence. }
  split.
  - destruct (Qlt_le_dec (Span.y b) (Span.y a)) as [Hy'|Hy']; [exfalso; apply Hn; left; exact Hy'|].
    lra.
  - destruct (Qlt_le_dec (Span.x b) (Span.x a)) as [Hx|Hx]; [|exact Hx].
    exfalso. apply Hn. right. split; [|exact Hx].
    destruct (Qlt_le_dec (Span.y b) (Span.y a)) as [Hy'|Hy']; [exfalso; apply Hn; left; exact Hy'|].
    lra.
Qed.

Lemma span_key_le_intro (a b : Span.t) :
  Span.y a < Span.y b \/ (Span.y a == Span.y b /\ Span.x a <= Span.x b) ->
  span_key_lt b a = false.
Proof.
  intros H. destruct (span_key_lt b a) eqn:E; [|reflexivity].
  apply span_key_lt_iff in E. destruct H as [H|[H1 H2]], E as [E|[E1 E2]]; lra.
Qed.

(** The sorted spans of a page are in the order of their heights. *)
Lemma sort_spans_sorted (page_spans : list Span.t) :
  StronglySorted (fun a b => Span.y a <= Span.y b) (sort_spans page_spans).
Proof.
  unfold sort_spans.
  eapply StronglySorted_weaken; [|apply stable_sort_sorted with (lt := span_key_lt)].
  - intros a b H. simpl in H. apply span_key_lt_false in H. destruct H as [H|[H _]]; lra.
  - intros a b H. apply span_key_le_intro. apply span_key_lt_iff in H.
    destruct H as [H|[H1 H2]]; [left; exact H|right; split; lra].
  - intros a b c H1 H2. apply span_key_le_intro.
    apply span_key_lt_false in H1, H2.
    destruct H1 as [H1|[H1 H1']], H2 as [H2|[H2 H2']];
      [left; lra|left; lra|left; lra|right; split; lra].
Qed.

Lemma numbers_from_shift th (l : list Span.t) :
  forall p n, numbers_from th p (S n) l = List.map S (numbers_from th p n l).
Proof.
  induction l as [|s l IH]; intros p n; simpl; [reflexivity|].
  destruct (extends_line th s p); simpl; rewrite IH; reflexivity.
Qed.

Lemma locate_first A (g : list A) (gs : list (list A)) (i : nat) :
  (i < List.length g)%nat -> locate (g :: gs) i = Some O.
Proof. intros H. simpl. apply Nat.ltb_lt in H. rewrite H. reflexivity. Qed.

Lemma locate_chunk th (l : list Span.t) :
  forall (p : Span.t) (cur : list Span.t) (i : nat),
    (let '(g, gs) := chunk th p l in locate ((cur ++ g) :: gs) (List.length cur + i))
    = nth_error (numbers_from th p O l) i.
Proof.
  induction l as [|s l IH]; intros p cur i.
  - simpl. rewrite app_nil_r.
    replace (List.length cur + i <? List.length cur)%nat with false
      by (symmetry; apply Nat.ltb_ge; lia).
    simpl. destruct i; reflexivity.
  - simpl chunk. simpl numbers_from.
    destruct (chunk th s l) as [g gs] eqn:Hc.
    destruct (extends_line th s p).
    + destruct i as [|i].
      * simpl nth_error. apply locate_first. rewrite length_app. simpl. lia.
      * simpl nth_error. specialize (IH s (cur ++ [s]) i). rewrite Hc in IH.
        rewrite <- IH. rewrite <- app_assoc. simpl app.
        rewrite length_app. simpl List.length.
        replace (List.length cur + 1 + i)%nat with (List.length cur + S i)%nat by lia.
        reflexivity.
    + rewrite app_nil_r. simpl locate.
      replace (List.length cur + i <? List.length cur)%nat with false
        by (symmetry; apply Nat.ltb_ge; lia).
      replace (List.length cur + i - List.length cur)%nat with i by lia.
      destruct i as [|i].
      * reflexivity.
      * simpl nth_error. rewrite numbers_from_shift, nth_error_map.
        specialize (IH s [s] i). rewrite Hc in IH. simpl app in IH.
        simpl List.length in IH. rewrite <- IH. reflexivity.
Qed.

(** The group of a position is its line number. *)
Lemma locate_chunks th (l : list Span.t) (i : nat) :
  locate (chunks th l) i = nth_error (numbers th l) i.
Proof.
  destruct l as [|f r]; [destruct i; reflexivity|]. unfold chunks, numbers.
  destruct i as [|i].
  - destruct (chunk th f r). reflexivity.
  - pose proof (locate_chunk th r f [f] i) as H.
    destruct (chunk th f r) as [g gs]. simpl nth_error. rewrite <- H. reflexivity.
Qed.

Lemma numbers_from_step th (l : list Span.t) :
  forall (p : Span.t) (n k : nat) (a b : Span.t),
    nth_error (p :: l) k = Some a -> nth_error (p :: l) (S k) = Some b ->
    exists m, nth_error (n :: numbers_from th p n l) k = Some m
              /\ nth_error (n :: numbers_from th p n l) (S k)
                 = Some (if extends_line th b a then m else S m).
Proof.
  induction l as [|s l IH]; intros p n k a b Ha Hb.
  - destruct k; simpl in Hb; [discriminate|destruct k; discriminate].
  - destruct k as [|k].
    + simpl in Ha, Hb. inversion Ha; inversion Hb; subst.
      exists n. split; reflexivity.
    + simpl in Ha. change (nth_error (s :: l) (S k) = Some b) in Hb.
      simpl numbers_from.
      exact (IH s _ k a b Ha Hb).
Qed.

Lemma numbers_step th (l : list Span.t) (k : nat) (a b : Span.t) :
  nth_error l k = Some a -> nth_error l (S k) = Some b ->
  exists m, nth_error (numbers th l) k = Some m
            /\ nth_error (numbers th l) (S k)
               = Some (if extends_line th b a then m else S m).
Proof.
  destruct l as [|f r]; [destruct k; discriminate|].
  apply numbers_from_step.
Qed.

Lemma numbers_length th (l : list Span.t) : List.length (numbers th l) = List.length l.
Proof.
  destruct l as [|f r]; [reflexivity|]. simpl. f_equal.
  generalize O. revert f. induction r as [|s r IH]; intros f n; simpl; [reflexivity|].
  rewrite IH. reflexivity.
Qed.

Lemma same_line_numbers th page_spans i j :
  same_line th page_spans i j
  = match nth_error (numbers th (sort_spans page_spans)) i,
          nth_error (numbers th (sort_spans page_spans)) j with
    | Some a, Some b => (a =? b)%nat
    | _, _ => false
    end.
Proof.
  unfold same_line. rewrite line_groups_chunks, !locate_chunks. reflexivity.
Qed.

Lemma same_line_sym th page_spans i j :
  same_line th page_spans i j = same_line th page_spans j i.
Proof.
  rewrite !same_line_numbers.
  destruct (nth_error _ i), (nth_error _ j); try reflexivity. apply Nat.eqb_sym.
Qed.

(** Two neighbours of the sorted spans are in one line exactly when the
    second extends the line of the first. *)
Lemma same_line_adjacent th page_spans i a b :
  nth_error (sort_spans page_spans) i = Some a ->
  nth_error (sort_spans page_spans) (S i) = Some b ->
  same_line th page_spans i (S i) = extends_line th b a.
Proof.
  intros Ha Hb. rewrite same_line_numbers.
  destruct (numbers_step th Ha Hb) as (m & -> & ->).
  destruct (extends_line th b a); [apply Nat.eqb_refl|].
  apply Nat.eqb_neq. lia.
Qed.

(** A run of spans each of which extends the line of the one before is in
    one line. *)
Lemma same_line_run th page_spans i d :
  (forall k a b, (i <= k)%nat -> (k < i + d)%nat ->
     nth_error (sort_spans page_spans) k = Some a ->
     nth_error (sort_spans page_spans) (S k) = Some b ->
     extends_line th b a = true) ->
  (i + d < List.length (sort_spans page_spans))%nat ->
  same_line th page_spans i (i + d) = true.
Proof.
  intros Hext Hlen. rewrite same_line_numbers.
  set (l := sort_spans page_spans) in *.
  assert (H : exists m, nth_error (numbers th l) i = Some m
                        /\ nth_error (numbers th l) (i + d) = Some m).
  { induction d as [|d IH].
    - rewrite Nat.add_0_r. destruct (nth_error (numbers th l) i) as [m|] eqn:E.
      + exists m; split; reflexivity.
      + apply nth_error_None in E. rewrite numbers_length in E. lia.
    - destruct IH as (m & Hi & Hd); [intros; eapply Hext; eauto; lia|lia|].
      destruct (nth_error l (i + d)) as [a|] eqn:Ea;
        [|apply nth_error_None in Ea; lia].
      destruct (nth_error l (S (i + d))) as [b|] eqn:Eb;
        [|apply nth_error_None in Eb; lia].
      destruct (numbers_step th Ea Eb) as (m' & Hm' & Hs).
      rewrite Hd in Hm'. inversion Hm'; subst m'.
      rewrite (Hext (i + d)%nat a b) in Hs by (lia || assumption).
      exists m. split; [exact Hi|]. rewrite Nat.add_succ_r. exact Hs. }
  destruct H as (m & -> & ->). apply Nat.eqb_refl.
Qed.

Lemma extends_line_close th (a b : Span.t) :
  Qabs (Span.y b - Span.y a) <= th -> extends_line th b a = true.
Proof.
  intros H. unfold extends_line. apply Qle_bool_iff in H. rewrite H. reflexivity.
Qed.

Lemma same_line_close_ordered page_spans i j a b :
  (i <= j)%nat ->
  nth_error (sort_spans page_spans) i = Some a ->
  nth_error (sort_spans page_spans) j = Some b ->
  Qabs (Span.y a - Span.y b) <= 5 ->
  same_line 5 page_spans i j = true.
Proof.
  intros Hij Ha Hb Hy.
  pose proof (sort_spans_sorted page_spans) as Hs.
  assert (Hjl : (j < List.length (sort_spans page_spans))%nat)
    by (apply nth_error_Some; congruence).
  replace j with (i + (j - i))%nat by lia.
  apply same_line_run; [|lia].
  intros k u v Hik Hkj Hu Hv.
  apply extends_line_close.
  assert (Hord : forall p q x y, (p <= q)%nat ->
            nth_error (sort_spans page_spans) p = Some x ->
            nth_error (sort_spans page_spans) q = Some y -> Span.y x <= Span.y y).
  { intros p q x y Hpq Hx Hy'.
    destruct (Nat.eq_dec p q) as [->|Hne].
    - rewrite Hx in Hy'. inversion Hy'; subst. apply Qle_refl.
    - assert (Hq : (q < List.length (sort_spans page_spans))%nat)
        by (apply nth_error_Some; congruence).
      pose proof (@StronglySorted_nth _ _ _ x Hs p q ltac:(lia) Hq) as Hn.
      rewrite (nth_error_nth _ _ x Hx), (nth_error_nth _ _ x Hy') in Hn. exact Hn. }
  pose proof (Hord i k a u Hik Ha Hu) as H1.
  pose proof (Hord k (S k) u v ltac:(lia) Hu Hv) as H2.
  pose proof (Hord (S k) j v b ltac:(lia) Hv Hb) as H3.
  apply Qabs_Qle_condition in Hy. apply Qabs_Qle_condition. lra.
Qed.

(** C1, as worded: the three spans of [chain_spans] are in one line, though
    the first and the last are twenty units apart. *)
Lemma C1_pairwise_counterexample :
  nth_error (sort_spans chain_spans) 0 = Some (span_at 100 12)
  /\ nth_error (sort_spans chain_spans) 2 = Some (span_at 120 12)
  /\ ~ pairwise_rule chain_spans 0 2 (span_at 100 12) (span_at 120 12).
Proof.
  split; [reflexivity|]. split; [reflexivity|].
  intros (_ & _ & H).
  assert (Hs : same_line 5 chain_spans 0 2 = true) by (vm_compute; reflexivity).
  rewrite H in Hs; [discriminate|]. vm_compute. reflexivity.
Qed.

(** C1, amended: two fragments of a page at most 5 units apart are in one
    line, whatever their sizes; and for two fragments that are neighbours
    in the sorted order of the page the rule holds in full: at most 5
    apart they are in one line, more than 5 and at most 15 apart they are
    in one line exactly when their rounded sizes are equal, more than 15
    apart they are not. *)
Theorem C1_line_merger_rule (page_spans : list Span.t) (i j : nat) (a b : Span.t) :
  nth_error (sort_spans page_spans) i = Some a ->
  nth_error (sort_spans page_spans) j = Some b ->
  (Qabs (Span.y a - Span.y b) <= 5 -> same_line 5 page_spans i j = true)
  /\ (j = S i -> pairwise_rule page_spans i j a b).
Proof.
  intros Ha Hb. split.
  - intros Hy. destruct (Nat.le_ge_cases i j) as [Hij|Hji].
    + eapply same_line_close_ordered; eassumption.
    + rewrite same_line_sym. eapply same_line_close_ordered; try eassumption.
      apply Qabs_Qle_condition in Hy. apply Qabs_Qle_condition. lra.
  - intros ->. unfold pairwise_rule.
    rewrite (same_line_adjacent 5 Ha Hb). unfold extends_line.
    assert (Hsym : Qabs (Span.y b - Span.y a) == Qabs (Span.y a - Span.y b)).
    { rewrite <- Qabs_opp. apply Qabs_wd. ring. }
    set (d := Qabs (Span.y b - Span.y a)) in *.
    set (d' := Qabs (Span.y a - Span.y b)) in *.
    split; [|split].
    + intros H. assert (Hd : Qle_bool d 5 = true) by (apply Qle_bool_iff; lra).
      rewrite Hd. reflexivity.
    + intros H5 H15. split.
      * intros H. apply orb_true_iff in H. destruct H as [H|H].
        -- apply Qle_bool_iff in H. lra.
        -- apply andb_true_iff in H. destruct H as [_ H].
           apply Qeq_bool_iff in H. symmetry. exact H.
      * intros H. assert (Hd : Qle_bool d 15 = true) by (apply Qle_bool_iff; lra).
        rewrite Hd. symmetry in H. apply Qeq_bool_iff in H. rewrite H.
        apply orb_true_r.
    + intros H.
      assert (Hd : Qle_bool d 5 = false).
      { destruct (Qle_bool d 5) eqn:E; [|reflexivity]. apply Qle_bool_iff in E. lra. }
      assert (Hd' : Qle_bool d 15 = false).
      { destruct (Qle_bool d 15) eqn:E; [|reflexivity]. apply Qle_bool_iff in E. lra. }
      rewrite Hd, Hd'. reflexivity.
Qed.

Lemma C1_line_merger_rule_witness :
  nth_error (sort_spans apart_spans) 0 = Some (span_at 100 12)
  /\ nth_error (sort_spans apart_spans) 1 = Some (span_at 112 14)
  /\ pairwise_rule apart_spans 0 1 (span_at 100 12) (span_at 112 14).
Proof.
  split; [reflexivity|]. split; [reflexivity|].
  apply (@C1_line_merger_rule apart_spans 0 1 (span_at 100 12) (span_at 112 14));
    reflexivity.
Defined.

(** ** Heading lists *)

Lemma foldM_prefix_invariant A B (P : list B -> A -> Prop) (f : A -> B -> result A)
  (l : list B) (a0 a' : A) :
  P [] a0 ->
  (forall pre a b a1, P pre a -> f a b = Ok a1 -> P (pre ++ [b]) a1) ->
  foldM f l a0 = Ok a' -> P l a'.
Proof.
  intros H0 Hstep.
  assert (H : forall pre a, P pre a -> foldM f l a = Ok a' -> P (pre ++ l) a').
  { induction l as [|b l IH]; simpl; intros pre a Hp Hf.
    - inversion Hf; subst. rewrite app_nil_r. exact Hp.
    - destruct (f a b) as [a1|] eqn:Hfb; simpl in Hf; [|discriminate].
      replace (pre ++ b :: l) with ((pre ++ [b]) ++ l) by (rewrite <- app_assoc; reflexivity).
      eapply IH; [|exact Hf]. eapply Hstep; eassumption. }
  apply (H [] a0 H0).
Qed.

Section Embeds.
Context {A B : Type}.
Variable R : A -> B -> Prop.

Lemma embeds_skip_last (la : list A) (lb : list B) (b : B) :
  embeds R la lb -> embeds R la (lb ++ [b]).
Proof.
  induction 1; simpl; [apply embeds_nil|apply embeds_take; assumption|
                       apply embeds_skip; assumption].
Qed.

Lemma embeds_take_last (la : list A) (lb : list B) (a : A) (b : B) :
  embeds R la lb -> R a b -> embeds R (la ++ [a]) (lb ++ [b]).
Proof.
  intros H Hab. induction H as [lb| |]; simpl.
  - induction lb as [|b' lb IH]; simpl.
    + apply embeds_take; [exact Hab|apply embeds_nil].
    + apply embeds_skip, IH.
  - apply embeds_take; assumption.
  - apply embeds_skip; assumption.
Qed.

Lemma embeds_In (la : list A) (lb : list B) (a : A) :
  embeds R la lb -> In a la -> exists b, In b lb /\ R a b.
Proof.
  induction 1 as [lb|a' b la lb Hab H IH|b la lb H IH]; intros Hin.
  - destruct Hin.
  - destruct Hin as [<-|Hin]; [exists b; split; [left; reflexivity|exact Hab]|].
    destruct (IH Hin) as (b' & Hb' & Hr). exists b'. split; [right; exact Hb'|exact Hr].
  - destruct (IH Hin) as (b' & Hb' & Hr). exists b'. split; [right; exact Hb'|exact Hr].
Qed.

End Embeds.

(** Headings made in order from lines whose pages do not decrease are
    in the order of their pages. *)
Lemma embeds_page_sorted (ins : list Heading.t) (lines : list Line.t) :
  embeds from_line ins lines ->
  StronglySorted page_le lines ->
  StronglySorted (fun a b => (Heading.page a <= Heading.page b)%Z) ins.
Proof.
  induction 1 as [lb|a b la lb Hab H IH|b la lb H IH]; intros Hs.
  - constructor.
  - inversion Hs as [|? ? Hs' Hb]; subst. constructor; [apply IH, Hs'|].
    apply Forall_forall. intros x Hx.
    destruct (embeds_In H Hx) as (y & Hy & t' & q & _ & Hq & _ & Hxq).
    destruct Hab as (t & p & _ & Hp & _ & Hap).
    rewrite Forall_forall in Hb. specialize (Hb y Hy p q Hp Hq). lia.
  - inversion Hs; subst. apply IH. assumption.
Qed.

Lemma in_seen_false (text : str) (seen : list str) :
  in_seen text seen = false -> ~ In text seen.
Proof.
  unfold in_seen. intros H Hin.
  assert (Ht : existsb (str_eqb text) seen = true).
  { apply existsb_exists. exists text. split; [exact Hin|].
    unfold str_eqb. destruct (list_eq_dec N.eq_dec text text); congruence. }
  congruence.
Qed.

Lemma add_heading_invariant (read : list Line.t) (st st' : LoopState)
  (ins : list Heading.t) (level : Level) (t : str) (line : Line.t) :
  loop_invariant read st ins ->
  Line.text line = Some t ->
  in_seen (strip t) (snd st) = false ->
  add_heading st level (strip t) line = Ok st' ->
  exists ins', loop_invariant (read ++ [line]) st' ins'.
Proof.
  intros (Hmap & Hemb & Hseen & Hnd) Ht Hnew Hadd.
  unfold add_heading in Hadd. destruct st as [headings seen].
  destruct (Line.page line) as [p|] eqn:Hp; simpl in Hadd; [|discriminate].
  inversion Hadd; subst st'; clear Hadd. simpl in *.
  exists (ins ++ [Heading.mk level (strip t) (p - 1)%Z]). repeat split; simpl.
  - rewrite map_app, Hmap. reflexivity.
  - apply embeds_take_last; [exact Hemb|]. exists t, p. repeat split; assumption.
  - intros r Hr. apply in_app_or in Hr. destruct Hr as [Hr|[<-|[]]].
    + right. apply Hseen, Hr.
    + left. reflexivity.
  - rewrite map_app. simpl. apply NoDup_app.
    + exact Hnd.
    + constructor; [intros []|constructor].
    + intros x Hin [<-|[]]. apply in_map_iff in Hin. destruct Hin as (r & Hr & Hin).
      apply in_seen_false in Hnew. apply Hnew. rewrite <- Hr. apply Hseen, Hin.
Qed.

Lemma skip_invariant (read : list Line.t) (st : LoopState) (ins : list Heading.t)
  (line : Line.t) :
  loop_invariant read st ins -> loop_invariant (read ++ [line]) st ins.
Proof.
  intros (Hmap & Hemb & Hseen & Hnd). repeat split; try assumption.
  apply embeds_skip_last, Hemb.
Qed.

Lemma main_heading_step_invariant (min_len : Z)
  (classify : str -> Line.t -> result (option Level))
  (read : list Line.t) (st st' : LoopState) (line : Line.t) :
  (exists ins, loop_invariant read st ins) ->
  main_heading_step min_len classify st line = Ok st' ->
  exists ins', loop_invariant (read ++ [line]) st' ins'.
Proof.
  intros [ins Hinv]. unfold main_heading_step.
  destruct (Line.text line) as [t|] eqn:Ht; simpl; [|discriminate].
  destruct (in_seen (strip t) (snd st)) eqn:Hseen; simpl.
  - intros H; inversion H; subst. exists ins. apply skip_invariant, Hinv.
  - destruct (len (strip t) <? min_len)%Z.
    + intros H; inversion H; subst. exists ins. apply skip_invariant, Hinv.
    + destruct (classify (strip t) line) as [[lv|]|]; simpl; [| |discriminate].
      * intros H. eapply add_heading_invariant; eassumption.
      * intros H; inversion H; subst. exists ins. apply skip_invariant, Hinv.
Qed.

Lemma phrase_heading_step_invariant (is_heading : str -> bool)
  (read : list Line.t) (st st' : LoopState) (line : Line.t) :
  (exists ins, loop_invariant read st ins) ->
  phrase_heading_step is_heading st line = Ok st' ->
  exists ins', loop_invariant (read ++ [line]) st' ins'.
Proof.
  intros [ins Hinv]. unfold phrase_heading_step.
  destruct (Line.text line) as [t|] eqn:Ht; simpl; [|discriminate].
  destruct (is_heading (strip t)).
  - destruct (in_seen (strip t) (snd st)) eqn:Hseen; simpl.
    + intros H; inversion H; subst. exists ins. apply skip_invariant, Hinv.
    + intros H. eapply add_heading_invariant; eassumption.
  - intros H; inversion H; subst. exists ins. apply skip_invariant, Hinv.
Qed.

Lemma empty_invariant : exists ins, loop_invariant [] ([], []) ins.
Proof.
  exists []. repeat split; simpl; [apply embeds_nil|intros r []|constructor].
Qed.

Lemma NoDup_firstn A (n : nat) (l : list A) : NoDup l -> NoDup (firstn n l).
Proof.
  intros H. rewrite <- (firstn_skipn n l) in H. apply NoDup_app_remove_r in H. exact H.
Qed.

Lemma sort_by_page_cleaned (ins : list Heading.t) :
  sort_by_page (List.map cleaned ins) = List.map cleaned (sort_by_page ins).
Proof. unfold sort_by_page. apply stable_sort_map. intros a b. reflexivity. Qed.

Lemma sort_by_page_sorted (l : list Heading.t) :
  StronglySorted (fun a b => (Heading.page a <= Heading.page b)%Z) (sort_by_page l).
Proof.
  unfold sort_by_page.
  eapply StronglySorted_weaken;
    [|apply stable_sort_sorted
        with (lt := fun a b => (Heading.page a <? Heading.page b)%Z)].
  - intros a b H. simpl in H. apply Z.ltb_ge in H. exact H.
  - intros a b H. apply Z.ltb_lt in H. apply Z.ltb_ge. lia.
  - intros a b c H1 H2. apply Z.ltb_ge in H1, H2. apply Z.ltb_ge. lia.
Qed.

Lemma sort_by_page_stable (p : Z) (l : list Heading.t) :
  filter (on_page p) (sort_by_page l) = filter (on_page p) l.
Proof.
  unfold sort_by_page. apply stable_sort_filter.
  intros a b Ha Hb. unfold on_page in *.
  apply Z.eqb_eq in Ha, Hb. apply Z.ltb_ge. lia.
Qed.

(** The first [n] of the sorted entries of a loop are a heading list as
    the claim describes it. *)
Lemma sorted_prefix_ok (lines : list Line.t) (st : LoopState) (n : nat) :
  (exists ins, loop_invariant lines st ins) ->
  heading_list_ok lines (firstn n (sort_by_page (fst st))).
Proof.
  intros (ins & Hmap & Hemb & _ & Hnd).
  exists (firstn n (sort_by_page ins)), ins. repeat split.
  - rewrite Hmap, sort_by_page_cleaned, firstn_map. reflexivity.
  - rewrite <- firstn_map. apply NoDup_firstn.
    eapply Permutation_NoDup; [|exact Hnd].
    apply Permutation_map, Permutation_sym. apply stable_sort_perm.
  - apply StronglySorted_firstn, sort_by_page_sorted.
  - exact Hemb.
  - intros p. exists (filter (on_page p) (skipn n (sort_by_page ins))).
    rewrite <- filter_app, firstn_skipn. symmetry. apply sort_by_page_stable.
Qed.

(** The first [n] of the entries of a loop over lines in the order of
    their pages are one too. *)
Lemma ordered_prefix_ok (lines : list Line.t) (st : LoopState) (n : nat) :
  StronglySorted page_le lines ->
  (exists ins, loop_invariant lines st ins) ->
  heading_list_ok lines (firstn n (fst st)).
Proof.
  intros Hs (ins & Hmap & Hemb & _ & Hnd).
  exists (firstn n ins), ins. repeat split.
  - rewrite Hmap, firstn_map. reflexivity.
  - rewrite <- firstn_map. apply NoDup_firstn, Hnd.
  - apply StronglySorted_firstn. eapply embeds_page_sorted; eassumption.
  - exact Hemb.
  - intros p. exists (filter (on_page p) (skipn n ins)).
    rewrite <- filter_app, firstn_skipn. reflexivity.
Qed.

Lemma nil_ok (lines : list Line.t) : heading_list_ok lines [].
Proof.
  exists [], []. repeat split; try constructor.
  intros p. exists []. reflexivity.
Qed.

Lemma main_headings_ok (min_len : Z)
  (classify : str -> Line.t -> FontThresholds -> result (option Level))
  (lines : list Line.t) (headings : list Heading.t) (n : nat) :
  main_headings min_len classify lines = Ok headings ->
  heading_list_ok lines (firstn n headings).
Proof.
  unfold main_headings, main_headings_with.
  destruct (_calculate_font_thresholds lines) as [fa|]; simpl; [|discriminate].
  destruct (foldM (main_heading_step min_len (fun text line => classify text line fa))
              lines ([], [])) as [st|] eqn:Hf; simpl; [|discriminate].
  intros H; inversion H; subst. apply sorted_prefix_ok.
  apply (foldM_prefix_invariant
           (P := fun read st => exists ins, loop_invariant read st ins)
           empty_invariant) in Hf; [exact Hf|].
  intros pre a b a1 Ha Hs. eapply main_heading_step_invariant; eassumption.
Qed.

Lemma phrase_headings_ok (is_heading : str -> bool) (lines : list Line.t)
  (st : LoopState) (n : nat) :
  StronglySorted page_le lines ->
  foldM (phrase_heading_step is_heading) lines ([], []) = Ok st ->
  heading_list_ok lines (firstn n (fst st)).
Proof.
  intros Hs Hf. apply ordered_prefix_ok; [exact Hs|].
  apply (foldM_prefix_invariant
           (P := fun read st => exists ins, loop_invariant read st ins)
           empty_invariant) in Hf; [exact Hf|].
  intros pre a b a1 Ha Hst. eapply phrase_heading_step_invariant; eassumption.
Qed.

(** *** The lines of a document are in the order of its pages *)

Lemma normalize_span_page n pg span :
  Forall (fun s => Span.page s = (n + 1)%Z) (normalize_span n pg span).
Proof.
  unfold normalize_span. destruct (1 <? len (strip (RawSpan.text span)))%Z; [|constructor].
  destruct (RawSpan.bbox span) as [[[x0 y0] x1] y1]. constructor; [reflexivity|constructor].
Qed.

Lemma Forall_flat_map A B (P : B -> Prop) (f : A -> list B) (l : list A) :
  (forall a, Forall P (f a)) -> Forall P (flat_map f l).
Proof.
  intros H. induction l as [|a l IH]; simpl; [constructor|].
  apply Forall_app. split; [apply H|exact IH].
Qed.

Lemma collect_spans_page n pg :
  Forall (fun s => Span.page s = (n + 1)%Z) (collect_spans n pg).
Proof.
  unfold collect_spans. apply Forall_flat_map. intros [lines|]; simpl; [|constructor].
  apply Forall_flat_map. intros line. apply Forall_flat_map. intros span.
  apply normalize_span_page.
Qed.

Lemma chunks_Forall th (P : Span.t -> Prop) (l : list Span.t) :
  Forall P l -> Forall (Forall P) (chunks th l).
Proof.
  intros H. apply Forall_forall. intros g Hg. apply Forall_forall. intros s Hs.
  rewrite Forall_forall in H. apply H. rewrite <- (chunks_concat th l).
  apply in_concat. exists g. split; assumption.
Qed.

Lemma merge_page (spans : list Span.t) (line : Line.t) (p : Z) :
  Forall (fun s => Span.page s = p) spans ->
  _merge_line_spans spans = Ok line -> Line.page line = Some p.
Proof.
  intros Hp. unfold _merge_line_spans. destruct spans as [|s0 rest]; [discriminate|].
  intros H. inversion H; subst; simpl. inversion Hp; subst. reflexivity.
Qed.

Lemma page_lines_page th n pg lines :
  page_lines th n pg = Ok lines ->
  Forall (fun line => Line.page line = Some (n + 1)%Z) lines.
Proof.
  unfold page_lines. rewrite walk_chunks, mapM_id_map. intros H.
  apply mapM_Forall2 in H.
  assert (Hg : Forall (Forall (fun s => Span.page s = (n + 1)%Z))
                 (chunks th (sort_spans (collect_spans n pg)))).
  { apply chunks_Forall.
    eapply Permutation_Forall; [apply Permutation_sym, stable_sort_perm|].
    apply collect_spans_page. }
  induction H as [|g line gs ls Hm H2 IH]; [constructor|].
  inversion Hg; subst. constructor; [|apply IH; assumption].
  eapply merge_page; eassumption.
Qed.

Lemma StronglySorted_app A (R : A -> A -> Prop) (l1 l2 : list A) :
  StronglySorted R l1 -> StronglySorted R l2 ->
  (forall a b, In a l1 -> In b l2 -> R a b) ->
  StronglySorted R (l1 ++ l2).
Proof.
  induction 1 as [|a l1 Hs IH Ha]; intros H2 H12; simpl; [exact H2|].
  constructor.
  - apply IH; [exact H2|]. intros x y Hx Hy. apply H12; [right; exact Hx|exact Hy].
  - apply Forall_app. split; [exact Ha|].
    apply Forall_forall. intros y Hy. apply H12; [left; reflexivity|exact Hy].
Qed.

Lemma pages_lines_sorted th (pages : list Page.t) :
  forall n lines,
    pages_lines th n pages = Ok lines ->
    Forall (fun line => exists p, Line.page line = Some p /\ (n + 1 <= p)%Z) lines
    /\ StronglySorted page_le lines.
Proof.
  induction pages as [|pg rest IH]; intros n lines; simpl.
  - intros H; inversion H; subst. split; constructor.
  - destruct (page_lines th n pg) as [ls|] eqn:Hp; simpl; [|discriminate].
    destruct (pages_lines th (n + 1) rest) as [more|] eqn:Hr; simpl; [|discriminate].
    intros H; inversion H; subst; clear H.
    apply page_lines_page in Hp. destruct (IH _ _ Hr) as [Hmore Hsorted].
    split.
    + apply Forall_app. split.
      * eapply Forall_impl; [|exact Hp]. intros l Hl. exists (n + 1)%Z. split; [exact Hl|lia].
      * eapply Forall_impl; [|exact Hmore]. intros l (p & Hl & Hle). exists p. split; [exact Hl|lia].
    + apply StronglySorted_app; [|exact Hsorted|].
      * clear -Hp. induction Hp as [|l ls Hl Hls IH]; constructor; [exact IH|].
        eapply Forall_impl; [|exact Hls]. intros l' Hl' p q Ha Hb.
        rewrite Hl in Ha. rewrite Hl' in Hb. inversion Ha; inversion Hb; lia.
      * intros a b Ha Hb p q Hpa Hqb.
        rewrite Forall_forall in Hp, Hmore.
        rewrite (Hp a Ha) in Hpa. inversion Hpa; subst.
        destruct (Hmore b Hb) as (q' & Hq' & Hle). rewrite Hq' in Hqb.
        inversion Hqb; subst. lia.
Qed.

(** The lines that the extraction returns are in the order of their pages. *)
Lemma extract_text_sorted (fitz_open : PageTextSource) pdf_path th lines doc_info :
  extract_text_with_metadata fitz_open pdf_path th = Ok (lines, doc_info) ->
  StronglySorted page_le lines.
Proof.
  unfold extract_text_with_metadata.
  destruct (fitz_open pdf_path) as [doc|]; simpl; [|discriminate].
  destruct (pages_lines th 0 doc) as [ls|] eqn:Hl; simpl; [|discriminate].
  intros H; inversion H; subst. apply (pages_lines_sorted Hl).
Qed.

Section HeadingLists.
Context {U : UnicodeTables}.

Ltac ok_subst H :=
  match type of H with
  | Ok ?a = Ok ?b => assert (b = a) as -> by congruence
  end.

Lemma headings_for_ok (doc_type : str) (lines : list Line.t) (doc_analysis : Analysis.t)
  (headings : list Heading.t) :
  StronglySorted page_le lines ->
  headings_for doc_type lines doc_analysis = Ok headings ->
  heading_list_ok lines headings.
Proof.
  intros Hs. unfold headings_for.
  destruct (str_eqb doc_type (lit "form")).
  { intros H. ok_subst H. apply nil_ok. }
  destruct (str_eqb doc_type (lit "invitation")).
  { unfold _extract_invitation_headings.
    destruct (foldM (phrase_heading_step invitation_test) lines ([], [])) as [st|] eqn:Hf;
      cbn [bind]; [|discriminate].
    intros H. ok_subst H. eapply phrase_headings_ok; eassumption. }
  destruct (str_eqb doc_type (lit "academic")).
  { unfold _extract_academic_main_headings.
    destruct (main_headings 5 _classify_academic_main_heading lines) as [hs|] eqn:Hm;
      cbn [bind]; [|discriminate].
    intros H. ok_subst H. eapply main_headings_ok; eassumption. }
  destruct (str_eqb doc_type (lit "rfp_file3")).
  { unfold _extract_file3_specific_headings. intros H.
    rewrite <- (firstn_all headings). eapply main_headings_ok; eassumption. }
  destruct (str_eqb doc_type (lit "rfp")).
  { unfold _extract_rfp_main_headings.
    destruct (main_headings 5 _classify_rfp_main_heading lines) as [hs|] eqn:Hm;
      cbn [bind]; [|discriminate].
    intros H. ok_subst H. eapply main_headings_ok; eassumption. }
  destruct (str_eqb doc_type (lit "pathway")).
  { unfold _extract_pathway_headings.
    destruct (foldM (phrase_heading_step pathway_test) lines ([], [])) as [st|] eqn:Hf;
      cbn [bind]; [|discriminate].
    intros H. ok_subst H. rewrite <- (firstn_all (fst st)).
    eapply phrase_headings_ok; eassumption. }
  unfold _extract_general_main_headings.
  destruct (main_headings 5 _classify_general_main_heading lines) as [hs|] eqn:Hm;
    cbn [bind]; [|discriminate].
  intros H. ok_subst H. eapply main_headings_ok; eassumption.
Qed.

(** C3: for the lines of every document and every analysis, hence every
    document type, the heading list is made of cleaned entries whose texts
    before cleaning are all different, is in the order of the pages, and
    keeps on every page the order in which the loop met the lines. *)
Theorem C3_headings_sorted_distinct (fitz_open : PageTextSource) (pdf_path : str)
  (lines : list Line.t) (doc_info : Z) (doc_analysis : Analysis.t) :
  extract_text_with_metadata fitz_open pdf_path 5 = Ok (lines, doc_info) ->
  heading_list_ok lines (snd (extract_main_headings_only lines doc_analysis)).
Proof.
  intros Hx. apply extract_text_sorted in Hx.
  unfold extract_main_headings_only, headings_body.
  destruct (headings_for (doc_type_of doc_analysis) lines doc_analysis) as [hs|] eqn:Hh;
    simpl; [|apply nil_ok].
  eapply headings_for_ok; eassumption.
Qed.

End HeadingLists.

Lemma C3_headings_sorted_distinct_witness :
  (exists lines doc_info,
      extract_text_with_metadata duplicate_source (lit "dup.pdf") 5 = Ok (lines, doc_info)
      /\ heading_list_ok lines
           (snd (@extract_main_headings_only ascii_tables lines
                   (@analyze_document_structure ascii_tables lines)))).
Proof.
  destruct (extract_text_with_metadata duplicate_source (lit "dup.pdf") 5)
    as [[lines doc_info]|e] eqn:Hx.
  - exists lines, doc_info. split; [reflexivity|].
    exact (@C3_headings_sorted_distinct ascii_tables duplicate_source (lit "dup.pdf")
             lines doc_info (@analyze_document_structure ascii_tables lines) Hx).
  - exfalso. vm_compute in Hx. discriminate.
Defined.

(** ** Text Cleaner *)

(** C4, as worded: cleaning "Chapter 1 2" gives "Chapter 1 ", and
    cleaning that gives "Chapter ": the second pass strips another number,
    with or without regard for the trailing space. *)
Lemma C4_idempotence_counterexample :
  _clean_heading_text (lit "Chapter 1 2") = lit "Chapter 1 "
  /\ _clean_heading_text (_clean_heading_text (lit "Chapter 1 2")) = lit "Chapter "
  /\ _clean_heading_text (_clean_heading_text (lit "Chapter 1 2"))
     <> _clean_heading_text (lit "Chapter 1 2")
  /\ strip (_clean_heading_text (_clean_heading_text (lit "Chapter 1 2")))
     <> strip (_clean_heading_text (lit "Chapter 1 2")).
Proof.
  split; [vm_compute; reflexivity|]. split; [vm_compute; reflexivity|].
  split; vm_compute; discriminate.
Qed.

(** *** Stripping *)

Lemma lstrip_decomp (s : str) :
  exists a, s = a ++ lstrip s /\ forallb isspace a = true.
Proof.
  induction s as [|c s (a & Ha & Hws)]; simpl.
  - exists []. split; reflexivity.
  - destruct (isspace c) eqn:E.
    + exists (c :: a). simpl. rewrite E, Hws. split; [f_equal; exact Ha|reflexivity].
    + exists []. split; reflexivity.
Qed.

Lemma lstrip_starts (s : str) : starts_ok (lstrip s) = true.
Proof.
  induction s as [|c s IH]; simpl; [reflexivity|].
  destruct (isspace c) eqn:E; [exact IH|]. simpl. rewrite E. reflexivity.
Qed.

Lemma lstrip_fix (s : str) : starts_ok s = true -> lstrip s = s.
Proof.
  destruct s as [|c s]; simpl; [reflexivity|].
  intros H. apply negb_true_iff in H. rewrite H. reflexivity.
Qed.

Lemma rstrip_decomp (s : str) :
  exists b, s = rstrip s ++ b /\ forallb isspace b = true.
Proof.
  destruct (lstrip_decomp (rev s)) as (a & Ha & Hws).
  exists (rev a). split.
  - unfold rstrip. rewrite <- rev_app_distr, <- Ha, rev_involutive. reflexivity.
  - rewrite forallb_forall in *. intros x Hx. apply Hws. apply in_rev. exact Hx.
Qed.

Lemma rstrip_ends (s : str) : starts_ok (rev (rstrip s)) = true.
Proof. unfold rstrip. rewrite rev_involutive. apply lstrip_starts. Qed.

Lemma rstrip_fix (s : str) : starts_ok (rev s) = true -> rstrip s = s.
Proof.
  intros H. unfold rstrip. rewrite (lstrip_fix H). apply rev_involutive.
Qed.

Lemma rstrip_starts (s : str) : starts_ok s = true -> starts_ok (rstrip s) = true.
Proof.
  intros H. destruct (rstrip_decomp s) as (b & Hb & Hws).
  destruct (rstrip s) as [|c r] eqn:E; [reflexivity|].
  rewrite Hb in H. exact H.
Qed.

Lemma strip_trimmed (s : str) : trimmed (strip s).
Proof.
  unfold strip. split; [apply rstrip_starts, lstrip_starts|apply rstrip_ends].
Qed.

Lemma trimmed_strip (x : str) : trimmed x -> strip x = x.
Proof.
  intros [H1 H2]. unfold strip. rewrite (lstrip_fix H1). apply rstrip_fix, H2.
Qed.

Lemma rstrip_snoc_space (x : str) : rstrip (x ++ [32%N]) = rstrip x.
Proof. unfold rstrip. rewrite rev_app_distr. reflexivity. Qed.

Lemma trimmed_strip_space (x : str) : trimmed x -> strip (x ++ lit " ") = x.
Proof.
  intros [H1 H2]. unfold strip. change (lit " ") with [32%N].
  destruct x as [|c x'].
  - reflexivity.
  - assert (Hl : lstrip ((c :: x') ++ [32%N]) = (c :: x') ++ [32%N]).
    { apply lstrip_fix. exact H1. }
    rewrite Hl, rstrip_snoc_space. apply rstrip_fix, H2.
Qed.

Lemma isspace_32 (c : char) : isspace c = false -> (32 =? c)%N = false.
Proof.
  intros H. destruct (32 =? c)%N eqn:E; [|reflexivity].
  apply N.eqb_eq in E. subst c. discriminate.
Qed.

Lemma trimmed_no_trailing_space (x : str) :
  trimmed x -> endswith x (lit " ") = false.
Proof.
  intros [_ H2]. unfold endswith. change (rev (lit " ")) with [32%N].
  destruct (rev x) as [|c r]; [reflexivity|].
  change (startswith (c :: r) [32%N]) with ((32 =? c)%N && startswith r []).
  unfold starts_ok in H2. apply negb_true_iff in H2.
  rewrite (isspace_32 H2). reflexivity.
Qed.

(** *** Single spaces *)

Lemma spaced_from_weaken (p : bool) (s : str) :
  spaced_from p s = true -> spaced_from false s = true.
Proof.
  destruct s as [|c s]; simpl; [reflexivity|].
  destruct (isspace c); [|auto]. destruct p; simpl; [|auto].
  rewrite andb_false_r. discriminate.
Qed.

Lemma spaced_from_suffix (a s : str) :
  forall p, spaced_from p (a ++ s) = true -> spaced_from false s = true.
Proof.
  induction a as [|c a IH]; intros p; simpl; [apply spaced_from_weaken|].
  destruct (isspace c).
  - intros H. apply andb_true_iff in H. destruct H as [_ H]. exact (IH _ H).
  - apply IH.
Qed.

Lemma spaced_from_prefix (s b : str) :
  forall p, spaced_from p (s ++ b) = true -> spaced_from p s = true.
Proof.
  induction s as [|c s IH]; intros p; simpl; [reflexivity|].
  destruct (isspace c).
  - intros H. apply andb_true_iff in H. destruct H as [H1 H2].
    rewrite H1. exact (IH _ H2).
  - apply IH.
Qed.

Lemma collapse_spaced (s : str) :
  forall b, spaced_from b (collapse_from b s) = true.
Proof.
  induction s as [|c s IH]; intros b; simpl; [reflexivity|].
  destruct (isspace c) eqn:E.
  - destruct b; [apply IH|]. simpl. exact (IH true).
  - simpl. rewrite E. apply IH.
Qed.

Lemma spaced_collapse (s : str) :
  forall p, spaced_from p s = true -> collapse_from p s = s.
Proof.
  induction s as [|c s IH]; intros p; simpl; [reflexivity|].
  destruct (isspace c) eqn:E.
  - intros H. apply andb_true_iff in H. destruct H as [H1 H2].
    apply andb_true_iff in H1. destruct H1 as [Hc Hp].
    apply negb_true_iff in Hp. subst p. apply N.eqb_eq in Hc. subst c.
    rewrite (IH _ H2). reflexivity.
  - intros H. rewrite (IH _ H). reflexivity.
Qed.

Lemma strip_spaced (s : str) : spaced_from false s = true -> spaced_from false (strip s) = true.
Proof.
  intros H. unfold strip.
  destruct (lstrip_decomp s) as (a & Ha & _).
  destruct (rstrip_decomp (lstrip s)) as (b & Hb & _).
  rewrite Ha in H. apply spaced_from_suffix in H.
  rewrite Hb in H. apply spaced_from_prefix in H. exact H.
Qed.

(** *** The punctuation fixes *)

Lemma replace_char_app (k : char) (r a b : str) :
  replace_char k r (a ++ b) = replace_char k r a ++ replace_char k r b.
Proof. unfold replace_char. apply flat_map_app. Qed.

Lemma apply_fixes_app (a b : str) : apply_fixes (a ++ b) = apply_fixes a ++ apply_fixes b.
Proof.
  unfold apply_fixes, unicode_fixes. cbn [fold_left fst snd].
  rewrite !replace_char_app. reflexivity.
Qed.

Lemma apply_fixes_cons (c : char) (s : str) :
  apply_fixes (c :: s) = apply_fixes [c] ++ apply_fixes s.
Proof. apply (apply_fixes_app [c] s). Qed.

Lemma apply_fixes_other (c : char) :
  (c =? 8217)%N = false -> (c =? 8216)%N = false -> (c =? 8220)%N = false ->
  (c =? 8221)%N = false -> (c =? 8211)%N = false -> (c =? 8212)%N = false ->
  (c =? 8230)%N = false -> (c =? 160)%N = false ->
  apply_fixes [c] = [c].
Proof.
  intros H1 H2 H3 H4 H5 H6 H7 H8.
  unfold apply_fixes, unicode_fixes, replace_char. cbn [fold_left fst snd flat_map app].
  rewrite H1. cbn [flat_map app]. rewrite H2. cbn [flat_map app].
  rewrite H3. cbn [flat_map app]. rewrite H4. cbn [flat_map app].
  rewrite H5. cbn [flat_map app]. rewrite H6. cbn [flat_map app].
  rewrite H7. cbn [flat_map app]. rewrite H8. reflexivity.
Qed.

(** What the fixes make of one character: itself, or the replacement of
    one of the eight keys. *)
Lemma apply_fixes_char (c : char) :
  apply_fixes [c] = [c]
  \/ In c [8217; 8216; 8220; 8221; 8211; 8212; 8230; 160]%N.
Proof.
  destruct (c =? 8217)%N eqn:H1; [apply N.eqb_eq in H1; subst c; right; simpl; repeat ((left; reflexivity) || right)|].
  destruct (c =? 8216)%N eqn:H2; [apply N.eqb_eq in H2; subst c; right; simpl; repeat ((left; reflexivity) || right)|].
  destruct (c =? 8220)%N eqn:H3; [apply N.eqb_eq in H3; subst c; right; simpl; repeat ((left; reflexivity) || right)|].
  destruct (c =? 8221)%N eqn:H4; [apply N.eqb_eq in H4; subst c; right; simpl; repeat ((left; reflexivity) || right)|].
  destruct (c =? 8211)%N eqn:H5; [apply N.eqb_eq in H5; subst c; right; simpl; repeat ((left; reflexivity) || right)|].
  destruct (c =? 8212)%N eqn:H6; [apply N.eqb_eq in H6; subst c; right; simpl; repeat ((left; reflexivity) || right)|].
  destruct (c =? 8230)%N eqn:H7; [apply N.eqb_eq in H7; subst c; right; simpl; repeat ((left; reflexivity) || right)|].
  destruct (c =? 160)%N eqn:H8; [apply N.eqb_eq in H8; subst c; right; simpl; repeat ((left; reflexivity) || right)|].
  left. apply apply_fixes_other; assumption.
Qed.

Ltac fix_cases c :=
  destruct (apply_fixes_char c) as [Hsame|Hkey];
  [|simpl in Hkey;
    repeat (destruct Hkey as [Hkey|Hkey]; [subst c|]); [..|destruct Hkey]].

Lemma apply_fixes_char_nonspace (c : char) :
  isspace c = false ->
  apply_fixes [c] <> [] /\ forallb (fun x => negb (isspace x)) (apply_fixes [c]) = true.
Proof.
  intros Hc. fix_cases c.
  - rewrite Hsame. split; [discriminate|]. simpl. rewrite Hc. reflexivity.
  - split; [discriminate|reflexivity].
  - split; [discriminate|reflexivity].
  - split; [discriminate|reflexivity].
  - split; [discriminate|reflexivity].
  - split; [discriminate|reflexivity].
  - split; [discriminate|reflexivity].
  - split; [discriminate|reflexivity].
  - discriminate.
Qed.

Lemma apply_fixes_char_idem (c : char) : apply_fixes (apply_fixes [c]) = apply_fixes [c].
Proof.
  fix_cases c; [rewrite Hsame; exact Hsame|reflexivity..].
Qed.

Lemma apply_fixes_idem (s : str) : apply_fixes (apply_fixes s) = apply_fixes s.
Proof.
  induction s as [|c s IH]; [reflexivity|].
  rewrite apply_fixes_cons, apply_fixes_app, IH, apply_fixes_char_idem. reflexivity.
Qed.

Lemma spaced_nonspace_prefix (a s : str) :
  a <> [] -> forallb (fun x => negb (isspace x)) a = true ->
  forall p, spaced_from p (a ++ s) = spaced_from false s.
Proof.
  induction a as [|c a IH]; [congruence|]. intros _ Ha p.
  simpl in Ha. apply andb_true_iff in Ha. destruct Ha as [Hc Ha].
  apply negb_true_iff in Hc. simpl. rewrite Hc.
  destruct a as [|c' a']; [reflexivity|]. apply IH; [discriminate|exact Ha].
Qed.

Lemma apply_fixes_spaced (s : str) :
  forall p, spaced_from p s = true -> spaced_from p (apply_fixes s) = true.
Proof.
  induction s as [|c s IH]; intros p; [reflexivity|].
  rewrite apply_fixes_cons. simpl spaced_from at 1.
  destruct (isspace c) eqn:E.
  - intros H. apply andb_true_iff in H. destruct H as [H1 H2].
    apply andb_true_iff in H1. destruct H1 as [Hc Hp].
    apply N.eqb_eq in Hc. subst c. change (apply_fixes [32%N]) with [32%N].
    simpl. rewrite Hp. exact (IH _ H2).
  - intros H. destruct (apply_fixes_char_nonspace E) as [Hne Hns].
    rewrite (spaced_nonspace_prefix _ Hne Hns). exact (IH _ H).
Qed.

Lemma nonspace_starts (a s : str) :
  a <> [] -> forallb (fun x => negb (isspace x)) a = true -> starts_ok (a ++ s) = true.
Proof.
  destruct a as [|c a]; [congruence|]. intros _ H. simpl in *.
  apply andb_true_iff in H. tauto.
Qed.

Lemma apply_fixes_starts (s : str) : starts_ok s = true -> starts_ok (apply_fixes s) = true.
Proof.
  destruct s as [|c s]; [reflexivity|]. intros H. simpl in H. apply negb_true_iff in H.
  rewrite apply_fixes_cons. destruct (apply_fixes_char_nonspace H) as [Hne Hns].
  apply nonspace_starts; assumption.
Qed.

Lemma apply_fixes_ends (s : str) :
  starts_ok (rev s) = true -> starts_ok (rev (apply_fixes s)) = true.
Proof.
  destruct s as [|c s] using rev_ind; [reflexivity|].
  rewrite rev_app_distr. simpl. intros H. apply negb_true_iff in H.
  rewrite apply_fixes_app, rev_app_distr.
  destruct (apply_fixes_char_nonspace H) as [Hne Hns].
  apply nonspace_starts.
  - intros Hr. apply Hne. rewrite <- (rev_involutive (apply_fixes [c])), Hr. reflexivity.
  - rewrite forallb_forall in *. intros x Hx. apply Hns. apply in_rev. exact Hx.
Qed.

Lemma apply_fixes_trimmed (s : str) : trimmed s -> trimmed (apply_fixes s).
Proof.
  intros [H1 H2]. split; [apply apply_fixes_starts, H1|apply apply_fixes_ends, H2].
Qed.

(** *** Leaders *)

Lemma isspace_not_dot (c : char) : isspace c = true -> is_dot c = false.
Proof.
  intros H. unfold is_dot. destruct (c =? 46)%N eqn:E; [|reflexivity].
  apply N.eqb_eq in E. subst c. discriminate.
Qed.

Lemma startswith_nil (s : str) : startswith s [] = true.
Proof. destruct s; reflexivity. Qed.

Lemma contains_leader (s : str) : contains s (lit "..") = has_leader s.
Proof.
  change (lit "..") with [46%N; 46%N].
  induction s as [|c1 s1 IH]; [reflexivity|].
  change (contains (c1 :: s1) [46%N; 46%N])
    with (startswith (c1 :: s1) [46%N; 46%N] || contains s1 [46%N; 46%N]).
  rewrite IH. destruct s1 as [|c2 s2].
  - change (startswith [c1] [46%N; 46%N]) with ((46 =? c1)%N && false).
    rewrite andb_false_r. reflexivity.
  - change (startswith (c1 :: c2 :: s2) [46%N; 46%N])
      with ((46 =? c1)%N && ((46 =? c2)%N && startswith s2 [])).
    change (has_leader (c1 :: c2 :: s2))
      with ((is_dot c1 && is_dot c2) || has_leader (c2 :: s2)).
    unfold is_dot.
    rewrite startswith_nil, andb_true_r, (N.eqb_sym 46 c1), (N.eqb_sym 46 c2).
    reflexivity.
Qed.

Lemma no_leader_sub (s : str) : has_leader s = false -> sub_leaders s = s.
Proof.
  induction s as [|c1 s1 IH]; [reflexivity|].
  destruct s1 as [|c2 s2]; [reflexivity|].
  change (has_leader (c1 :: c2 :: s2))
    with ((is_dot c1 && is_dot c2) || has_leader (c2 :: s2)).
  intros H. apply orb_false_iff in H. destruct H as [H1 H2].
  change (sub_leaders (c1 :: c2 :: s2))
    with (if is_dot c1 && is_dot c2
          then match dotstar_end s2 with
               | Some rest => rest
               | None => c1 :: sub_leaders (c2 :: s2)
               end
          else c1 :: sub_leaders (c2 :: s2)).
  rewrite H1, (IH H2). reflexivity.
Qed.

Lemma has_leader_space (b : str) : forallb isspace b = true -> has_leader b = false.
Proof.
  induction b as [|c b IH]; [reflexivity|]. simpl forallb.
  intros H. apply andb_true_iff in H. destruct H as [Hc Hb].
  destruct b as [|c' b']; [reflexivity|].
  change (has_leader (c :: c' :: b')) with ((is_dot c && is_dot c') || has_leader (c' :: b')).
  rewrite (isspace_not_dot Hc), (IH Hb). reflexivity.
Qed.

Lemma has_leader_after_space (a s : str) :
  forallb isspace a = true -> has_leader (a ++ s) = has_leader s.
Proof.
  induction a as [|c a IH]; [reflexivity|]. simpl forallb.
  intros H. apply andb_true_iff in H. destruct H as [Hc Ha].
  rewrite <- (IH Ha). simpl app. destruct (a ++ s) as [|c' r]; [reflexivity|].
  change (has_leader (c :: c' :: r)) with ((is_dot c && is_dot c') || has_leader (c' :: r)).
  rewrite (isspace_not_dot Hc). reflexivity.
Qed.

Lemma has_leader_before_space (s b : str) :
  forallb isspace b = true -> has_leader (s ++ b) = has_leader s.
Proof.
  intros Hb. induction s as [|c1 s1 IH]; [apply has_leader_space, Hb|].
  destruct s1 as [|c2 s2].
  - simpl app. destruct b as [|c' b']; [reflexivity|].
    change (has_leader (c1 :: c' :: b'))
      with ((is_dot c1 && is_dot c') || has_leader (c' :: b')).
    rewrite (has_leader_space Hb). simpl in Hb. apply andb_true_iff in Hb.
    rewrite (isspace_not_dot (proj1 Hb)), andb_false_r. reflexivity.
  - change (has_leader ((c1 :: c2 :: s2) ++ b))
      with ((is_dot c1 && is_dot c2) || has_leader ((c2 :: s2) ++ b)).
    rewrite IH. reflexivity.
Qed.

Lemma has_leader_strip (s : str) : has_leader (strip s) = has_leader s.
Proof.
  unfold strip.
  destruct (lstrip_decomp s) as (a & Ha & Hwa).
  destruct (rstrip_decomp (lstrip s)) as (b & Hb & Hwb).
  rewrite Ha at 2. rewrite (has_leader_after_space _ Hwa).
  rewrite Hb at 2. rewrite (has_leader_before_space _ Hwb). reflexivity.
Qed.

(** *** Trailing numbers *)

Lemma no_number_sub (s : str) : ends_with_number s = false -> sub_trailing_number s = s.
Proof.
  induction s as [|c s IH]; [reflexivity|].
  change (ends_with_number (c :: s)) with (ws_number_tail (c :: s) || ends_with_number s).
  intros H. apply orb_false_iff in H. destruct H as [H1 H2].
  change (sub_trailing_number (c :: s))
    with (if ws_number_tail (c :: s) then [] else c :: sub_trailing_number s).
  rewrite H1, (IH H2). reflexivity.
Qed.

Lemma lstrip_snoc (s : str) (x : char) :
  lstrip s <> [] -> lstrip (s ++ [x]) = lstrip s ++ [x].
Proof.
  induction s as [|c s IH]; simpl; [congruence|].
  destruct (isspace c); [exact IH|reflexivity].
Qed.

Lemma drop_digits_snoc_space (r : str) :
  forallb isspace (drop_while is_decimal r) = true ->
  forallb isspace (drop_while is_decimal (r ++ [32%N])) = true.
Proof.
  induction r as [|c r IH]; simpl; [reflexivity|].
  destruct (is_decimal c); [exact IH|].
  simpl. intros H. apply andb_true_iff in H. destruct H as [Hc Hr].
  rewrite Hc, forallb_app, Hr. reflexivity.
Qed.

Lemma ws_number_tail_snoc (s : str) :
  ws_number_tail s = true -> ws_number_tail (s ++ [32%N]) = true.
Proof.
  destruct s as [|c s]; [discriminate|]. simpl app. unfold ws_number_tail.
  intros H. apply andb_true_iff in H. destruct H as [Hc H]. rewrite Hc. simpl andb.
  destruct (lstrip s) as [|d r] eqn:E; [discriminate|].
  rewrite lstrip_snoc by (rewrite E; discriminate). rewrite E. simpl app.
  apply andb_true_iff in H. destruct H as [Hd Hr]. rewrite Hd. simpl andb.
  apply drop_digits_snoc_space, Hr.
Qed.

Lemma ends_with_number_snoc (s : str) :
  ends_with_number (s ++ [32%N]) = false -> ends_with_number s = false.
Proof.
  induction s as [|c s IH]; [reflexivity|]. simpl app.
  change (ends_with_number (c :: s ++ [32%N]))
    with (ws_number_tail (c :: s ++ [32%N]) || ends_with_number (s ++ [32%N])).
  change (ends_with_number (c :: s)) with (ws_number_tail (c :: s) || ends_with_number s).
  intros H. apply orb_false_iff in H. destruct H as [H1 H2].
  rewrite (IH H2), orb_false_r.
  destruct (ws_number_tail (c :: s)) eqn:E; [|reflexivity].
  apply ws_number_tail_snoc in E. simpl app in E. congruence.
Qed.

(** *** The cleaner *)

Lemma clean_unfold (s : str) :
  _clean_heading_text s
  = let x := if (5 * len (tidy_of (strip (sub_leaders s))) <? 2 * len (strip s))%Z
             then strip s else tidy_of (strip (sub_leaders s)) in
    if negb (endswith x (lit " ")) then x ++ lit " " else x.
Proof. reflexivity. Qed.

Lemma tidy_of_trimmed (t : str) : trimmed (tidy_of t).
Proof. unfold tidy_of. apply apply_fixes_trimmed, strip_trimmed. Qed.

Lemma tidy_of_spaced (t : str) : spaced_from false (tidy_of t) = true.
Proof.
  unfold tidy_of. apply apply_fixes_spaced, strip_spaced.
  unfold sub_whitespace. apply collapse_spaced.
Qed.

(** A text that the cleaner made, without a trailing number, is left as
    it is by the steps after the first substitution. *)
Lemma tidy_of_settled (t : str) :
  ends_with_number (tidy_of t) = false -> tidy_of (tidy_of t) = tidy_of t.
Proof.
  intros Hn. unfold tidy_of at 1.
  rewrite (no_number_sub Hn), (trimmed_strip (tidy_of_trimmed t)).
  unfold sub_whitespace. rewrite (spaced_collapse (tidy_of_spaced t)).
  rewrite (trimmed_strip (tidy_of_trimmed t)).
  unfold tidy_of. apply apply_fixes_idem.
Qed.

(** The cleaner appends its space to a text that has none at its ends. *)
Lemma clean_value (s : str) :
  _clean_heading_text s
  = (if (5 * len (tidy_of (strip (sub_leaders s))) <? 2 * len (strip s))%Z
     then strip s else tidy_of (strip (sub_leaders s))) ++ lit " ".
Proof.
  rewrite clean_unfold. cbv zeta.
  destruct (5 * len (tidy_of (strip (sub_leaders s))) <? 2 * len (strip s))%Z.
  - rewrite (trimmed_no_trailing_space (strip_trimmed s)). reflexivity.
  - rewrite (trimmed_no_trailing_space (tidy_of_trimmed _)). reflexivity.
Qed.

(** C4, amended: a cleaned string that holds no two dots in a row and does
    not end in whitespace, digits and optional whitespace is left as it is
    by the cleaner. *)
Theorem C4_cleaner_idempotent_when_settled (s : str) :
  contains (_clean_heading_text s) (lit "..") = false ->
  ends_with_number (_clean_heading_text s) = false ->
  _clean_heading_text (_clean_heading_text s) = _clean_heading_text s.
Proof.
  rewrite contains_leader. rewrite (clean_value s).
  set (o := strip s). set (y := tidy_of (strip (sub_leaders s))).
  assert (Ho : trimmed o) by apply strip_trimmed.
  assert (Hy : trimmed y) by apply tidy_of_trimmed.
  change (lit " ") with [32%N].
  destruct (5 * len y <? 2 * len o)%Z eqn:Htest.
  - (* the first pass reverted to the original text *)
    intros Hdd _.
    rewrite has_leader_before_space in Hdd by reflexivity.
    assert (Hs : sub_leaders s = s).
    { apply no_leader_sub. rewrite <- has_leader_strip. exact Hdd. }
    rewrite clean_value.
    rewrite (no_leader_sub (s := o ++ [32%N]))
      by (rewrite has_leader_before_space by reflexivity; exact Hdd).
    change [32%N] with (lit " "). rewrite (trimmed_strip_space Ho).
    unfold y in Htest. rewrite Hs in Htest. fold o in Htest.
    rewrite Htest. reflexivity.
  - (* the first pass kept the cleaned text *)
    intros Hdd Hn.
    rewrite has_leader_before_space in Hdd by reflexivity.
    apply ends_with_number_snoc in Hn.
    rewrite clean_value.
    rewrite (no_leader_sub (s := y ++ [32%N]))
      by (rewrite has_leader_before_space by reflexivity; exact Hdd).
    change [32%N] with (lit " "). rewrite (trimmed_strip_space Hy).
    assert (Hty : tidy_of y = y) by (apply tidy_of_settled; exact Hn).
    rewrite !Hty.
    assert (Hlen : (5 * len y <? 2 * len y)%Z = false).
    { apply Z.ltb_ge. unfold len. lia. }
    rewrite Hlen. reflexivity.
Qed.

Lemma C4_cleaner_idempotent_when_settled_witness :
  _clean_heading_text (lit "1. Introduction 12") = lit "1. Introduction "
  /\ _clean_heading_text (_clean_heading_text (lit "1. Introduction 12"))
     = _clean_heading_text (lit "1. Introduction 12").
Proof.
  split; [reflexivity|].
  apply (@C4_cleaner_idempotent_when_settled (lit "1. Introduction 12")); reflexivity.
Defined.

(** ** Further properties: Span Normalizer and Line Merger *)

(** X1: sorting the spans of a page keeps every span, puts them in the
    order of the key (y, x), and leaves spans of equal key in the order
    they had. *)
Theorem sort_spans_stable_sorted (page_spans : list Span.t) (ky kx : Q) :
  Permutation (sort_spans page_spans) page_spans
  /\ StronglySorted span_key_le (sort_spans page_spans)
  /\ filter (has_key ky kx) (sort_spans page_spans) = filter (has_key ky kx) page_spans.
Proof.
  split; [apply stable_sort_perm|]. split.
  - unfold sort_spans.
    eapply StronglySorted_weaken; [|apply stable_sort_sorted with (lt := span_key_lt)].
    + intros a b H. apply span_key_lt_false. exact H.
    + intros a b H. apply span_key_le_intro. apply span_key_lt_iff in H.
      destruct H as [H|[H1 H2]]; [left; exact H|right; split; lra].
    + intros a b c H1 H2. apply span_key_le_intro.
      apply span_key_lt_false in H1, H2.
      destruct H1 as [H1|[H1 H1']], H2 as [H2|[H2 H2']];
        [left; lra|left; lra|left; lra|right; split; lra].
  - unfold sort_spans. apply stable_sort_filter.
    intros a b Ha Hb. unfold has_key in *.
    apply andb_true_iff in Ha, Hb. destruct Ha as [Hay Hax], Hb as [Hby Hbx].
    apply Qeq_bool_iff in Hay, Hax, Hby, Hbx.
    apply span_key_le_intro. right. split; lra.
Qed.

Lemma chunk_chained th (l : list Span.t) :
  forall p, chained th (p :: fst (chunk th p l)) = true
            /\ Forall (fun g => chained th g = true) (snd (chunk th p l)).
Proof.
  induction l as [|s l IH]; intros p; simpl chunk.
  - split; [reflexivity|constructor].
  - destruct (IH s) as [Hc Hg]. destruct (chunk th s l) as [g gs]. cbn [fst snd] in Hc, Hg.
    destruct (extends_line th s p) eqn:E; cbn [fst snd].
    + split; [|exact Hg].
      change (chained th (p :: s :: g)) with (extends_line th s p && chained th (s :: g)).
      rewrite E, Hc. reflexivity.
    + split; [reflexivity|]. constructor; assumption.
Qed.

(** X2: the groups that become the lines of a page are the sorted spans
    cut into consecutive pieces: none is empty, their concatenation is the
    sorted list, and inside a group every span extends the line of the
    span before it. *)
Theorem line_groups_partition (y_threshold : Q) (page_spans : list Span.t) :
  List.concat (line_groups y_threshold page_spans) = sort_spans page_spans
  /\ Forall (fun g => g <> [] /\ chained y_threshold g = true)
       (line_groups y_threshold page_spans).
Proof.
  rewrite line_groups_chunks. split; [apply chunks_concat|].
  apply Forall_and; [apply chunks_nonempty|].
  destruct (sort_spans page_spans) as [|f r]; [constructor|].
  unfold chunks. destruct (chunk_chained y_threshold r f) as [H1 H2].
  destruct (chunk y_threshold f r) as [g gs]. constructor; assumption.
Qed.

Lemma concat_length_ge A (gs : list (list A)) :
  Forall (fun g => g <> []) gs -> (List.length gs <= List.length (List.concat gs))%nat.
Proof.
  induction 1 as [|g gs Hg _ IH]; simpl; [lia|].
  rewrite length_app. destruct g; [congruence|]. simpl. lia.
Qed.

(** X3: a page gives no more lines than it has spans, no line when it has
    no span, and one line at least when it has one. *)
Theorem page_line_count (y_threshold : Q) (page_num : Z) (pg : Page.t) :
  exists lines,
    page_lines y_threshold page_num pg = Ok lines
    /\ (List.length lines <= List.length (collect_spans page_num pg))%nat
    /\ (List.length lines = 0%nat <-> collect_spans page_num pg = []).
Proof.
  destruct (page_lines_ok y_threshold page_num pg) as [lines Hl].
  exists lines. split; [exact Hl|].
  unfold page_lines in Hl. rewrite walk_chunks, mapM_id_map in Hl.
  apply mapM_Forall2, Forall2_length in Hl.
  set (spans := collect_spans page_num pg) in *.
  assert (Hlen : List.length (sort_spans spans) = List.length spans)
    by (apply Permutation_length, stable_sort_perm).
  split.
  - rewrite <- Hl, <- Hlen, <- (chunks_concat y_threshold (sort_spans spans)) at 1.
    rewrite (chunks_concat y_threshold (sort_spans spans)).
    rewrite <- (chunks_concat y_threshold (sort_spans spans)) at 2.
    apply concat_length_ge, chunks_nonempty.
  - rewrite <- Hl. split.
    + intros H0. destruct (sort_spans spans) as [|f r] eqn:E.
      * destruct spans; [reflexivity|simpl in Hlen; discriminate].
      * unfold chunks in H0. destruct (chunk y_threshold f r); discriminate.
    + intros ->. reflexivity.
Qed.

Lemma max_size_spec (rest : list Q) :
  forall s0, s0 <= max_size s0 rest
             /\ Forall (fun s => s <= max_size s0 rest) rest
             /\ In (max_size s0 rest) (s0 :: rest).
Proof.
  unfold max_size.
  induction rest as [|s rest IH]; intros s0; simpl.
  - split; [apply Qle_refl|]. split; [constructor|left; reflexivity].
  - destruct (Qlt_bool s0 s) eqn:E.
    + apply Qlt_bool_iff in E. destruct (IH s) as (H1 & H2 & H3).
      split; [lra|]. split; [constructor; assumption|].
      right. exact H3.
    + assert (Hle : s <= s0).
      { unfold Qlt_bool in E. apply negb_false_iff in E. apply Qle_bool_iff. exact E. }
      destruct (IH s0) as (H1 & H2 & H3).
      split; [exact H1|]. split; [constructor; [lra|assumption]|].
      destruct H3 as [H3|H3]; [left; exact H3|right; right; exact H3].
Qed.

(** X4: merging no span raises [IndexError]; merging spans gives a line
    with every key, whose size is the greatest of their sizes, whose page
    and position are those of the first span, and which counts the spans
    and the characters of its text. *)
Theorem merge_line_spans_spec (s0 : Span.t) (rest : list Span.t) :
  _merge_line_spans [] = Raise IndexError
  /\ exists line size text,
       _merge_line_spans (s0 :: rest) = Ok line
       /\ complete line
       /\ Line.size line = Some size
       /\ In size (List.map Span.size (s0 :: rest))
       /\ Forall (fun s => Span.size s <= size) (s0 :: rest)
       /\ Line.page line = Some (Span.page s0)
       /\ Line.y line = Some (Span.y s0)
       /\ Line.relative_y line = Some (Span.relative_y s0)
       /\ Line.span_count line = Some (Z.of_nat (List.length (s0 :: rest)))
       /\ Line.text line = Some text
       /\ trimmed text
       /\ Line.char_count line = Some (len text).
Proof.
  split; [reflexivity|].
  destruct (max_size_spec (List.map Span.size rest) (Span.size s0)) as (H1 & H2 & H3).
  eexists. exists (max_size (Span.size s0) (List.map Span.size rest)).
  exists (strip (join (lit " ") (List.map Span.text (s0 :: rest)))).
  split; [reflexivity|]. cbn [Line.text Line.size Line.font Line.bold Line.italic
    Line.page Line.y Line.x Line.relative_y Line.relative_x Line.span_count
    Line.char_count]. unfold complete. cbn [Line.text Line.size Line.font Line.bold
    Line.italic Line.page Line.y Line.x Line.relative_y Line.relative_x
    Line.span_count Line.char_count].
  repeat split; try discriminate; try reflexivity.
  - exact H3.
  - constructor; [exact H1|]. rewrite Forall_map in H2. exact H2.
  - apply rstrip_starts, lstrip_starts.
  - apply rstrip_ends.
Qed.

Lemma merge_complete (g : list Span.t) (line : Line.t) :
  _merge_line_spans g = Ok line -> complete line.
Proof.
  unfold _merge_line_spans. destruct g as [|s0 rest]; [discriminate|].
  intros H. assert (Hl : line = _) by (symmetry; injection H; intros E; exact E).
  rewrite Hl. unfold complete. cbn [Line.text Line.size Line.font Line.bold
    Line.italic Line.page Line.y Line.x Line.relative_y Line.relative_x
    Line.span_count Line.char_count].
  repeat split; discriminate.
Qed.

Lemma normalize_span_ok n pg span : Forall span_ok (normalize_span n pg span).
Proof.
  unfold normalize_span.
  destruct (1 <? len (strip (RawSpan.text span)))%Z eqn:E; [|constructor].
  destruct (RawSpan.bbox span) as [[[x0 y0] x1] y1]. constructor; [|constructor].
  unfold span_ok. cbn [Span.text Span.char_count].
  split; [apply strip_trimmed|]. split; [apply Z.ltb_lt in E; lia|reflexivity].
Qed.

Lemma collect_spans_ok n pg : Forall span_ok (collect_spans n pg).
Proof.
  unfold collect_spans. apply Forall_flat_map. intros [lines|]; simpl; [|constructor].
  apply Forall_flat_map. intros line. apply Forall_flat_map. intros span.
  apply normalize_span_ok.
Qed.

Lemma page_lines_groups th n pg lines :
  page_lines th n pg = Ok lines -> Forall (line_of_page n pg) lines.
Proof.
  unfold page_lines. rewrite walk_chunks, mapM_id_map. intros H.
  apply mapM_Forall2 in H.
  set (l := sort_spans (collect_spans n pg)) in *.
  assert (Hg : Forall (fun g => g <> [] /\ incl g (collect_spans n pg)) (chunks th l)).
  { apply Forall_and; [apply chunks_nonempty|].
    apply Forall_forall. intros g Hg s Hs.
    apply (Permutation_in _ (stable_sort_perm span_key_lt (collect_spans n pg))).
    fold (sort_spans (collect_spans n pg)). fold l.
    rewrite <- (chunks_concat th l). apply in_concat. exists g. split; assumption. }
  induction H as [|g line gs ls Hm H2 IH]; [constructor|].
  inversion Hg as [|? ? [Hne Hin] Hg']; subst. constructor; [|apply IH; assumption].
  exists g. repeat split; assumption.
Qed.

Lemma join_head (sep t : str) (ts : list str) : exists r, join sep (t :: ts) = t ++ r.
Proof.
  destruct ts as [|t' ts]; simpl.
  - exists []. rewrite app_nil_r. reflexivity.
  - eexists; reflexivity.
Qed.

Lemma join_last (sep : str) (ts : list str) (t : str) :
  exists r, join sep (ts ++ [t]) = r ++ t.
Proof.
  induction ts as [|t0 ts (r & Hr)].
  - exists []. reflexivity.
  - destruct (ts ++ [t]) as [|t1 ts'] eqn:E; [destruct ts; discriminate|].
    change (join sep ((t0 :: ts) ++ [t])) with (join sep (t0 :: ts ++ [t])).
    rewrite E. change (join sep (t0 :: t1 :: ts')) with (t0 ++ sep ++ join sep (t1 :: ts')).
    rewrite Hr. exists (t0 ++ sep ++ r). rewrite <- !app_assoc. reflexivity.
Qed.

Lemma starts_ok_app (a b : str) : a <> [] -> starts_ok (a ++ b) = starts_ok a.
Proof. destruct a; [congruence|reflexivity]. Qed.

Lemma merged_text_ok (g : list Span.t) :
  g <> [] -> Forall span_ok g ->
  trimmed (join (lit " ") (List.map Span.text g))
  /\ (2 <= len (join (lit " ") (List.map Span.text g)))%Z.
Proof.
  intros Hne Hok.
  assert (Hnz : forall s, span_ok s -> Span.text s <> []).
  { intros s (_ & Hl & _) E. rewrite E in Hl. unfold len in Hl. simpl in Hl. lia. }
  split; [split|].
  - destruct g as [|s0 rest]; [congruence|]. inversion Hok; subst.
    destruct (join_head (lit " ") (Span.text s0) (List.map Span.text rest)) as [r Hr].
    simpl List.map. rewrite Hr, starts_ok_app by (apply Hnz; assumption).
    match goal with H : span_ok s0 |- _ => apply H end.
  - destruct g as [|s g'] using rev_ind; [congruence|].
    apply Forall_app in Hok. destruct Hok as [_ Hs]. inversion Hs; subst.
    rewrite map_app. simpl List.map.
    destruct (join_last (lit " ") (List.map Span.text g') (Span.text s)) as [r Hr].
    rewrite Hr, rev_app_distr, starts_ok_app.
    + match goal with H : span_ok s |- _ => apply H end.
    + intros E. apply (Hnz s); [assumption|].
      rewrite <- (rev_involutive (Span.text s)), E. reflexivity.
  - destruct g as [|s0 rest]; [congruence|]. inversion Hok; subst.
    destruct (join_head (lit " ") (Span.text s0) (List.map Span.text rest)) as [r Hr].
    simpl List.map. rewrite Hr. unfold len. rewrite length_app.
    match goal with H : span_ok s0 |- _ => destruct H as (_ & Hl & _) end.
    unfold len in Hl. lia.
Qed.

Lemma line_of_page_ok n pg line :
  line_of_page n pg line ->
  complete line /\ text_ok line /\ Line.page line = Some (n + 1)%Z.
Proof.
  intros (g & Hne & Hin & Hm).
  assert (Hok : Forall span_ok g).
  { apply Forall_forall. intros s Hs.
    pose proof (collect_spans_ok n pg) as H. rewrite Forall_forall in H. apply H, Hin, Hs. }
  assert (Hpg : Forall (fun s => Span.page s = (n + 1)%Z) g).
  { apply Forall_forall. intros s Hs.
    pose proof (collect_spans_page n pg) as H. rewrite Forall_forall in H. apply H, Hin, Hs. }
  destruct (merged_text_ok Hne Hok) as [Htr Hlen].
  split; [|split; [|eapply merge_page; eassumption]].
  - apply (merge_complete Hm).
  - assert (Ht : Line.text line = Some (strip (join (lit " ") (List.map Span.text g)))
                 /\ Line.char_count line
                    = Some (len (strip (join (lit " ") (List.map Span.text g))))).
    { unfold _merge_line_spans in Hm. destruct g as [|s0 rest]; [discriminate|].
      inversion Hm; subst. split; reflexivity. }
    rewrite (trimmed_strip Htr) in Ht. destruct Ht as [Ht Hc].
    exists (join (lit " ") (List.map Span.text g)).
    split; [exact Ht|]. split; [exact Hlen|]. split; [exact Htr|exact Hc].
Qed.

Lemma pages_lines_pages th (pages : list Page.t) :
  forall n lines,
    pages_lines th n pages = Ok lines ->
    Forall (fun line => complete line /\ text_ok line
                        /\ exists p, Line.page line = Some p
                                     /\ (n + 1 <= p <= n + Z.of_nat (List.length pages))%Z)
      lines.
Proof.
  induction pages as [|pg rest IH]; intros n lines; simpl pages_lines.
  - intros H; inversion H; subst. constructor.
  - destruct (page_lines th n pg) as [ls|] eqn:Hp; cbn [bind]; [|discriminate].
    destruct (pages_lines th (n + 1) rest) as [more|] eqn:Hr; cbn [bind]; [|discriminate].
    intros H; inversion H; subst; clear H.
    apply Forall_app. split.
    + apply page_lines_groups in Hp. eapply Forall_impl; [|exact Hp].
      intros l Hl. apply line_of_page_ok in Hl. destruct Hl as (Hc & Ht & Hpage).
      split; [exact Hc|]. split; [exact Ht|]. exists (n + 1)%Z. split; [exact Hpage|].
      simpl List.length. lia.
    + eapply Forall_impl; [|exact (IH _ _ Hr)].
      intros l (Hc & Ht & p & Hp' & Hle). split; [exact Hc|]. split; [exact Ht|].
      exists p. split; [exact Hp'|]. simpl List.length. lia.
Qed.

(** X5: every line that the extraction returns has all its keys, a text of
    two characters or more without whitespace at its ends, a [char_count]
    equal to the length of that text, and a page number between 1 and the
    page count. *)
Theorem extracted_lines_well_formed (fitz_open : PageTextSource) (pdf_path : str)
  (y_threshold : Q) (lines : list Line.t) (page_count : Z) :
  extract_text_with_metadata fitz_open pdf_path y_threshold = Ok (lines, page_count) ->
  Forall (fun line => complete line /\ text_ok line
                      /\ exists p, Line.page line = Some p /\ (1 <= p <= page_count)%Z)
    lines.
Proof.
  unfold extract_text_with_metadata.
  destruct (fitz_open pdf_path) as [doc|]; cbn [bind]; [|discriminate].
  destruct (pages_lines y_threshold 0 doc) as [ls|] eqn:Hl; cbn [bind]; [|discriminate].
  intros H; inversion H; subst. exact (pages_lines_pages Hl).
Qed.

Lemma extracted_lines_well_formed_witness :
  exists lines,
    extract_text_with_metadata duplicate_source (lit "dup.pdf") 5 = Ok (lines, 1%Z)
    /\ Forall (fun line => complete line /\ text_ok line
                           /\ exists p, Line.page line = Some p /\ (1 <= p <= 1)%Z)
         lines.
Proof.
  destruct (extract_text_with_metadata duplicate_source (lit "dup.pdf") 5)
    as [[lines pc]|e] eqn:Hx.
  - assert (Hpc : pc = 1%Z) by (vm_compute in Hx; congruence). subst pc.
    exists lines. split; [reflexivity|].
    exact (extracted_lines_well_formed Hx).
  - exfalso. vm_compute in Hx. discriminate.
Defined.

(** ** Further properties: Document Analyzer *)

Lemma mapM_getitem_present A (key : string) (f : Line.t -> option A) (lines : list Line.t)
  (vs : list A) :
  mapM (fun line => getitem key (f line)) lines = Ok vs ->
  List.map f lines = List.map Some vs.
Proof.
  revert vs. induction lines as [|l lines IH]; simpl; intros vs H.
  - inversion H; reflexivity.
  - destruct (f l) as [v|]; simpl in H; [|discriminate].
    destruct (mapM (fun line => getitem key (f line)) lines) as [vs'|]; simpl in H;
      [|discriminate].
    inversion H; subst. simpl. rewrite (IH vs' eq_refl). reflexivity.
Qed.

Lemma mapM_getitem_total A (key : string) (f : Line.t -> option A) (lines : list Line.t) :
  Forall (fun line => f line <> None) lines ->
  exists vs, mapM (fun line => getitem key (f line)) lines = Ok vs.
Proof.
  intros H. apply mapM_ok. eapply Forall_impl; [|exact H].
  intros l Hl. cbv beta in Hl.
  destruct (f l) as [v|]; [exists v; reflexivity|congruence].
Qed.

Lemma mapM_getitem_missing A (key : string) (f : Line.t -> option A) (lines : list Line.t) :
  Exists (fun line => f line = None) lines ->
  mapM (fun line => getitem key (f line)) lines = Raise (KeyError key).
Proof.
  induction 1 as [l lines Hl|l lines _ IH]; simpl.
  - rewrite Hl. reflexivity.
  - destruct (f l); simpl; [rewrite IH|]; reflexivity.
Qed.

Lemma mapM_length A B (f : A -> result B) (l : list A) (bs : list B) :
  mapM f l = Ok bs -> List.length bs = List.length l.
Proof. intros H. apply mapM_Forall2, Forall2_length in H. symmetry. exact H. Qed.

Lemma mapM_getitem_all A (key : string) (f : Line.t -> option A) (lines : list Line.t)
  (vs : list A) :
  mapM (fun line => getitem key (f line)) lines = Ok vs ->
  Forall (fun line => f line <> None) lines.
Proof.
  intros H. apply mapM_getitem_present in H.
  apply Forall_forall. intros l Hl E.
  assert (Hin : In None (List.map f lines)) by (rewrite <- E; apply in_map, Hl).
  rewrite H in Hin. apply in_map_iff in Hin. destruct Hin as (v & Hv & _). discriminate.
Qed.

Section AnalyzerFacts.
Context {U : UnicodeTables}.

Lemma detect_total (lines : list Line.t) :
  Forall (fun line => Line.text line <> None) lines ->
  exists t, _detect_document_type lines = Ok t /\ In t document_types.
Proof.
  intros H. unfold _detect_document_type.
  assert (Hm : exists texts,
             mapM (fun item => t <- getitem "text" (Line.text item) ;; Ok (lower t)) lines
             = Ok texts).
  { apply mapM_ok. eapply Forall_impl; [|exact H].
    intros l Hl. cbv beta in Hl. destruct (Line.text l) as [t|]; [|congruence].
    eexists; reflexivity. }
  destruct Hm as [texts ->]. cbn [bind].
  unfold document_types.
  repeat match goal with
         | |- context [if ?c then _ else _] => destruct c
         end;
    eexists; (split; [reflexivity|simpl; tauto]).
Qed.

Lemma detect_missing (lines : list Line.t) :
  Exists (fun line => Line.text line = None) lines ->
  _detect_document_type lines = Raise (KeyError "text").
Proof.
  intros H. unfold _detect_document_type.
  assert (Hm : mapM (fun item => t <- getitem "text" (Line.text item) ;; Ok (lower t)) lines
               = Raise (KeyError "text")).
  { induction H as [l ls Hl|l ls _ IH]; simpl.
    - rewrite Hl. reflexivity.
    - destruct (Line.text l); simpl; [rewrite IH|]; reflexivity. }
  rewrite Hm. reflexivity.
Qed.

Lemma has_analysis_keys_all (lines : list Line.t) :
  forallb has_analysis_keys lines = true ->
  Forall (fun line => Line.page line <> None) lines
  /\ Forall (fun line => Line.size line <> None) lines
  /\ Forall (fun line => Line.font line <> None) lines
  /\ Forall (fun line => Line.bold line <> None) lines
  /\ Forall (fun line => Line.text line <> None) lines.
Proof.
  intros H. rewrite forallb_forall in H.
  repeat split; apply Forall_forall; intros l Hl; specialize (H l Hl);
    unfold has_analysis_keys in H;
    destruct (Line.page l), (Line.size l), (Line.font l), (Line.bold l), (Line.text l);
    discriminate.
Qed.

Lemma has_analysis_keys_some (lines : list Line.t) :
  forallb has_analysis_keys lines = false ->
  Exists (fun line => Line.page line = None) lines
  \/ Exists (fun line => Line.size line = None) lines
  \/ Exists (fun line => Line.font line = None) lines
  \/ Exists (fun line => Line.bold line = None) lines
  \/ Exists (fun line => Line.text line = None) lines.
Proof.
  induction lines as [|l lines IH]; simpl; [discriminate|].
  destruct (has_analysis_keys l) eqn:E; simpl.
  - intros H. destruct (IH H) as [H1|[H1|[H1|[H1|H1]]]];
      [left|right; left|right; right; left|right; right; right; left|
       right; right; right; right]; apply Exists_cons_tl; exact H1.
  - intros _. unfold has_analysis_keys in E.
    destruct (Line.page l) eqn:E1; [|left; left; exact E1].
    destruct (Line.size l) eqn:E2; [|right; left; left; exact E2].
    destruct (Line.font l) eqn:E3; [|right; right; left; left; exact E3].
    destruct (Line.bold l) eqn:E4; [|right; right; right; left; left; exact E4].
    destruct (Line.text l) eqn:E5; [discriminate|].
    right; right; right; right; left; exact E5.
Qed.

Lemma has_analysis_keys_intro (lines : list Line.t) :
  Forall (fun line => Line.page line <> None) lines ->
  Forall (fun line => Line.size line <> None) lines ->
  Forall (fun line => Line.font line <> None) lines ->
  Forall (fun line => Line.bold line <> None) lines ->
  Forall (fun line => Line.text line <> None) lines ->
  forallb has_analysis_keys lines = true.
Proof.
  intros H1 H2 H3 H4 H5. apply forallb_forall. intros l Hl.
  rewrite Forall_forall in H1, H2, H3, H4, H5.
  specialize (H1 l Hl). specialize (H2 l Hl). specialize (H3 l Hl).
  specialize (H4 l Hl). specialize (H5 l Hl).
  unfold has_analysis_keys.
  destruct (Line.page l), (Line.size l), (Line.font l), (Line.bold l), (Line.text l);
    congruence.
Qed.

Lemma analyze_body_missing (lines : list Line.t) :
  lines <> [] -> forallb has_analysis_keys lines = false ->
  exists e, analyze_body lines = Raise e.
Proof.
  intros Hne Hk. unfold analyze_body.
  destruct lines as [|l0 ls]; [congruence|]. cbn [nonempty negb].
  set (lines := l0 :: ls) in *.
  destruct (mapM (fun line => getitem "page" (Line.page line)) lines) as [pages|e] eqn:E1;
    cbn [bind]; [|eexists; reflexivity].
  destruct (mapM (fun line => getitem "size" (Line.size line)) lines) as [sizes|e] eqn:E2;
    cbn [bind]; [|eexists; reflexivity].
  destruct (mapM (fun line => getitem "font" (Line.font line)) lines) as [fonts|e] eqn:E3;
    cbn [bind]; [|eexists; reflexivity].
  destruct (mapM (fun line => getitem "bold" (Line.bold line)) lines) as [bolds|e] eqn:E4;
    cbn [bind]; [|eexists; reflexivity].
  destruct (mapM (fun line => getitem "text" (Line.text line)) lines) as [texts|e] eqn:E5;
    cbn [bind]; [|eexists; reflexivity].
  exfalso.
  rewrite (has_analysis_keys_intro (mapM_getitem_all E1) (mapM_getitem_all E2)
             (mapM_getitem_all E3) (mapM_getitem_all E4) (mapM_getitem_all E5)) in Hk.
  discriminate.
Qed.

(** The analysis of lines that have all the keys. *)
Lemma analyze_body_present (lines : list Line.t) :
  lines <> [] -> forallb has_analysis_keys lines = true ->
  exists pages sizes fonts bolds texts document_type,
    List.map Line.page lines = List.map Some pages
    /\ List.map Line.size lines = List.map Some sizes
    /\ List.map Line.bold lines = List.map Some bolds
    /\ analyze_body lines =
       Ok {| Analysis.total_lines := Some (Z.of_nat (List.length lines));
             Analysis.pages := Some (Z.of_nat (List.length (distinct Z.eqb pages)));
             Analysis.sizes := Some (Counter Qeq_bool sizes);
             Analysis.fonts := Some (Counter str_eqb fonts);
             Analysis.bold_lines :=
               Some (Z.of_nat (List.length (filter (fun b => b) bolds)));
             Analysis.avg_line_length :=
               Some (inject_Z (zsum (List.map len texts))
                     / inject_Z (Z.of_nat (List.length lines)));
             Analysis.avg_char_count :=
               Some (inject_Z (zsum (List.map (fun line => match Line.char_count line with
                                                           | Some c => c
                                                           | None => 0%Z
                                                           end) lines))
                     / inject_Z (Z.of_nat (List.length lines)));
             Analysis.document_type := Some document_type;
             Analysis.size_stats :=
               match Counter Qeq_bool sizes with
               | [] => None
               | c0 :: cs =>
                   Some {| SizeStats.mean :=
                             qsum sizes / inject_Z (Z.of_nat (List.length lines));
                           SizeStats.median := median_q sizes;
                           SizeStats.mode := fst (max_by snd c0 cs);
                           SizeStats.unique_sizes :=
                             Z.of_nat (List.length (distinct Qeq_bool sizes));
                           SizeStats.percentile_75 :=
                             nth (Z.to_nat (3 * Z.of_nat (List.length lines) / 4))
                               (sorted_q sizes) 0;
                           SizeStats.percentile_90 :=
                             nth (Z.to_nat (9 * Z.of_nat (List.length lines) / 10))
                               (sorted_q sizes) 0 |}
               end |}.
Proof.
  intros Hne Hk.
  destruct (has_analysis_keys_all Hk) as (H1 & H2 & H3 & H4 & H5).
  destruct (mapM_getitem_total "page" H1) as [pages E1].
  destruct (mapM_getitem_total "size" H2) as [sizes E2].
  destruct (mapM_getitem_total "font" H3) as [fonts E3].
  destruct (mapM_getitem_total "bold" H4) as [bolds E4].
  destruct (mapM_getitem_total "text" H5) as [texts E5].
  destruct (detect_total H5) as (dt & E6 & _).
  exists pages, sizes, fonts, bolds, texts, dt.
  split; [apply (mapM_getitem_present E1)|].
  split; [apply (mapM_getitem_present E2)|].
  split; [apply (mapM_getitem_present E4)|].
  unfold analyze_body.
  destruct lines as [|l0 ls]; [congruence|]. cbn [nonempty negb].
  rewrite E1, E2, E3, E4, E5, E6. reflexivity.
Qed.

(** X7: [analyze_document_structure] returns the empty dictionary exactly
    for an empty list of lines and for lines of which one lacks a key among
    page, size, font, bold and text. *)
Theorem analyze_empty_iff (lines : list Line.t) :
  analyze_document_structure lines = Analysis.empty
  <-> (lines = [] \/ forallb has_analysis_keys lines = false).
Proof.
  unfold analyze_document_structure. split.
  - intros H. destruct lines as [|l0 ls]; [left; reflexivity|right].
    destruct (forallb has_analysis_keys (l0 :: ls)) eqn:Hk; [|reflexivity].
    exfalso.
    destruct (@analyze_body_present (l0 :: ls)) as (p & s & f & b & t & d & _ & _ & _ & E);
      [discriminate|exact Hk|].
    rewrite E in H. discriminate.
  - intros [->|Hk]; [reflexivity|].
    destruct lines as [|l0 ls]; [reflexivity|].
    destruct (@analyze_body_missing (l0 :: ls)) as [e ->]; [discriminate|exact Hk|].
    reflexivity.
Qed.

End AnalyzerFacts.

Lemma zsum_shift (l : list Z) (a : Z) : fold_left Z.add l a = (a + zsum l)%Z.
Proof.
  unfold zsum. revert a. induction l as [|x l IH]; intros a; simpl; [lia|].
  rewrite IH, (IH x). lia.
Qed.

Lemma zsum_cons (x : Z) (l : list Z) : zsum (x :: l) = (x + zsum l)%Z.
Proof. unfold zsum at 1. simpl. apply zsum_shift. Qed.

Section CounterSums.
Variable K : Type.
Variable eqb : K -> K -> bool.

Lemma counter_add_sum (k : K) (c : list (K * Z)) :
  zsum (List.map snd (counter_add eqb k c)) = (zsum (List.map snd c) + 1)%Z.
Proof.
  induction c as [|[k' n] c IH]; simpl; [reflexivity|].
  destruct (eqb k' k); simpl; rewrite !zsum_cons; [|rewrite IH]; lia.
Qed.

Lemma counter_add_positive (k : K) (c : list (K * Z)) :
  Forall (fun e => (1 <= snd e)%Z) c ->
  Forall (fun e => (1 <= snd e)%Z) (counter_add eqb k c).
Proof.
  induction 1 as [|[k' n] c Hn Hc IH]; simpl.
  - constructor; [simpl; lia|constructor].
  - destruct (eqb k' k); constructor; simpl in *; try lia; assumption.
Qed.

Lemma Counter_sum (l : list K) :
  zsum (List.map snd (Counter eqb l)) = Z.of_nat (List.length l).
Proof.
  unfold Counter. induction l as [|x l IH] using rev_ind; [reflexivity|].
  rewrite fold_left_app. simpl. rewrite counter_add_sum, IH, length_app. simpl. lia.
Qed.

Lemma Counter_positive (l : list K) : Forall (fun e => (1 <= snd e)%Z) (Counter eqb l).
Proof.
  unfold Counter. induction l as [|x l IH] using rev_ind; [constructor|].
  rewrite fold_left_app. simpl. apply counter_add_positive, IH.
Qed.

Lemma distinct_length (l : list K) :
  (List.length (distinct eqb l) <= List.length l)%nat
  /\ (l <> [] -> distinct eqb l <> []).
Proof.
  induction l as [|a l [IH1 IH2]]; simpl; [split; [lia|congruence]|].
  destruct (existsb (eqb a) l) eqn:E.
  - split; [lia|]. intros _. apply IH2. intros ->. discriminate.
  - split; [simpl; lia|discriminate].
Qed.

Lemma max_by_spec X (f : X -> Z) (x0 : X) (l : list X) :
  In (max_by f x0 l) (x0 :: l)
  /\ Forall (fun x => (f x <= f (max_by f x0 l))%Z) (x0 :: l).
Proof.
  unfold max_by. revert x0. induction l as [|x l IH]; intros x0; simpl.
  - split; [left; reflexivity|constructor; [lia|constructor]].
  - destruct (f x0 <? f x)%Z eqn:E.
    + destruct (IH x) as [Hin Hall]. split.
      * simpl in Hin. tauto.
      * inversion Hall as [|? ? Hx Hl]; subst.
        apply Z.ltb_lt in E. constructor; [lia|]. constructor; assumption.
    + destruct (IH x0) as [Hin Hall]. split.
      * simpl in Hin. simpl. tauto.
      * inversion Hall as [|? ? Hx Hl]; subst.
        apply Z.ltb_ge in E. constructor; [assumption|]. constructor; [lia|assumption].
Qed.

End CounterSums.

Lemma lines_of_size_count (k : Q) (lines : list Line.t) (sizes : list Q) :
  List.map Line.size lines = List.map Some sizes ->
  lines_of_size k lines = count_of Qeq_bool k sizes.
Proof.
  unfold lines_of_size, count_of. revert sizes.
  induction lines as [|l lines IH]; intros [|s sizes] H; simpl in H; try discriminate;
    [reflexivity|].
  inversion H as [[Hs Hrest]]. simpl. rewrite Hs.
  specialize (IH sizes Hrest).
  destruct (Qeq_bool k s); simpl; lia.
Qed.

Lemma sorted_q_sorted (l : list Q) : StronglySorted Qle (sorted_q l).
Proof.
  unfold sorted_q.
  assert (Hnlt : forall a b, Qlt_bool b a = false -> a <= b).
  { intros a b H. destruct (Qlt_le_dec b a) as [Hlt|Hle]; [|exact Hle].
    apply Qlt_bool_iff in Hlt. congruence. }
  assert (Hle : forall a b, a <= b -> Qlt_bool b a = false).
  { intros a b H. destruct (Qlt_bool b a) eqn:E; [|reflexivity].
    apply Qlt_bool_iff in E. lra. }
  eapply StronglySorted_weaken; [|apply stable_sort_sorted with (lt := Qlt_bool)].
  - intros a b H. apply Hnlt, H.
  - intros a b H. apply Qlt_bool_iff in H. apply Hle. lra.
  - intros a b c H1 H2. apply Hnlt in H1, H2. apply Hle. lra.
Qed.

Lemma sorted_q_nth_le (l : list Q) (i j : nat) :
  (i <= j)%nat -> (j < List.length l)%nat ->
  nth i (sorted_q l) 0 <= nth j (sorted_q l) 0.
Proof.
  intros Hij Hj.
  destruct (Nat.eq_dec i j) as [->|Hne]; [apply Qle_refl|].
  apply (StronglySorted_nth (R := Qle)); [apply sorted_q_sorted|lia|].
  unfold sorted_q. rewrite (Permutation_length (stable_sort_perm _ l)). exact Hj.
Qed.

Lemma sorted_q_nth_in (l : list Q) (i : nat) :
  (i < List.length l)%nat -> In (nth i (sorted_q l) 0) l.
Proof.
  intros Hi. apply (Permutation_in _ (stable_sort_perm Qlt_bool l)).
  apply nth_In. fold (sorted_q l).
  unfold sorted_q. rewrite (Permutation_length (stable_sort_perm _ l)). exact Hi.
Qed.

Section AnalysisFacts.
Context {U : UnicodeTables}.

(** X8: for lines that have the keys of the analysis, the table of sizes
    holds for each size the number of lines of that size, each at least one
    and together the number of lines; the pages and the bold lines are
    counted between the bounds the number of lines gives. *)
Theorem analysis_counts (lines : list Line.t) :
  lines <> [] -> forallb has_analysis_keys lines = true ->
  exists sizes pages bold_lines,
    Analysis.total_lines (analyze_document_structure lines)
    = Some (Z.of_nat (List.length lines))
    /\ Analysis.sizes (analyze_document_structure lines) = Some sizes
    /\ (forall k n, In (k, n) sizes -> n = lines_of_size k lines /\ (1 <= n)%Z)
    /\ zsum (List.map snd sizes) = Z.of_nat (List.length lines)
    /\ Analysis.pages (analyze_document_structure lines) = Some pages
    /\ (1 <= pages <= Z.of_nat (List.length lines))%Z
    /\ Analysis.bold_lines (analyze_document_structure lines) = Some bold_lines
    /\ (0 <= bold_lines <= Z.of_nat (List.length lines))%Z.
Proof.
  intros Hne Hk.
  destruct (analyze_body_present Hne Hk) as (pages & sizes & fonts & bolds & texts & dt
                                             & Hp & Hs & Hb & E).
  unfold analyze_document_structure. rewrite E. cbn [Analysis.total_lines Analysis.sizes
    Analysis.pages Analysis.bold_lines].
  assert (Lp : List.length pages = List.length lines).
  { rewrite <- (length_map Some pages), <- Hp, length_map. reflexivity. }
  assert (Ls : List.length sizes = List.length lines).
  { rewrite <- (length_map Some sizes), <- Hs, length_map. reflexivity. }
  assert (Lb : List.length bolds = List.length lines).
  { rewrite <- (length_map Some bolds), <- Hb, length_map. reflexivity. }
  eexists _, _, _. split; [reflexivity|]. split; [reflexivity|].
  split; [|split; [|split; [reflexivity|split; [|split; [reflexivity|]]]]].
  - intros k n Hin. split.
    + rewrite (lines_of_size_count k Hs).
      apply (Counter_count Qeq_bool_refl Qeq_bool_sym Qeq_bool_trans Hin).
    + pose proof (Counter_positive Qeq_bool sizes) as Hpos.
      rewrite Forall_forall in Hpos. apply (Hpos (k, n) Hin).
  - rewrite Counter_sum, Ls. reflexivity.
  - destruct (distinct_length Z.eqb pages) as [H1 H2].
    assert (Hpn : pages <> []).
    { intros ->. destruct lines; [congruence|discriminate]. }
    specialize (H2 Hpn).
    destruct (distinct Z.eqb pages); [congruence|]. simpl in *. lia.
  - pose proof (filter_length_le (fun b : bool => b) bolds). lia.
Qed.

(** X9: the 75th percentile is at most the 90th, both are sizes of lines,
    and the mode is the size of a line such that no size has more lines. *)
Theorem size_stats_spec (lines : list Line.t) :
  lines <> [] -> forallb has_analysis_keys lines = true ->
  exists st,
    Analysis.size_stats (analyze_document_structure lines) = Some st
    /\ SizeStats.percentile_75 st <= SizeStats.percentile_90 st
    /\ In (Some (SizeStats.percentile_75 st)) (List.map Line.size lines)
    /\ In (Some (SizeStats.percentile_90 st)) (List.map Line.size lines)
    /\ (1 <= lines_of_size (SizeStats.mode st) lines)%Z
    /\ (forall s, (lines_of_size s lines <= lines_of_size (SizeStats.mode st) lines)%Z).
Proof.
  intros Hne Hk.
  destruct (analyze_body_present Hne Hk) as (pages & sizes & fonts & bolds & texts & dt
                                             & Hp & Hs & Hb & E).
  unfold analyze_document_structure. rewrite E. cbn [Analysis.size_stats].
  assert (Ls : List.length sizes = List.length lines).
  { rewrite <- (length_map Some sizes), <- Hs, length_map. reflexivity. }
  assert (Hn : (0 < List.length lines)%nat).
  { destruct lines; [congruence|simpl; lia]. }
  pose proof (Counter_counts Qeq_bool_refl Qeq_bool_sym Qeq_bool_trans sizes)
    as (Hcount & Hcover & _).
  pose proof (Counter_positive Qeq_bool sizes) as Hpos.
  destruct (Counter Qeq_bool sizes) as [|c0 cs] eqn:Ec.
  { exfalso. destruct sizes as [|s sizes]; [simpl in Ls; lia|].
    destruct (Hcover s (or_introl eq_refl)) as (k & n & [] & _). }
  eexists. split; [reflexivity|]. cbn [SizeStats.percentile_75 SizeStats.percentile_90
    SizeStats.mode].
  set (n := Z.of_nat (List.length lines)).
  assert (H75 : (Z.to_nat (3 * n / 4) < List.length sizes)%nat).
  { rewrite Ls. apply Nat2Z.inj_lt. rewrite Z2Nat.id.
    - apply Z.div_lt_upper_bound; lia.
    - apply Z.div_pos; lia. }
  assert (H90 : (Z.to_nat (9 * n / 10) < List.length sizes)%nat).
  { rewrite Ls. apply Nat2Z.inj_lt. rewrite Z2Nat.id.
    - apply Z.div_lt_upper_bound; lia.
    - apply Z.div_pos; lia. }
  assert (Hle : (Z.to_nat (3 * n / 4) <= Z.to_nat (9 * n / 10))%nat).
  { apply Z2Nat.inj_le; [apply Z.div_pos; lia|apply Z.div_pos; lia|].
    apply Z.div_le_lower_bound; [lia|].
    pose proof (Z.mul_div_le (3 * n) 4). pose proof (Z.mod_pos_bound (3 * n) 4).
    pose proof (Z.div_mod (3 * n) 4). lia. }
  split; [apply sorted_q_nth_le; assumption|].
  split; [rewrite Hs; apply in_map, sorted_q_nth_in; assumption|].
  split; [rewrite Hs; apply in_map, sorted_q_nth_in; assumption|].
  destruct (max_by_spec snd c0 cs) as [Hin Hmax].
  destruct (max_by snd c0 cs) as [km nm] eqn:Em. cbn [fst snd] in *.
  rewrite (lines_of_size_count km Hs), <- (Hcount km nm Hin).
  split.
  - rewrite Forall_forall in Hpos. apply (Hpos (km, nm) Hin).
  - intros s. rewrite (lines_of_size_count s Hs).
    destruct (Z.eq_dec (count_of Qeq_bool s sizes) 0) as [Hz|Hnz].
    + rewrite Hz. rewrite Forall_forall in Hpos. specialize (Hpos (km, nm) Hin).
      simpl in Hpos. lia.
    + assert (Hex : exists y, In y sizes /\ Qeq_bool s y = true).
      { unfold count_of in Hnz.
        destruct (filter (Qeq_bool s) sizes) as [|y ys] eqn:Ef; [simpl in Hnz; lia|].
        exists y. apply filter_In. rewrite Ef. left; reflexivity. }
      destruct Hex as (y & Hy & Hsy).
      destruct (Hcover y Hy) as (k & m & Hkm & Hky).
      rewrite Forall_forall in Hmax. specialize (Hmax (k, m) Hkm). simpl in Hmax.
      rewrite (Hcount k m Hkm) in Hmax.
      rewrite (count_of_Qeq sizes Hsy), <- (count_of_Qeq sizes Hky). exact Hmax.
Qed.

End AnalysisFacts.

(** ** Further properties: size percentile and document type *)

Lemma ratio_le (a b n : Z) :
  (0 < n)%Z -> (a <= b)%Z ->
  inject_Z a / inject_Z n * 100 <= inject_Z b / inject_Z n * 100.
Proof.
  intros Hn Hab. apply Qmult_le_compat_r; [|lra].
  unfold Qdiv. apply Qmult_le_compat_r.
  - rewrite <- Zle_Qle. exact Hab.
  - apply Qinv_le_0_compat. change 0 with (inject_Z 0). rewrite <- Zle_Qle. lia.
Qed.

Lemma inject_Z_nonzero (n : Z) : (0 < n)%Z -> ~ inject_Z n == 0.
Proof. intros H Hq. unfold Qeq in Hq. simpl in Hq. lia. Qed.

Lemma filter_length_impl A (p q : A -> bool) (l : list A) :
  (forall x, p x = true -> q x = true) ->
  (List.length (filter p l) <= List.length (filter q l))%nat.
Proof.
  intros H. induction l as [|x l IH]; simpl; [lia|].
  destruct (p x) eqn:E.
  - rewrite (H x E). simpl. lia.
  - destruct (q x); simpl; lia.
Qed.


(** X11: the percentile does not decrease with the size, and a size that
    the table holds with a positive count lies below 100. *)
Theorem size_percentile_monotone (size size' : Q) (analysis : Analysis.t) :
  size <= size' ->
  _get_size_percentile size analysis <= _get_size_percentile size' analysis
  /\ (forall sizes n, Analysis.sizes analysis = Some sizes -> In (size, n) sizes ->
      (0 < n)%Z -> _get_size_percentile size analysis < 100).
Proof.
  intros Hle. unfold _get_size_percentile. split.
  - destruct (Analysis.sizes analysis) as [sizes|]; [|lra].
    set (all_sizes := sorted_q _).
    destruct all_sizes as [|s0 rest] eqn:E; cbn [nonempty negb]; [lra|].
    apply ratio_le; [simpl; lia|].
    apply Nat2Z.inj_le, filter_length_impl.
    intros x Hx. apply Qlt_bool_iff in Hx. apply Qlt_bool_iff. lra.
  - intros sizes n -> Hin Hn.
    set (all_sizes := sorted_q _).
    assert (Hmem : In size all_sizes).
    { unfold all_sizes, sorted_q.
      apply (Permutation_in _ (Permutation_sym (stable_sort_perm Qlt_bool _))).
      apply in_flat_map. exists (size, n). split; [exact Hin|]. simpl.
      destruct (Z.to_nat n) as [|k] eqn:Ek; [lia|]. left; reflexivity. }
    destruct all_sizes as [|s0 rest] eqn:E; [destruct Hmem|]. cbn [nonempty negb].
    set (L := s0 :: rest) in *.
    assert (Hlt : (List.length (filter (fun s => Qlt_bool s size) L) < List.length L)%nat).
    { clear -Hmem. induction L as [|x L IH]; [destruct Hmem|]. simpl.
      destruct Hmem as [->|Hmem].
      - assert (Hf : Qlt_bool size size = false).
        { destruct (Qlt_bool size size) eqn:F; [|reflexivity].
          apply Qlt_bool_iff in F. lra. }
        rewrite Hf. pose proof (filter_length_le (fun s => Qlt_bool s size) L). lia.
      - specialize (IH Hmem). destruct (Qlt_bool x size); simpl; lia. }
    set (n' := Z.of_nat (List.length L)).
    set (pos := Z.of_nat (List.length (filter (fun s => Qlt_bool s size) L))).
    assert (Hn' : (0 < n')%Z) by (unfold n', L; simpl; lia).
    assert (Hp : (pos + 1 <= n')%Z) by (unfold pos, n'; lia).
    apply Qle_lt_trans with (y := inject_Z (n' - 1) / inject_Z n' * 100).
    + apply ratio_le; lia.
    + assert (Hq : ~ inject_Z n' == 0) by (apply inject_Z_nonzero, Hn').
      assert (H1 : inject_Z (n' - 1) / inject_Z n' * 100
                   == 100 - 100 / inject_Z n').
      { assert (Hs : inject_Z (n' - 1) == inject_Z n' - 1).
        { unfold Z.sub. rewrite inject_Z_plus. reflexivity. }
        rewrite Hs. field. exact Hq. }
      rewrite H1.
      assert (H2 : 0 < 100 / inject_Z n').
      { unfold Qdiv. apply Qmult_lt_0_compat; [lra|].
        apply Qinv_lt_0_compat. change 0 with (inject_Z 0). rewrite <- Zlt_Qlt. lia. }
      lra.
Qed.

Lemma size_percentile_monotone_witness :
  10 <= 12
  /\ (_get_size_percentile 10 (@analyze_document_structure ascii_tables frequency_lines)
      <= _get_size_percentile 12 (@analyze_document_structure ascii_tables frequency_lines)
      /\ (forall sizes n,
             Analysis.sizes (@analyze_document_structure ascii_tables frequency_lines)
             = Some sizes ->
             In (10, n) sizes -> (0 < n)%Z ->
             _get_size_percentile 10 (@analyze_document_structure ascii_tables frequency_lines)
             < 100)).
Proof.
  split; [lra|].
  apply (@size_percentile_monotone 10 12
           (@analyze_document_structure ascii_tables frequency_lines)).
  lra.
Defined.

Lemma startswith_app (a b p : str) : startswith a p = true -> startswith (a ++ b) p = true.
Proof.
  revert a. induction p as [|c p IH]; intros a H; [destruct (a ++ b); reflexivity|].
  destruct a as [|x a]; simpl in H; [discriminate|].
  simpl. apply andb_true_iff in H. destruct H as [H1 H2].
  rewrite H1. simpl. apply IH, H2.
Qed.

Lemma contains_app_l (a b p : str) : contains a p = true -> contains (a ++ b) p = true.
Proof.
  induction a as [|x a IH]; simpl; intros H.
  - rewrite orb_false_r in H. destruct p; [|discriminate].
    destruct b; reflexivity.
  - apply orb_true_iff in H. apply orb_true_iff. destruct H as [H|H].
    + left. apply (@startswith_app (x :: a) b p H).
    + right. apply IH, H.
Qed.

Lemma contains_app_r (a b p : str) : contains b p = true -> contains (a ++ b) p = true.
Proof.
  intros H. induction a as [|x a IH]; simpl; [exact H|].
  rewrite IH. apply orb_true_r.
Qed.

Lemma contains_join (sep p x : str) (parts : list str) :
  In x parts -> contains x p = true -> contains (join sep parts) p = true.
Proof.
  intros Hin Hx. induction parts as [|y parts IH]; [destruct Hin|].
  destruct parts as [|z parts].
  - destruct Hin as [->|[]]. exact Hx.
  - change (join sep (y :: z :: parts)) with (y ++ sep ++ join sep (z :: parts)).
    destruct Hin as [->|Hin].
    + apply contains_app_l, Hx.
    + apply contains_app_r, contains_app_r, IH, Hin.
Qed.

Section DocumentTypeFacts.
Context {U : UnicodeTables}.

Lemma lowered_texts (lines : list Line.t) (texts : list str) :
  mapM (fun item => t <- getitem "text" (Line.text item) ;; Ok (lower t)) lines = Ok texts ->
  forall line text, In line lines -> Line.text line = Some text -> In (lower text) texts.
Proof.
  revert texts. induction lines as [|l lines IH]; intros texts H line text Hin Ht;
    [destruct Hin|].
  simpl in H. destruct (Line.text l) as [t|] eqn:El; simpl in H; [|discriminate].
  destruct (mapM (fun item => t <- getitem "text" (Line.text item) ;; Ok (lower t)) lines)
    as [ts|] eqn:Em; simpl in H; [|discriminate].
  inversion H; subst. destruct Hin as [->|Hin].
  - left. congruence.
  - right. apply (IH ts eq_refl line text Hin Ht).
Qed.

(** X12: [_detect_document_type] returns one of the seven document types
    when every line has a text, and raises [KeyError] on the key text
    otherwise. *)
Theorem detect_document_type_range (lines : list Line.t) :
  match _detect_document_type lines with
  | Ok t => In t document_types /\ Forall (fun line => Line.text line <> None) lines
  | Raise e => e = KeyError "text" /\ Exists (fun line => Line.text line = None) lines
  end.
Proof.
  destruct (Forall_Exists_dec (fun line => Line.text line <> None)
              (fun line => match Line.text line as o
                                 return {o <> None} + {~ o <> None} with
                           | Some t => left (fun E => eq_ind (Some t)
                                                       (fun o => match o with
                                                                 | Some _ => True
                                                                 | None => False
                                                                 end) I None E)
                           | None => right (fun H => H eq_refl)
                           end) lines) as [Hall|Hex].
  - destruct (detect_total Hall) as (t & -> & Hin). split; assumption.
  - assert (Hex' : Exists (fun line => Line.text line = None) lines).
    { eapply Exists_impl; [|exact Hex]. intros l Hl. cbv beta in Hl.
      destruct (Line.text l); [exfalso; apply Hl; discriminate|reflexivity]. }
    rewrite (detect_missing Hex'). split; [reflexivity|exact Hex'].
Qed.

(** X13: a marker of the rfp-variant-3 type in the lowered text of one
    line decides the document type, whatever the other lines hold. *)
Theorem detect_file3_priority (lines : list Line.t) (line : Line.t) (text : str) :
  Forall (fun l => Line.text l <> None) lines ->
  In line lines -> Line.text line = Some text ->
  has_file3_type_marker (lower text) = true ->
  _detect_document_type lines = Ok (lit "rfp_file3").
Proof.
  intros Hall Hin Ht Hm. unfold _detect_document_type.
  assert (Hx : exists texts,
             mapM (fun item => t <- getitem "text" (Line.text item) ;; Ok (lower t)) lines
             = Ok texts).
  { apply mapM_ok. eapply Forall_impl; [|exact Hall].
    intros l Hl. cbv beta in Hl. destruct (Line.text l) as [t|]; [|congruence].
    eexists; reflexivity. }
  destruct Hx as [texts Hx]. rewrite Hx. cbn [bind].
  pose proof (lowered_texts Hx Hin Ht) as Hl.
  unfold has_file3_type_marker in Hm.
  assert (Hc : contains (join (lit " ") texts) (lit "request for proposal")
               || contains (join (lit " ") texts) (lit "ontario digital library")
               || contains (join (lit " ") texts) (lit "rfp:") = true).
  { apply orb_true_iff in Hm. destruct Hm as [Hm|Hm].
    - apply orb_true_iff in Hm. destruct Hm as [Hm|Hm].
      + rewrite (contains_join (lit " ") Hl Hm). reflexivity.
      + rewrite (contains_join (lit " ") Hl Hm). rewrite orb_true_r. reflexivity.
    - rewrite (contains_join (lit " ") Hl Hm). rewrite !orb_true_r. reflexivity. }
  rewrite Hc. reflexivity.
Qed.

End DocumentTypeFacts.

Lemma detect_file3_priority_witness :
  In (plain_line "RFP: Library Services" 12 false 2 (1 # 10)) mixed_lines
  /\ @_detect_document_type ascii_tables mixed_lines = Ok (lit "rfp_file3").
Proof.
  split; [right; right; left; reflexivity|].
  apply (@detect_file3_priority ascii_tables mixed_lines
           (plain_line "RFP: Library Services" 12 false 2 (1 # 10))
           (lit "RFP: Library Services")).
  - repeat constructor; discriminate.
  - right; right; left; reflexivity.
  - reflexivity.
  - vm_compute. reflexivity.
Defined.

Lemma analysis_counts_witness :
  exists sizes pages bold_lines,
    Analysis.total_lines (@analyze_document_structure ascii_tables report_lines)
    = Some (Z.of_nat (List.length report_lines))
    /\ Analysis.sizes (@analyze_document_structure ascii_tables report_lines) = Some sizes
    /\ (forall k n, In (k, n) sizes -> n = lines_of_size k report_lines /\ (1 <= n)%Z)
    /\ zsum (List.map snd sizes) = Z.of_nat (List.length report_lines)
    /\ Analysis.pages (@analyze_document_structure ascii_tables report_lines) = Some pages
    /\ (1 <= pages <= Z.of_nat (List.length report_lines))%Z
    /\ Analysis.bold_lines (@analyze_document_structure ascii_tables report_lines)
       = Some bold_lines
    /\ (0 <= bold_lines <= Z.of_nat (List.length report_lines))%Z.
Proof.
  apply (@analysis_counts ascii_tables report_lines); [discriminate|reflexivity].
Defined.

Lemma size_stats_spec_witness :
  exists st,
    Analysis.size_stats (@analyze_document_structure ascii_tables report_lines) = Some st
    /\ SizeStats.percentile_75 st <= SizeStats.percentile_90 st
    /\ In (Some (SizeStats.percentile_75 st)) (List.map Line.size report_lines)
    /\ In (Some (SizeStats.percentile_90 st)) (List.map Line.size report_lines)
    /\ (1 <= lines_of_size (SizeStats.mode st) report_lines)%Z
    /\ (forall s, (lines_of_size s report_lines
                   <= lines_of_size (SizeStats.mode st) report_lines)%Z).
Proof.
  apply (@size_stats_spec ascii_tables report_lines); [discriminate|reflexivity].
Defined.

(** ** Further properties: thresholds and heading lists *)

Lemma positive_sizes_none (lines : list Line.t) (sizes : list Q) :
  List.map Line.size lines = List.map Some sizes ->
  forallb no_positive_size lines = negb (nonempty (filter (fun s => Qlt_bool 0 s) sizes)).
Proof.
  revert sizes. induction lines as [|l lines IH]; intros [|s sizes] H; simpl in H;
    try discriminate; [reflexivity|].
  inversion H as [[Hs Hrest]]. simpl. unfold no_positive_size at 1. rewrite Hs.
  destruct (Qlt_bool 0 s); simpl; [reflexivity|apply IH, Hrest].
Qed.

Section ThresholdFacts.
Context {U : UnicodeTables}.

(** X14: [_calculate_font_thresholds] raises [KeyError] on the key size
    exactly when a line lacks it; otherwise it returns the empty dictionary
    when no size is positive and the four levels H1 to H4 when one is. *)
Theorem font_thresholds_edge (lines : list Line.t) :
  match _calculate_font_thresholds lines with
  | Raise e => e = KeyError "size" /\ Exists (fun line => Line.size line = None) lines
  | Ok fa =>
      Forall (fun line => Line.size line <> None) lines
      /\ (if forallb no_positive_size lines then fa = []
          else List.map fst fa = [H1; H2; H3; H4])
  end.
Proof.
  unfold _calculate_font_thresholds.
  destruct (mapM (fun line => getitem "size" (Line.size line)) lines) as [sizes|e] eqn:E;
    cbn [bind].
  - split; [apply (mapM_getitem_all E)|].
    rewrite (positive_sizes_none (mapM_getitem_present E)).
    unfold thresholds_of_sizes.
    destruct (filter (fun s => Qlt_bool 0 s) sizes) as [|s0 rest]; cbn [nonempty negb];
      [reflexivity|].
    destruct (3 <=? _)%nat; reflexivity.
  - assert (Hex : Exists (fun line => Line.size line = None) lines).
    { clear -E. revert e E. induction lines as [|l lines IH]; simpl; intros e E;
        [discriminate|].
      destruct (Line.size l) eqn:El; [|left; exact El].
      simpl in E.
      destruct (mapM (fun line => getitem "size" (Line.size line)) lines) eqn:Em;
        simpl in E; [discriminate|].
      right. eapply IH. reflexivity. }
    rewrite (mapM_getitem_missing "size" Hex) in E. inversion E; subst.
    split; [reflexivity|exact Hex].
Qed.

End ThresholdFacts.

Section EntryFacts.
Context {U : UnicodeTables}.

Lemma entries_ok_skip levels read st line :
  entries_ok levels read st -> entries_ok levels (read ++ [line]) st.
Proof.
  intros [Ha Hl]. split.
  - eapply Forall_impl; [|exact Ha]. intros h [H1 (l & Hin & Hh)].
    split; [exact H1|]. exists l. split; [apply in_or_app; left; exact Hin|exact Hh].
  - rewrite length_app. simpl. lia.
Qed.

Lemma entries_ok_add levels read st st' lv t line :
  entries_ok levels read st ->
  In lv levels ->
  Line.text line = Some t ->
  add_heading st lv (strip t) line = Ok st' ->
  entries_ok levels (read ++ [line]) st'.
Proof.
  intros Hok Hlv Ht Hadd. destruct st as [headings seen]. unfold add_heading in Hadd.
  destruct (Line.page line) as [p|] eqn:Hp; simpl in Hadd; [|discriminate].
  inversion Hadd; subst; clear Hadd.
  destruct (entries_ok_skip line Hok) as [Ha _]. destruct Hok as [_ Hl].
  cbn [fst] in *. split; cbn [fst].
  - apply Forall_app. split; [exact Ha|]. constructor; [|constructor].
    split; [exact Hlv|]. exists line. split; [apply in_or_app; right; left; reflexivity|].
    exists t, p. repeat split; assumption.
  - rewrite !length_app. simpl. lia.
Qed.

Lemma main_heading_step_entries (levels : list Level) (min_len : Z)
  (classify : str -> Line.t -> result (option Level))
  (read : list Line.t) (st st' : LoopState) (line : Line.t) :
  (forall text l lv, classify text l = Ok (Some lv) -> In lv levels) ->
  entries_ok levels read st ->
  main_heading_step min_len classify st line = Ok st' ->
  entries_ok levels (read ++ [line]) st'.
Proof.
  intros Hc Hok. unfold main_heading_step.
  destruct (Line.text line) as [t|] eqn:Ht; cbn [getitem bind]; [|discriminate].
  destruct (in_seen (strip t) (snd st) || (len (strip t) <? min_len)%Z).
  { intros H; inversion H; subst. apply entries_ok_skip, Hok. }
  destruct (classify (strip t) line) as [[lv|]|] eqn:Hcl; cbn [bind]; [| |discriminate].
  - intros H. eapply entries_ok_add; try eassumption. eapply Hc, Hcl.
  - intros H; inversion H; subst. apply entries_ok_skip, Hok.
Qed.

Lemma phrase_heading_step_entries (is_heading : str -> bool)
  (read : list Line.t) (st st' : LoopState) (line : Line.t) :
  entries_ok [H1] read st ->
  phrase_heading_step is_heading st line = Ok st' ->
  entries_ok [H1] (read ++ [line]) st'.
Proof.
  intros Hok. unfold phrase_heading_step.
  destruct (Line.text line) as [t|] eqn:Ht; cbn [getitem bind]; [|discriminate].
  destruct (is_heading (strip t)).
  - destruct (negb (in_seen (strip t) (snd st))).
    + intros H. eapply entries_ok_add; try eassumption. left; reflexivity.
    + intros H; inversion H; subst. apply entries_ok_skip, Hok.
  - intros H; inversion H; subst. apply entries_ok_skip, Hok.
Qed.

Lemma entries_ok_nil levels : entries_ok levels [] ([], []).
Proof. split; [constructor|simpl; lia]. Qed.

Lemma Forall_firstn A (P : A -> Prop) (n : nat) (l : list A) :
  Forall P l -> Forall P (firstn n l).
Proof.
  intros H. rewrite <- (firstn_skipn n l) in H. apply Forall_app in H. apply H.
Qed.

Lemma entries_ok_result levels lines st (n : nat) (hs : list Heading.t) :
  entries_ok levels lines st ->
  Permutation hs (fst st) ->
  Forall (fun h => In (Heading.level h) levels
                   /\ exists line, In line lines /\ heading_of_line h line) (firstn n hs)
  /\ (List.length (firstn n hs) <= List.length lines)%nat.
Proof.
  intros [Ha Hl] Hp. split.
  - apply Forall_firstn. apply Forall_forall. intros h Hh.
    rewrite Forall_forall in Ha. apply Ha. apply (Permutation_in _ Hp Hh).
  - rewrite length_firstn, (Permutation_length Hp). lia.
Qed.

Lemma main_headings_entries (levels : list Level) (min_len : Z)
  (classify : str -> Line.t -> FontThresholds -> result (option Level))
  (lines : list Line.t) (headings : list Heading.t) (n : nat) :
  (forall text l fa lv, classify text l fa = Ok (Some lv) -> In lv levels) ->
  main_headings min_len classify lines = Ok headings ->
  Forall (fun h => In (Heading.level h) levels
                   /\ exists line, In line lines /\ heading_of_line h line)
    (firstn n headings)
  /\ (List.length (firstn n headings) <= List.length lines)%nat.
Proof.
  intros Hc. unfold main_headings, main_headings_with.
  destruct (_calculate_font_thresholds lines) as [fa|]; cbn [bind]; [|discriminate].
  destruct (foldM (main_heading_step min_len (fun text line => classify text line fa))
              lines ([], [])) as [st|] eqn:Hf; cbn [bind]; [|discriminate].
  intros H; inversion H; subst.
  apply (foldM_prefix_invariant (P := entries_ok levels) (entries_ok_nil levels)) in Hf.
  - apply (entries_ok_result n Hf). unfold sort_by_page. apply stable_sort_perm.
  - intros pre a b a1 Ha Hs. eapply main_heading_step_entries; try eassumption.
    intros text l lv. apply Hc.
Qed.

Lemma phrase_headings_entries (is_heading : str -> bool) (lines : list Line.t)
  (st : LoopState) (n : nat) :
  foldM (phrase_heading_step is_heading) lines ([], []) = Ok st ->
  Forall (fun h => In (Heading.level h) [H1]
                   /\ exists line, In line lines /\ heading_of_line h line)
    (firstn n (fst st))
  /\ (List.length (firstn n (fst st)) <= List.length lines)%nat.
Proof.
  intros Hf.
  apply (foldM_prefix_invariant (P := entries_ok [H1]) (entries_ok_nil [H1])) in Hf.
  - apply (entries_ok_result n Hf). apply Permutation_refl.
  - intros pre a b a1 Ha Hs. eapply phrase_heading_step_entries; eassumption.
Qed.

Lemma general_levels text line fa lv :
  _classify_general_main_heading text line fa = Ok (Some lv) -> In lv [H1; H2].
Proof.
  unfold _classify_general_main_heading.
  repeat match goal with
         | |- context [if ?c then _ else _] => destruct c
         | |- context [getitem ?k ?v] => destruct v; cbn [getitem bind]
         end;
    intros H; inversion H; subst; simpl; tauto.
Qed.

Lemma academic_levels text line fa lv :
  _classify_academic_main_heading text line fa = Ok (Some lv) -> In lv [H1; H2].
Proof.
  unfold _classify_academic_main_heading.
  repeat match goal with
         | |- context [if ?c then _ else _] => destruct c
         | |- context [getitem ?k ?v] => destruct v; cbn [getitem bind]
         end;
    intros H; inversion H; subst; simpl; tauto.
Qed.

Lemma rfp_levels text line fa lv :
  _classify_rfp_main_heading text line fa = Ok (Some lv) -> In lv [H1; H2; H3].
Proof.
  unfold _classify_rfp_main_heading.
  repeat match goal with
         | |- context [if ?c then _ else _] => destruct c
         | |- context [getitem ?k ?v] => destruct v; cbn [getitem bind]
         end;
    intros H; inversion H; subst; simpl; tauto.
Qed.

Lemma file3_levels text line fa lv :
  _classify_file3_heading text line fa = Ok (Some lv) -> In lv [H1; H2; H3; H4].
Proof. intros _. destruct lv; simpl; tauto. Qed.

Ltac ok_inv H :=
  match type of H with
  | Ok ?a = Ok ?b => assert (b = a) as -> by congruence
  end.

(** The facts of the two theorems below, for every document type. *)
Lemma headings_for_entries (doc_type : str) (lines : list Line.t)
  (doc_analysis : Analysis.t) (headings : list Heading.t) :
  headings_for doc_type lines doc_analysis = Ok headings ->
  Forall (fun h => In (Heading.level h) (levels_of doc_type)
                   /\ exists line, In line lines /\ heading_of_line h line) headings
  /\ (List.length headings <= List.length lines)%nat
  /\ match heading_cap doc_type with
     | Some n => (List.length headings <= n)%nat
     | None => True
     end.
Proof.
  unfold headings_for, levels_of, heading_cap.
  destruct (str_eqb doc_type (lit "form")).
  { intros H. ok_inv H. split; [constructor|]. simpl. split; lia. }
  destruct (str_eqb doc_type (lit "invitation")).
  { unfold _extract_invitation_headings.
    destruct (foldM (phrase_heading_step invitation_test) lines ([], [])) as [st|] eqn:Hf;
      cbn [bind]; [|discriminate].
    intros H. ok_inv H.
    destruct (phrase_headings_entries 2 Hf) as [Ha Hl].
    split; [exact Ha|]. split; [exact Hl|]. rewrite length_firstn. lia. }
  destruct (str_eqb doc_type (lit "academic")).
  { unfold _extract_academic_main_headings.
    destruct (main_headings 5 _classify_academic_main_heading lines) as [hs|] eqn:Hm;
      cbn [bind]; [|discriminate].
    intros H. ok_inv H.
    destruct (main_headings_entries 18 academic_levels Hm) as [Ha Hl].
    split; [exact Ha|]. split; [exact Hl|]. rewrite length_firstn. lia. }
  destruct (str_eqb doc_type (lit "rfp_file3")).
  { unfold _extract_file3_specific_headings. intros Hm.
    destruct (main_headings_entries (List.length headings) file3_levels Hm) as [Ha Hl].
    rewrite firstn_all in Ha, Hl. split; [exact Ha|]. split; [exact Hl|exact I]. }
  destruct (str_eqb doc_type (lit "rfp")).
  { unfold _extract_rfp_main_headings.
    destruct (main_headings 5 _classify_rfp_main_heading lines) as [hs|] eqn:Hm;
      cbn [bind]; [|discriminate].
    intros H. ok_inv H.
    destruct (main_headings_entries 35 rfp_levels Hm) as [Ha Hl].
    split; [exact Ha|]. split; [exact Hl|]. rewrite length_firstn. lia. }
  destruct (str_eqb doc_type (lit "pathway")).
  { unfold _extract_pathway_headings.
    destruct (foldM (phrase_heading_step pathway_test) lines ([], [])) as [st|] eqn:Hf;
      cbn [bind]; [|discriminate].
    intros H. ok_inv H.
    destruct (phrase_headings_entries (List.length (fst st)) Hf) as [Ha Hl].
    rewrite firstn_all in Ha, Hl. split; [exact Ha|]. split; [exact Hl|exact I]. }
  unfold _extract_general_main_headings.
  destruct (main_headings 5 _classify_general_main_heading lines) as [hs|] eqn:Hm;
    cbn [bind]; [|discriminate].
  intros H. ok_inv H.
  destruct (main_headings_entries 25 general_levels Hm) as [Ha Hl].
  split; [exact Ha|]. split; [exact Hl|]. rewrite length_firstn. lia.
Qed.

(** X15: the levels of the headings of a document type are those its
    classifier can give (invitation and pathway: H1; academic and general:
    H1 and H2; rfp: H1 to H3), and their number is within the slice that
    ends its extractor (form 0, invitation 2, academic 18, rfp 35,
    general 25). *)
Theorem heading_levels_and_caps (doc_type : str) (lines : list Line.t)
  (doc_analysis : Analysis.t) (headings : list Heading.t) :
  headings_for doc_type lines doc_analysis = Ok headings ->
  Forall (fun h => In (Heading.level h) (levels_of doc_type)) headings
  /\ match heading_cap doc_type with
     | Some n => (List.length headings <= n)%nat
     | None => True
     end.
Proof.
  intros H. destruct (headings_for_entries H) as (Ha & _ & Hc).
  split; [|exact Hc]. eapply Forall_impl; [|exact Ha]. intros h [Hl _]. exact Hl.
Qed.

(** X16: every heading is made from a line of the document, with the
    cleaned text of the line and its page less one, and there are no more
    headings than lines. *)
Theorem headings_from_lines (doc_type : str) (lines : list Line.t)
  (doc_analysis : Analysis.t) (headings : list Heading.t) :
  headings_for doc_type lines doc_analysis = Ok headings ->
  Forall (fun h => exists line, In line lines /\ heading_of_line h line) headings
  /\ (List.length headings <= List.length lines)%nat.
Proof.
  intros H. destruct (headings_for_entries H) as (Ha & Hl & _).
  split; [|exact Hl]. eapply Forall_impl; [|exact Ha]. intros h [_ Hh]. exact Hh.
Qed.

End EntryFacts.

Lemma heading_levels_and_caps_witness :
  exists headings,
    @headings_for ascii_tables (lit "general") numbered_lines Analysis.empty = Ok headings
    /\ List.length headings = 4%nat
    /\ Forall (fun h => In (Heading.level h) (levels_of (lit "general"))) headings
    /\ match heading_cap (lit "general") with
       | Some n => (List.length headings <= n)%nat
       | None => True
       end.
Proof.
  destruct (@headings_for ascii_tables (lit "general") numbered_lines Analysis.empty)
    as [headings|e] eqn:H.
  - exists headings. split; [reflexivity|]. split.
    + vm_compute in H. inversion H. reflexivity.
    + apply (@heading_levels_and_caps ascii_tables (lit "general") numbered_lines
               Analysis.empty headings H).
  - exfalso. vm_compute in H. discriminate.
Defined.

Lemma headings_from_lines_witness :
  exists headings,
    @headings_for ascii_tables (lit "general") numbered_lines Analysis.empty = Ok headings
    /\ List.length headings = 4%nat
    /\ Forall (fun h => exists line, In line numbered_lines /\ heading_of_line h line)
         headings
    /\ (List.length headings <= List.length numbered_lines)%nat.
Proof.
  destruct (@headings_for ascii_tables (lit "general") numbered_lines Analysis.empty)
    as [headings|e] eqn:H.
  - exists headings. split; [reflexivity|]. split.
    + vm_compute in H. inversion H. reflexivity.
    + apply (@headings_from_lines ascii_tables (lit "general") numbered_lines
               Analysis.empty headings H).
  - exfalso. vm_compute in H. discriminate.
Defined.

(** ** Further properties: the outline of a document *)

Section OutlineFacts.
Context {U : UnicodeTables}.

(** X17: the pages of the outline of a document that opens are zero-based
    page numbers of the document. *)
Theorem outline_pages_in_range (fitz_open : PageTextSource) (pdf_path : str)
  (doc : Document) :
  fitz_open pdf_path = Ok doc ->
  Forall (fun h => (0 <= Heading.page h < Z.of_nat (List.length doc))%Z)
    (Outline.outline (extract_outline_robust fitz_open pdf_path)).
Proof.
  intros Hsrc. unfold extract_outline_robust, outline_body, extract_text_with_metadata.
  rewrite Hsrc. cbn [bind].
  destruct (pages_lines 5 0 doc) as [lines|e] eqn:Hl; cbn [bind]; [|constructor].
  destruct (nonempty lines); cbn [negb]; [|constructor].
  destruct (extract_main_headings_only lines (analyze_document_structure lines))
    as [title outline] eqn:Hx.
  cbn [Outline.outline].
  unfold extract_main_headings_only, headings_body in Hx.
  destruct (headings_for (doc_type_of (analyze_document_structure lines)) lines
              (analyze_document_structure lines)) as [hs|] eqn:Hh; cbn [bind] in Hx.
  - inversion Hx; subst.
    destruct (headings_for_entries Hh) as (Ha & _ & _).
    pose proof (pages_lines_pages Hl) as Hp.
    eapply Forall_impl; [|exact Ha].
    intros h (_ & line & Hin & t & p & Ht & Hpg & _ & Hhp).
    rewrite Forall_forall in Hp. destruct (Hp line Hin) as (_ & _ & p' & Hp' & Hr).
    rewrite Hpg in Hp'. inversion Hp'; subst. lia.
  - inversion Hx; subst. constructor.
Qed.

End OutlineFacts.

Lemma outline_pages_in_range_witness :
  exists doc,
    duplicate_source (lit "dup.pdf") = Ok doc
    /\ Outline.outline (@extract_outline_robust ascii_tables duplicate_source (lit "dup.pdf"))
       <> []
    /\ Forall (fun h => (0 <= Heading.page h < Z.of_nat (List.length doc))%Z)
         (Outline.outline
            (@extract_outline_robust ascii_tables duplicate_source (lit "dup.pdf"))).
Proof.
  destruct (duplicate_source (lit "dup.pdf")) as [doc|e] eqn:H.
  - exists doc. split; [reflexivity|]. split; [vm_compute; discriminate|].
    apply (@outline_pages_in_range ascii_tables duplicate_source (lit "dup.pdf") doc H).
  - exfalso. vm_compute in H. discriminate.
Defined.

(** ** Further properties: Text Cleaner *)

Lemma len_nonneg (s : str) : (0 <= len s)%Z.
Proof. unfold len. lia. Qed.

Lemma len_zero (s : str) : len s = 0%Z -> s = [].
Proof. unfold len. destruct s; simpl; [reflexivity|lia]. Qed.

(** X18: the cleaned text is a body without whitespace at its ends,
    followed by one space; the body has at least four tenths of the length
    of the stripped text, so that it is empty for a blank text only, and
    stripping the cleaned text gives the body back. *)
Theorem cleaner_shape (text : str) :
  exists body,
    _clean_heading_text text = body ++ lit " "
    /\ trimmed body
    /\ (2 * len (strip text) <= 5 * len body)%Z
    /\ (strip text <> [] -> body <> [])
    /\ strip (_clean_heading_text text) = body.
Proof.
  rewrite clean_value.
  set (body := if (5 * len (tidy_of (strip (sub_leaders text))) <? 2 * len (strip text))%Z
               then strip text else tidy_of (strip (sub_leaders text))).
  assert (Ht : trimmed body).
  { unfold body. destruct (_ <? _)%Z; [apply strip_trimmed|apply tidy_of_trimmed]. }
  assert (Hg : (2 * len (strip text) <= 5 * len body)%Z).
  { unfold body. destruct (_ <? _)%Z eqn:E.
    - pose proof (@len_nonneg (strip text)). lia.
    - apply Z.ltb_ge in E. exact E. }
  exists body. split; [reflexivity|]. split; [exact Ht|]. split; [exact Hg|]. split.
  - intros Hne Hb. apply Hne, len_zero.
    assert (H0 : len body = 0%Z) by (rewrite Hb; reflexivity).
    pose proof (@len_nonneg (strip text)). lia.
  - apply trimmed_strip_space, Ht.
Qed.

(** ** Further properties: Title Extractor *)

Lemma candidate_lt_false (a b : Candidate) :
  candidate_lt b a = false -> not_better (snd (fst a)) (snd a) b.
Proof.
  destruct a as [[ta sa] ia], b as [[tb sb] ib]. unfold candidate_lt, not_better.
  cbn [fst snd].
  destruct (Z.eqb_spec sb sa); intros H; apply Z.ltb_ge in H; lia.
Qed.

Lemma candidate_sorted (candidates : list Candidate) :
  StronglySorted (fun a b => candidate_lt b a = false) (stable_sort candidate_lt candidates).
Proof.
  apply stable_sort_sorted.
  - intros [[ta sa] ia] [[tb sb] ib]. unfold candidate_lt.
    destruct (Z.eqb_spec sa sb), (Z.eqb_spec sb sa);
      intros H; apply Z.ltb_lt in H; apply Z.ltb_ge; lia.
  - intros [[ta sa] ia] [[tb sb] ib] [[tc sc] ic]. unfold candidate_lt.
    destruct (Z.eqb_spec sb sa), (Z.eqb_spec sc sb), (Z.eqb_spec sc sa);
      intros H1 H2; apply Z.ltb_ge in H1; apply Z.ltb_ge in H2; apply Z.ltb_ge; lia.
Qed.

(** X19: the title chosen among the candidates is the cleaned text of one
    of the greatest score and, among those, of the least index; there is
    none exactly when there is no candidate. *)
Theorem best_title_spec (candidates : list Candidate) :
  match best_title candidates with
  | None => candidates = []
  | Some title =>
      exists text score i,
        In (text, score, i) candidates
        /\ title = _clean_heading_text text
        /\ Forall (not_better score i) candidates
  end.
Proof.
  unfold best_title.
  pose proof (stable_sort_perm candidate_lt candidates) as Hp.
  pose proof (candidate_sorted candidates) as Hs.
  destruct (stable_sort candidate_lt candidates) as [|[[text score] i] rest].
  - apply Permutation_nil. exact Hp.
  - exists text, score, i. split; [|split; [reflexivity|]].
    + apply (Permutation_in _ Hp). left; reflexivity.
    + apply Forall_forall. intros c Hc.
      apply (Permutation_in _ (Permutation_sym Hp)) in Hc.
      inversion Hs as [|? ? _ Hall]; subst.
      destruct Hc as [<-|Hc].
      * unfold not_better. lia.
      * rewrite Forall_forall in Hall.
        apply (@candidate_lt_false (text, score, i) c), Hall, Hc.
Qed.

Lemma app_nonempty (a b : str) : b <> [] -> a ++ b <> [].
Proof. intros Hb H. apply app_eq_nil in H. apply Hb, H. Qed.

Lemma clean_nonempty (s : str) : _clean_heading_text s <> [].
Proof. rewrite clean_value. apply app_nonempty. discriminate. Qed.

Lemma rstrip_cons (c : char) (s : str) : isspace c = false -> rstrip (c :: s) = c :: rstrip s.
Proof.
  intros Hc. unfold rstrip. simpl rev.
  destruct (lstrip (rev s)) as [|x r] eqn:E.
  - destruct (lstrip_decomp (rev s)) as (a & Ha & Hws). rewrite E, app_nil_r in Ha.
    rewrite Ha.
    assert (Hl : lstrip (a ++ [c]) = [c]).
    { clear -Hws Hc. induction a as [|y a IH]; simpl.
      - rewrite Hc. reflexivity.
      - simpl in Hws. apply andb_true_iff in Hws. destruct Hws as [Hy Ha].
        rewrite Hy. apply IH, Ha. }
    rewrite Hl. reflexivity.
  - rewrite lstrip_snoc; [|rewrite E; discriminate].
    rewrite E, rev_app_distr. reflexivity.
Qed.

Lemma startswith_cons (s p : str) (a : char) :
  startswith s (a :: p) = true -> exists s', s = a :: s' /\ startswith s' p = true.
Proof.
  destruct s as [|b s']; simpl; [discriminate|].
  intros H. apply andb_true_iff in H. destruct H as [H1 H2].
  apply N.eqb_eq in H1. subst b. exists s'. split; [reflexivity|exact H2].
Qed.

Lemma endswith_two_spaces (s : str) : endswith (s ++ lit "  ") (lit "  ") = true.
Proof.
  unfold endswith. rewrite rev_app_distr.
  change (rev (lit "  ")) with [32%N; 32%N].
  change (startswith ([32%N; 32%N] ++ rev s) [32%N; 32%N]) with (startswith (rev s) []).
  apply startswith_nil.
Qed.

Section TitleFacts.
Context {U : UnicodeTables}.

Lemma clean_title_file3_shape (text : str) :
  startswith (_clean_title_file3 text) (lit "RFP:") = true
  /\ endswith (_clean_title_file3 text) (lit "  ") = true.
Proof.
  unfold _clean_title_file3.
  set (t1 := re_sub pat_file3_corruption (lit "RFP:Request for Proposal")
               (sub_whitespace (strip text))).
  set (t2 := if negb (startswith t1 (lit "RFP:"))
             then lit "RFP:Request for Proposal " ++ t1 else t1).
  assert (H2 : startswith t2 (lit "RFP:") = true).
  { unfold t2. destruct (startswith t1 (lit "RFP:")) eqn:E; [exact E|reflexivity]. }
  destruct (endswith t2 (lit "  ")) eqn:E; cbn [negb]; [split; assumption|].
  split; [|apply endswith_two_spaces].
  clearbody t2. clear E.
  change (lit "RFP:") with [82%N; 70%N; 80%N; 58%N] in *.
  apply startswith_cons in H2. destruct H2 as (r1 & -> & H2).
  apply startswith_cons in H2. destruct H2 as (r2 & -> & H2).
  apply startswith_cons in H2. destruct H2 as (r3 & -> & H2).
  apply startswith_cons in H2. destruct H2 as (r4 & -> & _).
  rewrite !rstrip_cons by reflexivity.
  change (startswith (([82%N; 70%N; 80%N; 58%N] ++ rstrip r4) ++ lit "  ")
            [82%N; 70%N; 80%N; 58%N])
    with (startswith (rstrip r4 ++ lit "  ") []).
  apply startswith_nil.
Qed.

(** X20: the title of the rfp-variant-3 path starts with the marker
    [RFP:] and ends in two spaces, whatever the lines hold. *)
Theorem file3_title_shape (lines : list Line.t) (title : str) :
  _extract_file3_title lines = Ok title ->
  startswith title (lit "RFP:") = true /\ endswith title (lit "  ") = true.
Proof.
  unfold _extract_file3_title.
  destruct (file3_title_parts lines) as [parts|]; cbn [bind]; [|discriminate].
  destruct (nonempty parts); intros H.
  - assert (title = _clean_title_file3 (join (lit " ") parts)) as -> by congruence.
    apply clean_title_file3_shape.
  - assert (title = lit "RFP:Request for Proposal To Present a Proposal for Developing the Business Plan for the Ontario Digital Library  ") as -> by congruence.
    split; vm_compute; reflexivity.
Qed.

Lemma file3_title_nonempty (text : str) : _clean_title_file3 text <> [].
Proof.
  destruct (clean_title_file3_shape text) as [H _].
  destruct (_clean_title_file3 text); [discriminate|discriminate].
Qed.

Lemma title_body_nonempty (lines : list Line.t) (analysis : Analysis.t) (doc_type : str)
  (title : str) :
  title_body lines analysis doc_type = Ok title -> title <> [].
Proof.
  unfold title_body.
  destruct (nonempty lines); cbn [negb]; [|intros H; inversion H; discriminate].
  destruct (str_eqb doc_type (lit "rfp_file3")).
  { unfold _extract_file3_title.
    destruct (file3_title_parts lines) as [parts|]; cbn [bind]; [|discriminate].
    destruct (nonempty parts); intros H; inversion H; subst;
      [apply file3_title_nonempty|discriminate]. }
  destruct (str_eqb doc_type (lit "academic")).
  { unfold _extract_academic_title.
    destruct (first_page_lines 30 lines) as [fpl|]; cbn [bind]; [|discriminate].
    destruct (academic_title_candidates analysis fpl) as [cs|]; cbn [bind]; [|discriminate].
    unfold best_title.
    destruct (stable_sort candidate_lt cs) as [|[[t s] i] rest].
    - destruct (academic_fallback fpl) as [[found|]|]; cbn [bind];
        intros H; inversion H; subst; [apply clean_nonempty|discriminate].
    - intros H; inversion H; subst. apply clean_nonempty. }
  destruct (title_candidates lines analysis) as [cs|]; cbn [bind]; [|discriminate].
  unfold best_title.
  destruct (stable_sort candidate_lt cs) as [|[[t s] i] rest];
    intros H; inversion H; subst; [discriminate|apply clean_nonempty].
Qed.

Lemma title_nonempty (lines : list Line.t) (analysis : Analysis.t) (doc_type : str) :
  _extract_multilingual_title lines analysis doc_type <> [].
Proof.
  unfold _extract_multilingual_title.
  destruct (title_body lines analysis doc_type) as [title|] eqn:E; [|discriminate].
  apply (title_body_nonempty E).
Qed.

Lemma headings_title_nonempty (lines : list Line.t) (analysis : Analysis.t) :
  fst (extract_main_headings_only lines analysis) <> [].
Proof.
  unfold extract_main_headings_only, headings_body.
  destruct (headings_for (doc_type_of analysis) lines analysis); cbn [bind fst];
    [apply title_nonempty|discriminate].
Qed.

Lemma outline_title_nonempty (fitz_open : PageTextSource) (pdf_path : str) :
  Outline.title (extract_outline_robust fitz_open pdf_path) <> [].
Proof.
  unfold extract_outline_robust, outline_body.
  destruct (extract_text_with_metadata fitz_open pdf_path 5) as [[ls n]|];
    cbn [bind]; [|discriminate].
  destruct (nonempty ls); cbn [negb]; [|discriminate].
  pose proof (@headings_title_nonempty ls (analyze_document_structure ls)) as H.
  destruct (extract_main_headings_only ls (analyze_document_structure ls)) as [title outline].
  exact H.
Qed.

(** X21: the title is never the empty string: neither the title of the
    Title Extractor, for any lines, analysis and document type, nor the
    title of the outline of a document. *)
Theorem title_never_empty (fitz_open : PageTextSource) (pdf_path : str)
  (lines : list Line.t) (analysis : Analysis.t) (doc_type : str) :
  _extract_multilingual_title lines analysis doc_type <> []
  /\ fst (extract_main_headings_only lines analysis) <> []
  /\ Outline.title (extract_outline_robust fitz_open pdf_path) <> [].
Proof.
  split; [apply title_nonempty|].
  split; [apply headings_title_nonempty|apply outline_title_nonempty].
Qed.

End TitleFacts.

Lemma file3_title_shape_witness :
  exists title,
    @_extract_file3_title ascii_tables mixed_lines = Ok title
    /\ startswith title (lit "RFP:") = true /\ endswith title (lit "  ") = true.
Proof.
  destruct (@_extract_file3_title ascii_tables mixed_lines) as [title|e] eqn:H.
  - exists title. split; [reflexivity|].
    apply (@file3_title_shape ascii_tables mixed_lines title H).
  - exfalso. vm_compute in H. discriminate.
Defined.

(** ** Further properties: patterns *)

Lemma star_split (p : char -> bool) (k : cont) (s r : str) :
  star p k s = Some r ->
  exists run rest, s = run ++ rest /\ forallb p run = true /\ k rest = Some r.
Proof.
  induction s as [|c s IH]; simpl; intros H.
  - exists [], []. repeat split. exact H.
  - destruct (p c) eqn:Ec.
    + destruct (star p k s) as [r'|] eqn:Es.
      * inversion H; subst. destruct (IH eq_refl) as (run & rest & -> & Hrun & Hk).
        exists (c :: run), rest. simpl. rewrite Ec, Hrun. repeat split. exact Hk.
      * exists [], (c :: s). repeat split. exact H.
    + exists [], (c :: s). repeat split. exact H.
Qed.

Lemma star_reach (p : char -> bool) (k : cont) (run rest r : str) :
  forallb p run = true -> k rest = Some r -> exists r', star p k (run ++ rest) = Some r'.
Proof.
  intros Hrun Hk.
  assert (H0 : exists r', star p k rest = Some r').
  { destruct rest as [|c s]; simpl; [exists r; exact Hk|].
    destruct (p c); [|exists r; exact Hk].
    destruct (star p k s) as [r'|]; [exists r'; reflexivity|exists r; exact Hk]. }
  induction run as [|c run IH]; [exact H0|].
  simpl in Hrun. apply andb_true_iff in Hrun. destruct Hrun as [Hc Hrun].
  destruct (IH Hrun) as [r' Hr']. simpl. rewrite Hc, Hr'. exists r'. reflexivity.
Qed.

Lemma plus_split (p : char -> bool) (k : cont) (s r : str) :
  plus p k s = Some r ->
  exists run rest, s = run ++ rest /\ run <> [] /\ forallb p run = true /\ k rest = Some r.
Proof.
  unfold plus, cls. destruct s as [|c s]; [discriminate|].
  destruct (p c) eqn:Ec; [|discriminate].
  intros H. destruct (star_split H) as (run & rest & -> & Hrun & Hk).
  exists (c :: run), rest. simpl. rewrite Ec, Hrun. repeat split; [discriminate|exact Hk].
Qed.

Lemma plus_reach (p : char -> bool) (k : cont) (run rest r : str) :
  run <> [] -> forallb p run = true -> k rest = Some r ->
  exists r', plus p k (run ++ rest) = Some r'.
Proof.
  intros Hne Hrun Hk. destruct run as [|c run]; [congruence|].
  simpl in Hrun. apply andb_true_iff in Hrun. destruct Hrun as [Hc Hrun].
  unfold plus, cls. simpl. rewrite Hc. apply (star_reach Hrun Hk).
Qed.

Section PatternFacts.
Context {U : UnicodeTables}.

(** X22: [_is_numbered_pattern] holds exactly of the texts that start with
    one or more decimal digits followed by a dot, a closing parenthesis or
    a colon. *)
Theorem is_numbered_pattern_iff (text : str) :
  _is_numbered_pattern text = true
  <-> exists digits c rest,
        text = digits ++ c :: rest
        /\ digits <> [] /\ forallb is_decimal digits = true
        /\ is_number_mark c = true.
Proof.
  unfold _is_numbered_pattern, re_match, pat_leading_number, seq. split.
  - destruct (plus is_decimal (cls (fun c => (c =? 46)%N || (c =? 41)%N || (c =? 58)%N)
                                 accept) text) as [r|] eqn:E; [|discriminate].
    intros _. destruct (plus_split E) as (run & rest & -> & Hne & Hrun & Hk).
    unfold cls in Hk. destruct rest as [|c rest]; [discriminate|].
    destruct ((c =? 46)%N || (c =? 41)%N || (c =? 58)%N) eqn:Ec; [|discriminate].
    exists run, c, rest. repeat split; assumption.
  - intros (digits & c & rest & -> & Hne & Hd & Hc).
    assert (Hk : cls (fun c => (c =? 46)%N || (c =? 41)%N || (c =? 58)%N) accept (c :: rest)
                 = Some rest).
    { unfold cls. unfold is_number_mark in Hc. rewrite Hc. reflexivity. }
    destruct (plus_reach Hne Hd Hk) as [r' ->]. reflexivity.
Qed.

Lemma numbered_text_match (text : str) :
  numbered_text text -> re_match pat_numbered text = true.
Proof.
  intros (digits & spaces & c & rest & -> & Hdn & Hd & Hsn & Hs & Hc).
  unfold re_match, pat_numbered, seq.
  assert (H1 : cls is_AZ accept (c :: rest) = Some rest).
  { unfold cls. rewrite Hc. reflexivity. }
  destruct (plus_reach (k := cls is_AZ accept) Hsn Hs H1) as [r2 H2].
  assert (H3 : chr 46%N (plus isspace (cls is_AZ accept)) ([46%N] ++ spaces ++ c :: rest)
               = Some r2).
  { unfold chr, cls. simpl. exact H2. }
  destruct (plus_reach (k := chr 46%N (plus isspace (cls is_AZ accept))) Hdn Hd H3)
    as [r4 H4].
  cbv beta.
  match goal with
  | |- match ?t with Some _ => true | None => false end = true =>
      assert (Ht : t = Some r4) by exact H4; rewrite Ht
  end.
  reflexivity.
Qed.

(** X23: a text that starts with a number, a dot, whitespace and a capital
    letter is a heading of level H1 for the general and the academic
    classifier, whatever the line and the thresholds are. *)
Theorem numbered_text_is_h1 (text : str) (line : Line.t) (font_analysis : FontThresholds) :
  numbered_text text ->
  _classify_general_main_heading text line font_analysis = Ok (Some H1)
  /\ _classify_academic_main_heading text line font_analysis = Ok (Some H1).
Proof.
  intros H. apply numbered_text_match in H.
  unfold _classify_general_main_heading, _classify_academic_main_heading.
  rewrite H. split; [reflexivity|].
  destruct (re_match pat_academic_fixed (lower text)); reflexivity.
Qed.

End PatternFacts.

Lemma numbered_text_is_h1_witness :
  numbered_text (lit "12.  Results and discussion")
  /\ _classify_general_main_heading (lit "12.  Results and discussion")
       no_size_line [] = Ok (Some H1)
  /\ @_classify_academic_main_heading ascii_tables (lit "12.  Results and discussion")
       no_size_line [] = Ok (Some H1).
Proof.
  assert (H : numbered_text (lit "12.  Results and discussion")).
  { exists (lit "12"), (lit "  "), 82%N, (lit "esults and discussion").
    repeat split; try discriminate; reflexivity. }
  split; [exact H|].
  apply (@numbered_text_is_h1 ascii_tables (lit "12.  Results and discussion")
           no_size_line [] H).
Defined.

(** ** Further properties: the batch run *)

Lemma zsum_nonneg (l : list Z) : Forall (fun z => (0 <= z)%Z) l -> (0 <= zsum l)%Z.
Proof.
  induction 1 as [|z l Hz _ IH]; [unfold zsum; simpl; lia|].
  rewrite zsum_cons. lia.
Qed.

Section BatchFacts.
Context {U : UnicodeTables}.
Variable fitz_open : PageTextSource.

Lemma batch_fold (pdf_files : list PdfFile.t) (rows : list Row.t) (written : list Write) :
  fold_left (batch_step fitz_open) pdf_files (rows, written)
  = (rows ++ List.map (batch_row fitz_open) pdf_files,
     written ++ List.map (batch_write fitz_open) pdf_files).
Proof.
  revert rows written. induction pdf_files as [|pdf rest IH]; intros rows written; simpl.
  - rewrite !app_nil_r. reflexivity.
  - rewrite IH, <- !app_assoc. reflexivity.
Qed.

Lemma batch_row_ok (pdf : PdfFile.t) : row_of_file fitz_open pdf (batch_row fitz_open pdf).
Proof.
  unfold row_of_file, batch_row, opens. cbn [Row.file Row.output_file Row.success
    Row.headings_count Row.title].
  split; [reflexivity|]. split; [reflexivity|].
  assert (Ht : Outline.title (extract_outline_robust fitz_open (PdfFile.path pdf)) <> []).
  { apply outline_title_nonempty. }
  destruct (fitz_open (PdfFile.path pdf)) as [doc|e] eqn:Hsrc.
  - destruct (outline_body_ok U Hsrc) as [r Hr].
    destruct (outline_body_no_error Hr) as [He _].
    unfold extract_outline_robust in *. rewrite Hr in *. rewrite He.
    split; [reflexivity|]. split; [lia|]. split; [exact Ht|discriminate].
  - assert (Hb : outline_body fitz_open (PdfFile.path pdf) = Raise e).
    { unfold outline_body. rewrite (extract_text_raise _ Hsrc). reflexivity. }
    unfold extract_outline_robust in *. rewrite Hb in *. cbn [Outline.error Outline.outline
      Outline.title].
    split; [reflexivity|]. split; [simpl; lia|]. split; [discriminate|].
    intros _. split; reflexivity.
Qed.

Lemma batch_rows_ok (pdf_files : list PdfFile.t) :
  Forall2 (row_of_file fitz_open) pdf_files (List.map (batch_row fitz_open) pdf_files).
Proof.
  induction pdf_files as [|pdf rest IH]; simpl; constructor; [apply batch_row_ok|exact IH].
Qed.

Lemma batch_successes (pdf_files : list PdfFile.t) :
  List.length (filter Row.success (List.map (batch_row fitz_open) pdf_files))
  = List.length (filter (opens fitz_open) pdf_files).
Proof.
  induction pdf_files as [|pdf rest IH]; simpl; [reflexivity|].
  destruct (batch_row_ok pdf) as (_ & _ & Hs & _).
  change (Row.success (batch_row fitz_open pdf)) with
    (match Outline.error (extract_outline_robust fitz_open (PdfFile.path pdf))
     with None => true | Some _ => false end) in Hs.
  rewrite Hs. destruct (opens fitz_open pdf); simpl; rewrite IH; reflexivity.
Qed.

(** X24: the run over a directory with documents writes one outline for
    each and then the schema; its summary has one row for each document,
    in their order, counts as successful exactly the documents that open,
    and gives a document that does not open no heading and the title of
    the error. *)
Theorem batch_summary (pdf_files : list PdfFile.t) :
  pdf_files <> [] ->
  exists successful total_headings rows written,
    run_multilingual_extraction fitz_open pdf_files
    = (Summary.Done (Z.of_nat (List.length pdf_files)) successful total_headings true
         (lit "schema/schema.json") rows,
       written ++ [WriteSchema (lit "schema/schema.json")])
    /\ Forall2 (row_of_file fitz_open) pdf_files rows
    /\ successful = Z.of_nat (List.length (filter (opens fitz_open) pdf_files))
    /\ total_headings = zsum (List.map Row.headings_count rows)
    /\ (0 <= total_headings)%Z
    /\ Forall2 (fun pdf w =>
                  w = WriteOutline (lit "output/" ++ PdfFile.stem pdf ++ lit "_outline.json")
                        (extract_outline_robust fitz_open (PdfFile.path pdf)))
         pdf_files written.
Proof.
  intros Hne. unfold run_multilingual_extraction.
  destruct pdf_files as [|pdf0 rest]; [congruence|]. cbn [nonempty negb].
  rewrite batch_fold. cbn [app].
  set (files := pdf0 :: rest).
  exists (Z.of_nat (List.length (filter Row.success (List.map (batch_row fitz_open) files)))),
    (zsum (List.map Row.headings_count (List.map (batch_row fitz_open) files))),
    (List.map (batch_row fitz_open) files), (List.map (batch_write fitz_open) files).
  split; [reflexivity|]. split; [apply batch_rows_ok|].
  split; [rewrite batch_successes; reflexivity|]. split; [reflexivity|]. split.
  - apply zsum_nonneg. rewrite map_map. apply Forall_forall. intros z Hz.
    apply in_map_iff in Hz. destruct Hz as (pdf & <- & _). simpl. lia.
  - clear. induction files as [|pdf l IH]; simpl; constructor; [reflexivity|exact IH].
Qed.

End BatchFacts.

Lemma batch_summary_witness :
  exists successful total_headings rows written,
    @run_multilingual_extraction ascii_tables two_files_source two_files
    = (Summary.Done (Z.of_nat (List.length two_files)) successful total_headings true
         (lit "schema/schema.json") rows,
       written ++ [WriteSchema (lit "schema/schema.json")])
    /\ Forall2 (row_of_file two_files_source) two_files rows
    /\ successful = Z.of_nat (List.length (filter (opens two_files_source) two_files))
    /\ total_headings = zsum (List.map Row.headings_count rows)
    /\ (0 <= total_headings)%Z
    /\ Forall2 (fun pdf w =>
                  w = WriteOutline (lit "output/" ++ PdfFile.stem pdf ++ lit "_outline.json")
                        (@extract_outline_robust ascii_tables two_files_source
                           (PdfFile.path pdf)))
         two_files written.
Proof.
  apply (@batch_summary ascii_tables two_files_source two_files). discriminate.
Defined.


(** ** Further properties: script detection *)

Section ScriptFacts.
Context {U : UnicodeTables} {D : UnicodeNames}.

Lemma script_key_known (c : char) :
  In (script_key c) (script_names ++ [lit "OTHER"; lit "UNKNOWN"]).
Proof.
  unfold script_key.
  destruct (is_ascii c).
  - destruct (is_AZ c || is_az c); [left; reflexivity|].
    destruct ((c <? 32)%N || (c =? 127)%N); apply in_or_app; right; simpl; tauto.
  - destruct (u_name_head c) as [script|]; [|apply in_or_app; right; simpl; tauto].
    destruct (existsb (str_eqb script) script_names) eqn:E.
    + apply in_or_app; left. apply existsb_exists in E. destruct E as (x & Hx & Hs).
      unfold str_eqb in Hs. destruct (list_eq_dec N.eq_dec script x); [|discriminate].
      subst x. exact Hx.
    + apply in_or_app; right; simpl; tauto.
Qed.

Lemma counter_add_keys (K : Type) (eqb : K -> K -> bool) (P : K -> Prop) (k : K)
  (c : list (K * Z)) :
  P k -> Forall (fun e => P (fst e)) c -> Forall (fun e => P (fst e)) (counter_add eqb k c).
Proof.
  intros Hk. induction 1 as [|[k' n] c He Hc IH]; simpl.
  - constructor; [exact Hk|constructor].
  - destruct (eqb k' k); constructor; try assumption.
Qed.

Lemma script_counts_keys (text : str) (counts : list (str * Z)) :
  Forall (fun e => In (fst e) (script_names ++ [lit "OTHER"; lit "UNKNOWN"])) counts ->
  Forall (fun e => In (fst e) (script_names ++ [lit "OTHER"; lit "UNKNOWN"]))
    (fold_left script_step text counts).
Proof.
  revert counts. induction text as [|c text IH]; intros counts H; simpl; [exact H|].
  apply IH. unfold script_step. destruct (skipped c); [exact H|].
  apply (@counter_add_keys _ str_eqb
           (fun k => In k (script_names ++ [lit "OTHER"; lit "UNKNOWN"])));
    [apply script_key_known|exact H].
Qed.

Lemma lower_script_label (key : str) :
  In key (script_names ++ [lit "OTHER"; lit "UNKNOWN"]) -> In (lower key) script_labels.
Proof.
  intros H. simpl in H.
  repeat (destruct H as [<-|H]; [vm_compute; tauto|]).
  destruct H.
Qed.

Lemma script_counts_skipped (text : str) (counts : list (str * Z)) :
  forallb skipped text = true -> fold_left script_step text counts = counts.
Proof.
  revert counts. induction text as [|c text IH]; intros counts H; simpl; [reflexivity|].
  simpl in H. apply andb_true_iff in H. destruct H as [Hc Ht].
  assert (Hstep : script_step counts c = counts).
  { unfold script_step. rewrite Hc. reflexivity. }
  rewrite Hstep. apply IH, Ht.
Qed.

(** X25: the script of a text is one of thirteen labels, and it is
    [unknown] for a text in which every character is whitespace, a digit
    or one of the punctuation marks that the loop skips. *)
Theorem detect_script_type_range (text : str) :
  In (_detect_script_type text) script_labels
  /\ (forallb skipped text = true -> _detect_script_type text = lit "unknown").
Proof.
  unfold _detect_script_type. split.
  - destruct (nonempty text); cbn [negb]; [|vm_compute; tauto].
    pose proof (@script_counts_keys text [] (Forall_nil _)) as Hk.
    destruct (fold_left script_step text []) as [|c0 cs]; [vm_compute; tauto|].
    apply lower_script_label.
    destruct (max_by_spec snd c0 cs) as [Hin _].
    rewrite Forall_forall in Hk. apply (Hk _ Hin).
  - intros Hs. destruct (nonempty text); cbn [negb]; [|reflexivity].
    rewrite (script_counts_skipped [] Hs). reflexivity.
Qed.

Lemma script_key_letter (c : char) : is_letter c = true -> script_key c = lit "LATIN".
Proof.
  unfold is_letter, script_key. intros H.
  assert (Ha : is_ascii c = true).
  { unfold is_ascii, is_AZ, is_az, in_range in *.
    apply orb_true_iff in H. apply N.ltb_lt.
    destruct H as [H|H]; apply andb_true_iff in H; destruct H as [_ H];
      apply N.leb_le in H; lia. }
  rewrite Ha, H. reflexivity.
Qed.

Lemma latin_counts (text : str) (counts : list (str * Z)) :
  forallb (fun c => skipped c || is_letter c) text = true ->
  (counts = [] \/ exists n, counts = [(lit "LATIN", n)]) ->
  (fold_left script_step text counts = counts
   /\ forallb skipped text = true)
  \/ exists n, fold_left script_step text counts = [(lit "LATIN", n)].
Proof.
  revert counts. induction text as [|c text IH]; intros counts H Hc; simpl.
  - left. split; reflexivity.
  - simpl in H. apply andb_true_iff in H. destruct H as [H1 H2].
    destruct (skipped c) eqn:Es.
    + assert (Hstep : script_step counts c = counts).
      { unfold script_step. rewrite Es. reflexivity. }
      rewrite Hstep.
      destruct (IH counts H2 Hc) as [[Hf Hs]|Hn]; [left|right; exact Hn].
      split; [exact Hf|exact Hs].
    + simpl in H1.
      assert (Hstep : script_step counts c = counter_add str_eqb (lit "LATIN") counts).
      { unfold script_step. rewrite Es, (script_key_letter H1). reflexivity. }
      rewrite Hstep.
      right.
      assert (Hc' : exists n, counter_add str_eqb (lit "LATIN") counts = [(lit "LATIN", n)]).
      { destruct Hc as [->|[n ->]]; [exists 1%Z; reflexivity|].
        exists (n + 1)%Z. reflexivity. }
      destruct Hc' as [n Hn]. rewrite Hn.
      destruct (IH [(lit "LATIN", n)] H2 (or_intror (ex_intro _ n eq_refl)))
        as [[Hf _]|Hm]; [exists n; exact Hf|exact Hm].
Qed.

(** X26: a text of ASCII letters and skipped characters, with one letter
    at least, is of the script [latin]. *)
Theorem detect_script_type_latin (text : str) :
  forallb (fun c => skipped c || is_letter c) text = true ->
  forallb skipped text = false ->
  _detect_script_type text = lit "latin".
Proof.
  intros H Hn. unfold _detect_script_type.
  destruct text as [|c0 rest]; [discriminate|]. cbn [nonempty negb].
  destruct (@latin_counts (c0 :: rest) [] H (or_introl eq_refl)) as [[_ Hs]|[n Hf]].
  - rewrite Hs in Hn. discriminate.
  - rewrite Hf. reflexivity.
Qed.

End ScriptFacts.

Lemma detect_script_type_latin_witness :
  @_detect_script_type ascii_tables ascii_names (lit "Chapter 12: Results (2024)")
  = lit "latin".
Proof.
  apply (@detect_script_type_latin ascii_tables ascii_names
           (lit "Chapter 12: Results (2024)")); reflexivity.
Defined.

(** ** Further properties: metadata *)

Lemma re_search_app (r : re) (a s : str) : re_match r s = true -> re_search r (a ++ s) = true.
Proof.
  intros H. induction a as [|c a IH]; simpl.
  - destruct s; simpl; rewrite H; reflexivity.
  - rewrite IH. apply orb_true_r.
Qed.

Lemma is_09_decimal (c : char) : is_09 c = true -> is_decimal c = true.
Proof.
  intros H. unfold is_decimal, decimal_zeros. cbn [existsb].
  change (48 + 9)%N with 57%N. unfold is_09 in H. rewrite H. reflexivity.
Qed.

Lemma is_09_bounds (c : char) : is_09 c = true -> (48 <= c <= 57)%N.
Proof.
  unfold is_09, in_range. intros H. apply andb_true_iff in H. destruct H as [H1 H2].
  apply N.leb_le in H1, H2. lia.
Qed.

Lemma is_09_not_space (c : char) : is_09 c = true -> isspace c = false.
Proof.
  intros H. apply is_09_bounds in H. unfold isspace, in_range.
  repeat match goal with
         | |- context [(?a <=? ?b)%N] => destruct (N.leb_spec a b)
         | |- context [(?a =? ?b)%N] => destruct (N.eqb_spec a b)
         end; simpl; try reflexivity; lia.
Qed.

Lemma is_09_lower (c : char) : is_09 c = true -> ascii_lower c = c.
Proof.
  intros H. apply is_09_bounds in H. unfold ascii_lower, is_AZ, in_range.
  destruct (N.leb_spec 65 c); simpl; [lia|reflexivity].
Qed.

Lemma lstrip_keeps (a m b : str) (c : char) :
  isspace c = false -> exists a1, lstrip (a ++ (c :: m) ++ b) = a1 ++ (c :: m) ++ b.
Proof.
  intros Hc. induction a as [|x a [a1 IH]]; simpl.
  - rewrite Hc. exists []. reflexivity.
  - destruct (isspace x); [exists a1; exact IH|].
    exists (x :: a). reflexivity.
Qed.

Lemma strip_keeps (a m b : str) :
  m <> [] -> forallb is_09 m = true ->
  exists a1 b1, strip (a ++ m ++ b) = a1 ++ m ++ b1.
Proof.
  intros Hne Hm.
  destruct m as [|c m']; [congruence|].
  assert (Hc : isspace c = false).
  { simpl in Hm. apply andb_true_iff in Hm. apply is_09_not_space, Hm. }
  destruct (lstrip_keeps a m' b Hc) as [a1 Ha].
  unfold strip. rewrite Ha. unfold rstrip.
  destruct (rev (c :: m')) as [|d r] eqn:Er.
  { apply (f_equal (@List.length _)) in Er. rewrite length_rev in Er. discriminate. }
  assert (Hd : isspace d = false).
  { apply is_09_not_space.
    rewrite forallb_forall in Hm. apply Hm. apply in_rev. rewrite Er. left; reflexivity. }
  assert (Hrev : rev (a1 ++ (c :: m') ++ b) = rev b ++ (d :: r) ++ rev a1).
  { rewrite !rev_app_distr, Er, <- app_assoc. reflexivity. }
  rewrite Hrev.
  destruct (lstrip_keeps (rev b) r (rev a1) Hd) as [b1 Hb]. rewrite Hb.
  exists a1, (rev b1).
  rewrite !rev_app_distr, rev_involutive, <- Er, rev_involutive, <- app_assoc.
  reflexivity.
Qed.

Section MetadataFacts.
Context {U : UnicodeTables}.

(** X27: an ASCII text that holds four digits in a row is metadata for
    [_is_universal_metadata], whatever stands around them. *)
Theorem four_digits_are_metadata (a digits b : str) :
  forallb is_ascii (a ++ digits ++ b) = true ->
  List.length digits = 4%nat ->
  forallb is_09 digits = true ->
  _is_universal_metadata (a ++ digits ++ b) = true.
Proof.
  intros Ha Hl Hd. unfold _is_universal_metadata, lower. rewrite Ha.
  rewrite !map_app.
  assert (Hmap : List.map ascii_lower digits = digits).
  { clear -Hd. induction digits as [|c ds IH]; [reflexivity|].
    simpl in Hd. apply andb_true_iff in Hd. destruct Hd as [Hc Hds].
    simpl. rewrite (is_09_lower Hc), (IH Hds). reflexivity. }
  rewrite Hmap.
  assert (Hne : digits <> []) by (intros ->; discriminate).
  destruct (strip_keeps (List.map ascii_lower a) (List.map ascii_lower b) Hne Hd)
    as (a1 & b1 & ->).
  apply existsb_exists. exists (times 4 is_decimal). split.
  - unfold metadata_patterns. simpl. tauto.
  - apply re_search_app.
    destruct digits as [|d1 [|d2 [|d3 [|d4 [|d5 ds]]]]]; try discriminate.
    simpl in Hd.
    repeat (apply andb_true_iff in Hd; destruct Hd as [?H Hd]).
    unfold re_match, times, cls. simpl.
    rewrite !is_09_decimal by assumption. reflexivity.
Qed.

End MetadataFacts.

Lemma four_digits_are_metadata_witness :
  @_is_universal_metadata ascii_tables (lit "Annual Report 2024 of the Board") = true.
Proof.
  apply (@four_digits_are_metadata ascii_tables (lit "Annual Report ") (lit "2024")
           (lit " of the Board")); reflexivity.
Defined.

(** ** Local recovery *)








Section NoFailure.
Context {U : UnicodeTables}.

















End NoFailure.

Section LocalRecovery.
Context {U : UnicodeTables}.


End LocalRecovery.

